(** * Sungrow WiNet-S integration: a shallow embedding and its properties

    The development follows the three Python modules of the integration:
    - [sungrow.py]     : the websocket client (module [Sungrow]);
    - [coordinator.py] : the per-device update coordinators (module [Coordinator]);
    - [__init__.py]    : device discovery (module [WiNet]).

    Python values that come off the wire are modelled by [json]; coroutines
    are functions in a state-and-exception monad over the object they
    mutate; the gateway is a deterministic oracle indexed by how many times
    each transport primitive has been awaited.  Logging is left out, except
    that the arguments of a logging call are evaluated (they can raise). *)

From Stdlib Require Import ZArith Lia.
From stdpp Require Import base option list gmap strings pretty.

Local Open Scope string_scope.
Local Open Scope Z_scope.
Local Open Scope list_scope.

(** ** Python values and exceptions *)

Module Py.

(** Values produced by [json.loads].  JSON numbers are integers here: every
    number the protocol compares or formats is an integer code or id. *)
#[warnings="-register-all"]
Inductive json : Type :=
| JNull
| JBool (b : bool)
| JInt (z : Z)
| JStr (s : string)
| JList (l : list json)
| JDict (d : gmap string json).

(** Hashable values up to [==]/[hash]: what a [dict] or [set] keeps of a key.
    [True]/[False] collapse onto [1]/[0] as in Python. *)
Inductive pykey : Type :=
| KNone
| KInt (z : Z)
| KStr (s : string).

#[global] Instance pykey_eq_dec : EqDecision pykey.
Proof. solve_decision. Defined.

#[global] Instance pykey_countable : Countable pykey.
Proof.
  refine (inj_countable'
    (fun k => match k with
              | KNone => inl tt
              | KInt z => inr (inl z)
              | KStr s => inr (inr s)
              end)
    (fun x => match x with
              | inl _ => KNone
              | inr (inl z) => KInt z
              | inr (inr s) => KStr s
              end) _).
  intros []; reflexivity.
Defined.

(** The formatted messages of [SungrowError], kept as template and holes. *)
Inductive error_message : Type :=
| UnknownResult (code : Z) (msg : json)
    (* f"Unknown result returned from server: {code:d}:{msg}" *)
| TokenRequestError (code : Z) (msg : json)
    (* f"Token request error: {code:d}:{msg}" *)
| FailedToConnect (url : string) (attempts : nat).
    (* f"Failed to connect to {url} after {attempts:d} attempts." *)

Inductive exn : Type :=
| SungrowError (m : error_message)
| TokenExpiredError                 (* subclass of SungrowError *)
| ConnectionError
| TimeoutError
| KeyError (k : pykey)
| TypeError
| ValueError
| AttributeError
| UnboundLocalError
| UpdateFailed (err : exn)
| ConfigEntryNotReady.

(** [isinstance(e, SungrowError)], as tested by [except SungrowError]. *)
Definition is_SungrowError (e : exn) : bool :=
  match e with
  | SungrowError _ | TokenExpiredError => true
  | _ => false
  end.

(** What running a piece of code gives: a value, an exception, or no answer
    within the iterations the model was allowed ([Diverge]). *)
Inductive outcome (A : Type) : Type :=
| Return (a : A)
| Raise (e : exn)
| Diverge.
Arguments Return {A} a.
Arguments Raise {A} e.
Arguments Diverge {A}.

(** Code that reads and mutates an object of type [S]. *)
Definition M (S A : Type) : Type := S -> outcome A * S.

Definition ret {S A} (a : A) : M S A := fun s => (Return a, s).
Definition raise {S A} (e : exn) : M S A := fun s => (Raise e, s).
Definition diverge {S A} : M S A := fun s => (Diverge, s).

Definition bind {S A B} (k : A -> M S B) (m : M S A) : M S B :=
  fun s =>
    match m s with
    | (Return a, s') => k a s'
    | (Raise e, s') => (Raise e, s')
    | (Diverge, s') => (Diverge, s')
    end.

(** stdpp's monad notations: [x ← m; k] and [m;; k]. *)
#[global] Instance M_ret {S} : MRet (M S) := @ret S.
#[global] Instance M_bind {S} : MBind (M S) := @bind S.

Definition get {S} : M S S := fun s => (Return s, s).
Definition gets {S A} (f : S -> A) : M S A := fun s => (Return (f s), s).
Definition modify {S} (f : S -> S) : M S unit := fun s => (Return tt, f s).

(** A pure computation that may raise. *)
Definition lift {S A} (o : outcome A) : M S A := fun s => (o, s).

(** [try: m  except ...: handler].  The handler answers [None] for an
    exception no [except] clause matches, which then propagates. *)
Definition try_except {S A} (m : M S A) (handler : exn -> option (M S A)) : M S A :=
  fun s =>
    match m s with
    | (Raise e, s') =>
        match handler e with
        | Some h => h s'
        | None => (Raise e, s')
        end
    | r => r
    end.

(** [try: x = m  except ...: handler  else: k x]: the [except] clauses
    guard [m] only. *)
Definition try_except_else {S A B} (m : M S A) (handler : exn -> option (M S B))
    (k : A -> M S B) : M S B :=
  fun s =>
    match m s with
    | (Return a, s') => k a s'
    | (Raise e, s') =>
        match handler e with
        | Some h => h s'
        | None => (Raise e, s')
        end
    | (Diverge, s') => (Diverge, s')
    end.

(** Run code written against a component [T] of a larger object [S]. *)
Definition zoom {S T A} (get : S -> T) (set : T -> S -> S) (m : M T A) : M S A :=
  fun s => let '(r, t') := m (get s) in (r, set t' s).

(** *** Operators on values *)

(** [bool(j)] *)
Definition truthy (j : json) : bool :=
  match j with
  | JNull => false
  | JBool b => b
  | JInt z => negb (z =? 0)
  | JStr s => negb (String.eqb s "")
  | JList l => match l with [] => false | _ => true end
  | JDict d => negb (bool_decide (d = ∅))
  end.

(** [j == z] for an integer literal [z]. *)
Definition py_eq_int (j : json) (z : Z) : bool :=
  match j with
  | JInt x => x =? z
  | JBool b => Z.b2z b =? z
  | _ => false
  end.

(** [j == s] for a string literal [s]. *)
Definition py_eq_str (j : json) (s : string) : bool :=
  match j with
  | JStr x => String.eqb x s
  | _ => false
  end.

(** [j.get(key, default)] *)
Definition py_get (j : json) (key : string) (dflt : json) : outcome json :=
  match j with
  | JDict d => Return (default dflt (d !! key))
  | _ => Raise AttributeError
  end.

(** [j[key]] with a [str] key. *)
Definition py_getitem (j : json) (key : string) : outcome json :=
  match j with
  | JDict d =>
      match d !! key with
      | Some v => Return v
      | None => Raise (KeyError (KStr key))
      end
  | _ => Raise TypeError
  end.

(** [format(j, "d")], the [{...:d}] of an f-string. *)
Definition format_d (j : json) : outcome Z :=
  match j with
  | JInt z => Return z
  | JBool b => Return (Z.b2z b)
  | JStr _ => Raise ValueError
  | _ => Raise TypeError
  end.

(** [hash(j)]: the key a dict or set files [j] under. *)
Definition py_hash (j : json) : outcome pykey :=
  match j with
  | JNull => Return KNone
  | JBool b => Return (KInt (Z.b2z b))
  | JInt z => Return (KInt z)
  | JStr s => Return (KStr s)
  | JList _ | JDict _ => Raise TypeError
  end.

Fixpoint chars (s : string) : list json :=
  match s with
  | EmptyString => []
  | String c s' => JStr (String c EmptyString) :: chars s'
  end.

(** [list(iter(j))]: what a [for] loop over [j] visits. *)
Definition py_iter (j : json) : outcome (list json) :=
  match j with
  | JList l => Return l
  | JDict d => Return (JStr <$> (map_to_list d).*1)
  | JStr s => Return (chars s)
  | _ => Raise TypeError
  end.

End Py.

(** ** [sungrow.py]: the websocket client *)

Module Sungrow.
Import Py.

Definition RESULT_SUCCESS : Z := 1.
Definition RESULT_TOKEN_EXPIRED : Z := 106.

#[global] Instance outcome_ret : MRet outcome := @Return.
#[global] Instance outcome_bind : MBind outcome := fun A B k o =>
  match o with
  | Return a => k a
  | Raise e => Raise e
  | Diverge => Diverge
  end.

(** What the client did on the network, oldest first. *)
Inductive io_event : Type :=
| WsConnect (url : string)     (* session.ws_connect(url) *)
| Sleep (seconds : Z)          (* asyncio.sleep(seconds) *)
| SendJson (msg : json)        (* _ws.send_json(msg) *)
| ReceiveJson                  (* _ws.receive_json() *)
| WsClose                      (* _ws.close() *)
| ReadClock.                   (* time.time() *)

(** [aiohttp.ClientWebSocketResponse]; the client reads only [closed]. *)
Record websocket : Type := { closed : bool }.

(** The transport as this client has used it: how often each primitive was
    awaited, and the events in order. *)
Record ClientSession : Type := {
  connects : nat;
  sends : nat;
  receives : nat;
  clock_reads : nat;
  log : list io_event
}.

(** The instance attributes; [_ws = None] is [not hasattr(self, "_ws")]. *)
Record SungrowWebsocketClient : Type := {
  token : json;
  _ws : option websocket;
  session : ClientSession;
  host : string;
  ws_port : Z
}.

(** [SungrowWebsocketClient(session, host)], with the class default [token = ""]. *)
Definition __init__ (host : string) (ws_port : Z) : SungrowWebsocketClient :=
  {| token := JStr ""; _ws := None;
     session := {| connects := 0; sends := 0; receives := 0; clock_reads := 0; log := [] |};
     host := host; ws_port := ws_port |}.

Definition set_token (t : json) (self : SungrowWebsocketClient) : SungrowWebsocketClient :=
  {| token := t; _ws := _ws self; session := session self;
     host := host self; ws_port := ws_port self |}.

Definition set_ws (w : option websocket) (self : SungrowWebsocketClient) : SungrowWebsocketClient :=
  {| token := token self; _ws := w; session := session self;
     host := host self; ws_port := ws_port self |}.

Definition set_session (s : ClientSession) (self : SungrowWebsocketClient) : SungrowWebsocketClient :=
  {| token := token self; _ws := _ws self; session := s;
     host := host self; ws_port := ws_port self |}.

Definition logged (ev : io_event) (s : ClientSession) : ClientSession :=
  {| connects := connects s; sends := sends s; receives := receives s;
     clock_reads := clock_reads s; log := log s ++ [ev] |}.

(** The gateway and the network: what the k-th await of each primitive
    gives ([None]: it completes normally). *)
Record gateway : Type := {
  on_connect : nat -> option exn;
  on_send : nat -> option exn;
  on_receive : nat -> json + exn;
  on_clock : nat -> Z
}.

Section Client.
Variable gw : gateway.

Abbreviation Co := (M SungrowWebsocketClient).

(** [self._ws = await self.session.ws_connect(url)] *)
Definition ws_connect (url : string) : Co unit := fun self =>
  let s := session self in
  let s' := logged (WsConnect url)
              {| connects := S (connects s); sends := sends s; receives := receives s;
                 clock_reads := clock_reads s; log := log s |} in
  match on_connect gw (connects s) with
  | None => (Return tt, set_ws (Some {| closed := false |}) (set_session s' self))
  | Some e => (Raise e, set_session s' self)
  end.

(** [await asyncio.sleep(seconds)] *)
Definition sleep (seconds : Z) : Co unit :=
  modify (fun self => set_session (logged (Sleep seconds) (session self)) self).

(** [await self._ws.send_json(msg)] *)
Definition send_json (msg : json) : Co unit := fun self =>
  match _ws self with
  | None => (Raise AttributeError, self)
  | Some _ =>
      let s := session self in
      let s' := logged (SendJson msg)
                  {| connects := connects s; sends := S (sends s); receives := receives s;
                     clock_reads := clock_reads s; log := log s |} in
      match on_send gw (sends s) with
      | None => (Return tt, set_session s' self)
      | Some e => (Raise e, set_session s' self)
      end
  end.

(** [await self._ws.receive_json()] *)
Definition receive_json : Co json := fun self =>
  match _ws self with
  | None => (Raise AttributeError, self)
  | Some _ =>
      let s := session self in
      let s' := logged ReceiveJson
                  {| connects := connects s; sends := sends s; receives := S (receives s);
                     clock_reads := clock_reads s; log := log s |} in
      match on_receive gw (receives s) with
      | inl response => (Return response, set_session s' self)
      | inr e => (Raise e, set_session s' self)
      end
  end.

(** [self._ws.closed] *)
Definition ws_closed : Co bool := fun self =>
  match _ws self with
  | None => (Raise AttributeError, self)
  | Some ws => (Return (closed ws), self)
  end.

(** [await self._ws.close()] *)
Definition ws_close : Co unit := fun self =>
  match _ws self with
  | None => (Raise AttributeError, self)
  | Some _ =>
      (Return tt, set_ws (Some {| closed := true |})
                    (set_session (logged WsClose (session self)) self))
  end.

(** [int(time.time())] *)
Definition time_time : Co Z := fun self =>
  let s := session self in
  let s' := logged ReadClock
              {| connects := connects s; sends := sends s; receives := receives s;
                 clock_reads := S (clock_reads s); log := log s |} in
  (Return (on_clock gw (clock_reads s)), set_session s' self).

(** ["ws://" + self.host + ":" + str(self.ws_port) + "/ws/home/overview"] *)
Definition ws_url (self : SungrowWebsocketClient) : string :=
  "ws://" +:+ host self +:+ ":" +:+ pretty (ws_port self) +:+ "/ws/home/overview".

(** The [while connection_attempts < 10] loop of [_ensure_connected];
    [remaining] is [10 - connection_attempts]. *)
Fixpoint _ensure_connected_loop (remaining connection_attempts : nat) (url : string) : Co unit :=
  match remaining with
  | O => raise (SungrowError (FailedToConnect url connection_attempts))
  | S remaining' =>
      try_except
        (modify (set_token (JStr ""));;   (* new connection, new token *)
         ws_connect url)                  (* else: return *)
        (fun ex =>
           match ex with
           | TimeoutError =>
               Some (sleep 1;;
                     _ensure_connected_loop remaining' (S connection_attempts) url)
           | _ => None
           end)
  end.

Definition _ensure_connected : Co unit :=
  self ← get;
  match _ws self with
  | Some ws => if negb (closed ws) then mret tt else _ensure_connected_loop 10 0 (ws_url self)
  | None => _ensure_connected_loop 10 0 (ws_url self)
  end.

Definition _parse_response (response : json) : Co json :=
  result_code ← lift (py_get response "result_code" (JInt 0));
  if py_eq_int result_code RESULT_SUCCESS then
    lift (py_getitem response "result_data")
  else if py_eq_int result_code RESULT_TOKEN_EXPIRED then
    modify (set_token (JStr ""));;
    (* arguments of logger.debug *)
    lift (py_getitem response "result_code");;
    lift (py_getitem response "result_msg");;
    raise TokenExpiredError
  else
    (* arguments of logger.error *)
    lift (py_getitem response "result_code");;
    lift (py_getitem response "result_msg");;
    (* the f-string *)
    code ← lift (py_getitem response "result_code" ≫= format_d);
    msg ← lift (py_getitem response "result_msg");
    raise (SungrowError (UnknownResult code msg)).

Definition _ensure_token : Co unit :=
  _ensure_connected;;
  tok ← gets token;
  if truthy tok then mret tt else
  let request := JDict (<["lang" := JStr "en_us"]> (<["token" := JStr ""]>
                         {["service" := JStr "connect"]})) in
  send_json request;;
  response ← receive_json;
  result_code ← lift (py_get response "result_code" (JInt 0));
  if py_eq_int result_code RESULT_SUCCESS then
    new_token ← lift (py_getitem response "result_data" ≫= fun d => py_getitem d "token");
    modify (set_token new_token)
  else
    (* arguments of logger.error *)
    lift (py_getitem response "result_code");;
    lift (py_getitem response "result_msg");;
    (* the f-string *)
    code ← lift (py_getitem response "result_code" ≫= format_d);
    msg ← lift (py_getitem response "result_msg");
    raise (SungrowError (TokenRequestError code msg)).

(** [msg = {"lang": ..., "token": ..., "service": ...}; msg.update(params)] *)
Definition request_msg (tok : json) (service : string) (params : gmap string json) : json :=
  JDict (params ∪ (<["lang" := JStr "en_us"]> (<["token" := tok]>
                     {["service" := JStr service]}))).

(** [_ws_get]: [fuel] bounds the iterations of its [while True]. *)
Fixpoint _ws_get (fuel : nat) (service : string) (params : gmap string json) : Co json :=
  match fuel with
  | O => diverge
  | S fuel' =>
      try_except
        (_ensure_token;;
         tok ← gets token;
         send_json (request_msg tok service params);;
         response ← receive_json;
         _parse_response response)
        (fun ex =>
           match ex with
           | TokenExpiredError =>
               Some (_ws_get fuel' service params)   (* continue *)
           | ConnectionError =>
               Some (ws_closed;;                     (* argument of logger.debug *)
                     ws_close;;
                     _ws_get fuel' service params)   (* continue *)
           | _ => None
           end)
  end.

Definition get_device_info (fuel : nat) : Co json :=
  result ← _ws_get fuel "devicelist"
             (<["type" := JStr "0"]> {["is_check_token" := JStr "0"]});
  lift (py_getitem result "list").

(** One reading: the [{"value": ..., "unit": ...}] dict of a sensor. *)
Record reading : Type := { value : json; units : json }.   (* "value", "unit" *)

(** [for row in rows: sensors[row["data_name"]] = {"value": ..., "unit": ...}] *)
Fixpoint read_rows (rows : list json) (sensors : gmap pykey reading)
  : outcome (gmap pykey reading) :=
  match rows with
  | [] => Return sensors
  | row :: rows' =>
      v ← py_getitem row "data_value";
      u ← py_getitem row "data_unit";
      name ← py_getitem row "data_name" ≫= py_hash;
      read_rows rows' (<[name := {| value := v; units := u |}]> sensors)
  end.

Definition realtime (fuel : nat) (service : string) (dev_id : Z) : Co (gmap pykey reading) :=
  now ← time_time;
  result ← _ws_get fuel service
             (<["dev_id" := JStr (pretty dev_id)]> {["time123456" := JInt now]});
  lift (rows ← py_getitem result "list" ≫= py_iter;
        read_rows rows ∅).

Definition get_realtime (fuel : nat) (dev_id : Z) : Co (gmap pykey reading) :=
  realtime fuel "real" dev_id.

Definition get_battery_realtime (fuel : nat) (dev_id : Z) : Co (gmap pykey reading) :=
  realtime fuel "real_battery" dev_id.

(** [close]: [if hasattr(self, "_ws"): await self._ws.close()] *)
Definition close : Co unit :=
  self ← get;
  match _ws self with
  | Some _ => ws_close
  | None => mret tt
  end.

End Client.
End Sungrow.

(** [get_wi_net_info], from the answer of the HTTP request on: the rows of
    [/about/list] folded into a [WiNetInfo]. *)
Module About.
Import Py.

(** The [WiNetInfo] dict. *)
Record WiNetInfo : Type := {
  device_sn : json;
  device_version : json;
  software_version : json;
  software_build_version : json
}.

(** The local variables of [get_wi_net_info] as it starts. *)
Definition no_info : WiNetInfo :=
  {| device_sn := JStr ""; device_version := JStr "";
     software_version := JStr ""; software_build_version := JStr "" |}.

(** [for row in rows: match row["data_name"]: case ...: ... = row["data_value"]] *)
Fixpoint read_about_rows (rows : list json) (info : WiNetInfo) : outcome WiNetInfo :=
  match rows with
  | [] => Return info
  | row :: rows' =>
      data_name ← py_getitem row "data_name";
      if py_eq_str data_name "I18N_COMMON_DEVICE_SN" then
        v ← py_getitem row "data_value";
        read_about_rows rows'
          {| device_sn := v; device_version := device_version info;
             software_version := software_version info;
             software_build_version := software_build_version info |}
      else if py_eq_str data_name "I18N_COMMON_APPLI_SOFT_VERSION" then
        v ← py_getitem row "data_value";
        read_about_rows rows'
          {| device_sn := device_sn info; device_version := device_version info;
             software_version := v;
             software_build_version := software_build_version info |}
      else if py_eq_str data_name "I18N_COMMON_BUILD_SOFT_VERSION" then
        v ← py_getitem row "data_value";
        read_about_rows rows'
          {| device_sn := device_sn info; device_version := device_version info;
             software_version := software_version info;
             software_build_version := v |}
      else if py_eq_str data_name "I18N_COMMON_VERSION" then
        v ← py_getitem row "data_value";
        read_about_rows rows'
          {| device_sn := device_sn info; device_version := v;
             software_version := software_version info;
             software_build_version := software_build_version info |}
      else
        read_about_rows rows' info      (* case _: only logged *)
  end.

(** [get_wi_net_info] once [_get] has returned [result]. *)
Definition wi_net_info_of (result : json) : outcome WiNetInfo :=
  rows ← py_getitem result "list" ≫= py_iter;
  read_about_rows rows no_info.

End About.

(** ** [const.py] *)

Module Const.
Import Py.

Definition DOMAIN : string := "sungrow".
Definition SUNGROW_RESCAN_TIMER : Z := 60.

Inductive SungrowDeviceType : Type :=
| STRING_INVERTER
| HYBRID_INVERTER
| UNKNOWN.

#[global] Instance SungrowDeviceType_eq_dec : EqDecision SungrowDeviceType.
Proof. solve_decision. Defined.

(** [match code: case 21: ... case 35: ...]: a literal pattern matches by [==]. *)
Definition get_device_type (code : json) : SungrowDeviceType :=
  if py_eq_int code 21 then STRING_INVERTER
  else if py_eq_int code 35 then HYBRID_INVERTER
  else UNKNOWN.

(** The [DeviceInfo] dict built for an inverter.  [identifiers] is the set
    [{(DOMAIN, device_sn)}], so it holds the key [device_sn] hashes to. *)
Record DeviceInfo : Type := {
  identifiers : string * pykey;
  manufacturer : string;
  model : json;
  name : json;
  serial_number : json
}.

(** [device_sn] has been hashed by the time a descriptor exists (it sits in
    [identifiers]); the descriptor keeps it as that key, on which [==] is
    equality. *)
Record SungrowDeviceInfo : Type := {
  device_info : DeviceInfo;
  wi_net_id : json;
  device_sn : pykey;
  device_type : SungrowDeviceType
}.

End Const.

(** ** [sensor.py]: the entity descriptions the coordinators track *)

Module Sensor.

(** Only [key] and [response_key] are read by the coordinators. *)
Record SungrowSensorEntityDescription : Type := {
  key : string;
  response_key : option string
}.

Definition description (key response_key : string) : SungrowSensorEntityDescription :=
  {| key := key; response_key := Some response_key |}.

Definition INVERTER_ENTITY_DESCRIPTIONS : list SungrowSensorEntityDescription :=
  [ description "inverter_temperature_internal_air"
      "I18N_COMMON_AIR_TEM_INSIDE_MACHINE";
    description "inverter_maximum_apparent_power"
      "I18N_COMMON_MAXIMUM_APPARENT_POWER_SIWHFGQY";
    description "inverter_status"
      "I18N_COMMON_DEVICE_STATUS";
    description "pv_energy_day"
      "I18N_COMMON_PV_DAYILY_ENERGY_GENERATION";
    description "pv_energy_total"
      "I18N_COMMON_PV_TOTAL_ENERGY_GENERATION";
    description "pv_voltage_bus"
      "I18N_COMMON_BUS_VOLTAGE";
    description "pv_insulation_resistance"
      "I18N_COMMON_SQUARE_ARRAY_INSULATION_IMPEDANCE";
    description "self_consumption_rate_day"
      "I18N_CONFIG_KEY_1001188";
    description "feed_network_active_power"
      "I18N_COMMON_FEED_NETWORK_TOTAL_ACTIVE_POWER";
    description "energy_purchased"
      "I18N_CONFIG_KEY_4060";
    description "feed_network_daily"
      "I18N_COMMON_DAILY_FEED_NETWORK_VOLUME";
    description "feed_network_total"
      "I18N_COMMON_TOTAL_FEED_NETWORK_VOLUME";
    description "grid_purchased_energy_daily"
      "I18N_COMMON_ENERGY_GET_FROM_GRID_DAILY";
    description "grid_purchased_energy_total"
      "I18N_COMMON_TOTAL_ELECTRIC_GRID_GET_POWER";
    description "pv_feed_network_daily"
      "I18N_COMMON_DAILY_FEED_NETWORK_PV";
    description "pv_feed_network_total"
      "I18N_COMMON_TOTAL_FEED_NETWORK_PV";
    description "total_load_active_power"
      "I18N_COMMON_LOAD_TOTAL_ACTIVE_POWER";
    description "pv_daily_direct_energy_consumption"
      "I18N_COMMON_DAILY_DIRECT_CONSUMPTION_ELECTRICITY_PV";
    description "pv_total_direct_energy_consumption"
      "I18N_COMMON_TOTAL_DIRECT_POWER_CONSUMPTION_PV";
    description "total_dc_power"
      "I18N_COMMON_TOTAL_DCPOWER";
    description "total_active_power"
      "I18N_COMMON_TOTAL_ACTIVE_POWER";
    description "total_reactive_power"
      "I18N_COMMON_TOTAL_REACTIVE_POWER";
    description "total_apparent_power"
      "I18N_COMMON_TOTAL_APPARENT_POWER";
    description "power_factor_total"
      "I18N_COMMON_TOTAL_POWER_FACTOR";
    description "grid_frequency"
      "I18N_COMMON_GRID_FREQUENCY";
    description "voltage_phase_a"
      "I18N_COMMONUA";
    description "voltage_phase_b"
      "I18N_COMMON_UB";
    description "voltage_phase_c"
      "I18N_COMMON_UC";
    description "current_phase_a"
      "I18N_COMMON_FRAGMENT_RUN_TYPE1";
    description "current_phase_b"
      "I18N_COMMON_IB";
    description "current_phase_c"
      "I18N_COMMON_IC";
    description "backup_current_phase_a"
      "I18N_COMMON_PHASE_A_BACKUP_CURRENT_QFKYGING";
    description "backup_current_phase_b"
      "I18N_COMMON_PHASE_B_BACKUP_CURRENT_ODXCTVMS";
    description "backup_current_phase_c"
      "I18N_COMMON_PHASE_C_BACKUP_CURRENT_PBSQLZIX";
    description "backup_voltage_phase_a"
      "I18N_COMMON_PHASE_A_BACKUP_VOLTAGE_PEIYFKXE";
    description "backup_voltage_phase_b"
      "I18N_COMMON_PHASE_B_BACKUP_VOLTAGE_MCDGYUJO";
    description "backup_voltage_phase_c"
      "I18N_COMMON_PHASE_C_BACKUP_VOLTAGE_SCJZFFCQ";
    description "backup_frequency"
      "I18N_COMMON_BACKUP_FREQUENCY_MPPOWHDF";
    description "backup_power_phase_a"
      "I18N_COMMON_PHASE_A_BACKUP_POWER_BRBJDGVB";
    description "backup_power_phase_b"
      "I18N_COMMON_PHASE_B_BACKUP_POWER_OCDHLMZB";
    description "backup_power_phase_c"
      "I18N_COMMON_PHASE_C_BACKUP_POWER_HAMBBGNL";
    description "backup_power_total"
      "I18N_COMMON_TOTAL_BACKUP_POWER_WLECIVPM";
    description "meter_grid_frequency"
      "I18N_COMMON_METER_GRID_FREQ_AMMAKPKU";
    description "meter_reactive_power"
      "I18N_COMMON_REACTIVE_POWER_UPLOADED_BY_ME_KISYMRKR" ].

Definition BATTERY_ENTITY_DESCRIPTIONS : list SungrowSensorEntityDescription :=
  [ description "battery_charging_power"
      "I18N_CONFIG_KEY_3907";
    description "battery_discharging_power"
      "I18N_CONFIG_KEY_3921";
    description "battery_voltage"
      "I18N_COMMON_BATTERY_VOLTAGE";
    description "battery_current"
      "I18N_COMMON_BATTERY_CURRENT";
    description "battery_temperature"
      "I18N_COMMON_BATTERY_TEMPERATURE";
    description "battery_soc"
      "I18N_COMMON_BATTERY_SOC";
    description "battery_soh"
      "I18N_COMMON_BATTARY_HEALTH";
    description "battery_max_charging_current"
      "I18N_COMMON_MAX_CHARGE_CURRENT_BMS";
    description "battery_max_discharging_current"
      "I18N_COMMON_MAX_DISCHARGE_CURRENT_BMS";
    description "battery_charge_pv_daily"
      "I18N_COMMON_DAILY_BATTERY_CHARGE_PV";
    description "battery_charge_pv_total"
      "I18N_COMMON_TOTAL_BATTERY_CHARGE_PV";
    description "battery_discharge_daily"
      "I18N_COMMON_DAILY_BATTERY_DISCHARGE";
    description "battery_discharge_total"
      "I18N_COMMON_TOTAL_BATTRY_DISCHARGE";
    description "battery_charge_daily"
      "I18N_COMMON_DAILY_BATTERY_CHARGE";
    description "battery_charge_total"
      "I18N_COMMON_TOTAL_BATTERY_CHARGE" ].

End Sensor.

(** ** [coordinator.py]: the per-device update coordinators *)

Module Coordinator.
Import Py Sungrow Const Sensor.

(** The two concrete subclasses of [SungrowCoordinatorBase]; class
    attributes and [_update_method] are looked up by class. *)
Inductive coordinator_class : Type :=
| SungrowInverterUpdateCoordinator
| SungrowBatteryUpdateCoordinator.

(** [timedelta], in seconds. *)
Definition timedelta_minutes (minutes : Z) : Z := 60 * minutes.

Definition default_interval (cls : coordinator_class) : Z :=
  match cls with
  | SungrowInverterUpdateCoordinator => timedelta_minutes 1
  | SungrowBatteryUpdateCoordinator => timedelta_minutes 1
  end.

Definition error_interval (cls : coordinator_class) : Z :=
  match cls with
  | SungrowInverterUpdateCoordinator => timedelta_minutes 10
  | SungrowBatteryUpdateCoordinator => timedelta_minutes 10
  end.

Definition valid_descriptions (cls : coordinator_class) : list SungrowSensorEntityDescription :=
  match cls with
  | SungrowInverterUpdateCoordinator => INVERTER_ENTITY_DESCRIPTIONS
  | SungrowBatteryUpdateCoordinator => BATTERY_ENTITY_DESCRIPTIONS
  end.

Definition MAX_FAILED_UPDATES : Z := 3.
Definition SILENT_RETRIES : nat := 3.

(** The readings of one device, and the [dict[WiNetId, ...]] a poll returns. *)
Abbreviation sensors := (gmap pykey reading).
Abbreviation snapshot := (gmap pykey (gmap pykey reading)).

(** The attributes of a coordinator.  [inverter_info] also stands for the
    battery's [parent_inverter_info]; [data] is [None] until a refresh has
    succeeded. *)
Record SungrowCoordinator : Type := {
  class_of : coordinator_class;
  inverter_info : SungrowDeviceInfo;
  _failed_update_count : Z;
  update_interval : Z;
  unregistered_descriptors : gmap pykey (list SungrowSensorEntityDescription);
  data : option snapshot
}.

(** [cls(..., inverter_info=info)]: the two [__init__]s. *)
Definition __init__ (cls : coordinator_class) (info : SungrowDeviceInfo) : SungrowCoordinator :=
  {| class_of := cls; inverter_info := info;
     _failed_update_count := 0;
     update_interval := default_interval cls;
     unregistered_descriptors := ∅;
     data := None |}.

Definition set_failed_update_count (n : Z) (self : SungrowCoordinator) : SungrowCoordinator :=
  {| class_of := class_of self; inverter_info := inverter_info self;
     _failed_update_count := n;
     update_interval := update_interval self;
     unregistered_descriptors := unregistered_descriptors self;
     data := data self |}.

Definition set_update_interval (i : Z) (self : SungrowCoordinator) : SungrowCoordinator :=
  {| class_of := class_of self; inverter_info := inverter_info self;
     _failed_update_count := _failed_update_count self;
     update_interval := i;
     unregistered_descriptors := unregistered_descriptors self;
     data := data self |}.

Definition set_unregistered_descriptors
    (u : gmap pykey (list SungrowSensorEntityDescription))
    (self : SungrowCoordinator) : SungrowCoordinator :=
  {| class_of := class_of self; inverter_info := inverter_info self;
     _failed_update_count := _failed_update_count self;
     update_interval := update_interval self;
     unregistered_descriptors := u;
     data := data self |}.

Definition set_data (d : option snapshot) (self : SungrowCoordinator) : SungrowCoordinator :=
  {| class_of := class_of self; inverter_info := inverter_info self;
     _failed_update_count := _failed_update_count self;
     update_interval := update_interval self;
     unregistered_descriptors := unregistered_descriptors self;
     data := d |}.

(** A coordinator at work: itself and the client it reaches through
    [self.wi_net.sungrow]. *)
Abbreviation Poll := (M (SungrowCoordinator * SungrowWebsocketClient)).

Definition on_self {A} (m : M SungrowCoordinator A) : Poll A :=
  zoom fst (fun c s => (c, s.2)) m.
Definition on_sungrow {A} (m : M SungrowWebsocketClient A) : Poll A :=
  zoom snd (fun w s => (s.1, w)) m.

Section Coordinators.
Variable gw : gateway.
(** Iterations each [_ws_get] may take. *)
Variable fuel : nat.
(** Python's [int] on a [str]; [None] where it raises [ValueError]. *)
Variable int_of_str : string -> option Z.

(** [int(j)] *)
Definition py_int (j : json) : outcome Z :=
  match j with
  | JInt z => Return z
  | JBool b => Return (Z.b2z b)
  | JStr s =>
      match int_of_str s with
      | Some z => Return z
      | None => Raise ValueError
      end
  | _ => Raise TypeError
  end.

(** The [for silent_retry in range(self.SILENT_RETRIES)] loop of the
    inverter's [_update_method]; leaving the [try] without an exception is
    the [break]. *)
Fixpoint silent_retry_loop (range : list nat) (info : SungrowDeviceInfo)
  : M SungrowWebsocketClient sensors :=
  match range with
  | [] => raise UnboundLocalError      (* [data] was never assigned *)
  | silent_retry :: range' =>
      try_except
        (dev_id ← lift (py_int (wi_net_id info));
         get_realtime gw fuel dev_id)
        (fun ex =>
           if is_SungrowError ex then
             Some (if Nat.eqb silent_retry (SILENT_RETRIES - 1)
                   then raise ex
                   else silent_retry_loop range' info)   (* continue *)
           else None)
  end.

Definition _update_method (cls : coordinator_class) (info : SungrowDeviceInfo)
  : M SungrowWebsocketClient snapshot :=
  match cls with
  | SungrowInverterUpdateCoordinator =>
      data ← silent_retry_loop (seq 0 SILENT_RETRIES) info;
      id ← lift (py_hash (wi_net_id info));
      mret {[ id := data ]}
  | SungrowBatteryUpdateCoordinator =>
      dev_id ← lift (py_int (wi_net_id info));
      data ← get_battery_realtime gw fuel dev_id;
      id ← lift (py_hash (wi_net_id info));
      mret {[ id := data ]}
  end.

(** [for wi_net_id in data: if wi_net_id not in unregistered: unregistered[wi_net_id] = valid.copy()] *)
Definition track_new_ids (valid : list SungrowSensorEntityDescription)
    (ids : list pykey) (unregistered : gmap pykey (list SungrowSensorEntityDescription))
  : gmap pykey (list SungrowSensorEntityDescription) :=
  foldl (fun u wi_net_id =>
           match u !! wi_net_id with
           | None => <[wi_net_id := valid]> u     (* id seen for the first time *)
           | Some _ => u
           end)
        unregistered ids.

(** Runs under [self.wi_net.coordinator_lock]: polls of one gateway never
    interleave, which is what running them one after the other models. *)
Definition _async_update_data : Poll snapshot :=
  self ← gets fst;
  data ← try_except
           (on_sungrow (_update_method (class_of self) (inverter_info self)))
           (fun err =>
              if is_SungrowError err then
                Some (on_self
                        (modify (fun c => set_failed_update_count (_failed_update_count c + 1) c);;
                         c ← get;
                         (if _failed_update_count c =? MAX_FAILED_UPDATES
                          then modify (set_update_interval (error_interval (class_of c)))
                          else mret tt);;
                         raise (UpdateFailed err)))
              else None);
  on_self
    (c ← get;
     (if negb (_failed_update_count c =? 0)
      then modify (set_failed_update_count 0);;
           modify (set_update_interval (default_interval (class_of c)))
      else mret tt);;
     modify (fun c => set_unregistered_descriptors
                        (track_new_ids (valid_descriptions (class_of c))
                           (map_to_list data).*1 (unregistered_descriptors c)) c);;
     mret data).

(** Modelled from the spec: [DataUpdateCoordinator], the base of the
    coordinators, is declared outside the sources.  Per §4.4 steps 3-4 a
    poll awaits [_async_update_data]; when it succeeds the cached snapshot
    is replaced wholesale, when it fails the snapshot of the last success
    stays and the failure is surfaced. *)
Definition _async_refresh : Poll unit :=
  data ← _async_update_data;
  on_self (modify (set_data (Some data))).

End Coordinators.

(** What [entity_constructor(coordinator=self, description=..., wi_net_id=...)]
    is given, [self] apart. *)
Record entity : Type := {
  entity_description : SungrowSensorEntityDescription;
  entity_wi_net_id : pykey
}.

(** [description.response_key or description.key] *)
Definition lookup_key (description : SungrowSensorEntityDescription) : string :=
  match response_key description with
  | Some k => if String.eqb k "" then key description else k
  | None => key description
  end.

(** [key in device_data and device_data[key]["value"] is not None] *)
Definition seen (device_data : sensors) (description : SungrowSensorEntityDescription) : bool :=
  match device_data !! KStr (lookup_key description) with
  | None => false
  | Some r => match value r with JNull => false | _ => true end
  end.

(** The inner loop of [_add_entities_for_unregistered_descriptors]: the
    descriptions of one device, each either kept or turned into an entity. *)
Fixpoint scan_descriptions (wi_net_id : pykey) (device_data : sensors)
    (descriptions remaining : list SungrowSensorEntityDescription)
    (new_entities : list entity)
  : list SungrowSensorEntityDescription * list entity :=
  match descriptions with
  | [] => (remaining, new_entities)
  | description :: descriptions' =>
      if seen device_data description then
        scan_descriptions wi_net_id device_data descriptions' remaining
          (new_entities ++ [{| entity_description := description;
                               entity_wi_net_id := wi_net_id |}])
      else
        scan_descriptions wi_net_id device_data descriptions'
          (remaining ++ [description]) new_entities
  end.

(** The outer loop, over [self.data.items()]. *)
Fixpoint scan_devices (items : list (pykey * sensors)) (new_entities : list entity)
  : M SungrowCoordinator (list entity) :=
  match items with
  | [] => mret new_entities
  | (wi_net_id, device_data) :: items' =>
      unregistered ← gets unregistered_descriptors;
      descriptions ← lift (match unregistered !! wi_net_id with
                           | Some l => Return l
                           | None => Raise (KeyError wi_net_id)
                           end);
      let '(remaining, new_entities') :=
        scan_descriptions wi_net_id device_data descriptions [] new_entities in
      modify (set_unregistered_descriptors (<[wi_net_id := remaining]> unregistered));;
      scan_devices items' new_entities'
  end.

(** The callback [add_entities_for_seen_keys] runs once and leaves as a
    listener; its result is the list handed to [async_add_entities]. *)
Definition _add_entities_for_unregistered_descriptors : M SungrowCoordinator (list entity) :=
  d ← gets data;
  match d with
  | None => raise AttributeError        (* None has no [items] *)
  | Some d => scan_devices (map_to_list d) []
  end.

End Coordinator.

(** ** [__init__.py]: device discovery *)

Module WiNet.
Import Py Sungrow Const Sensor Coordinator.

(** Modelled from the spec: [ConfigEntryState] is declared outside the
    sources.  §4.3 tells the first invocation, made while setup is in
    progress, from a scheduled rescan, made once the entry is loaded; the
    code only ever compares with [LOADED]. *)
Inductive ConfigEntryState : Type :=
| NOT_LOADED
| SETUP_IN_PROGRESS
| LOADED
| SETUP_RETRY.

#[global] Instance ConfigEntryState_eq_dec : EqDecision ConfigEntryState.
Proof. solve_decision. Defined.

(** The attributes of [SungrowWiNet] that discovery touches, and the
    [SUNGROW_DISCOVERY_NEW] signals it has sent. *)
Record SungrowWiNet : Type := {
  config_entry_state : ConfigEntryState;      (* self.config_entry.state *)
  sungrow : SungrowWebsocketClient;
  inverter_coordinators : list SungrowCoordinator;
  battery_coordinators : list SungrowCoordinator;
  dispatched : list SungrowCoordinator
}.

Definition __init__ (st : ConfigEntryState) (sungrow : SungrowWebsocketClient) : SungrowWiNet :=
  {| config_entry_state := st; sungrow := sungrow;
     inverter_coordinators := []; battery_coordinators := []; dispatched := [] |}.

Definition set_sungrow (c : SungrowWebsocketClient) (self : SungrowWiNet) : SungrowWiNet :=
  {| config_entry_state := config_entry_state self; sungrow := c;
     inverter_coordinators := inverter_coordinators self;
     battery_coordinators := battery_coordinators self;
     dispatched := dispatched self |}.

Definition append_inverter_coordinator (c : SungrowCoordinator) (self : SungrowWiNet) : SungrowWiNet :=
  {| config_entry_state := config_entry_state self; sungrow := sungrow self;
     inverter_coordinators := inverter_coordinators self ++ [c];
     battery_coordinators := battery_coordinators self;
     dispatched := dispatched self |}.

Definition append_battery_coordinator (c : SungrowCoordinator) (self : SungrowWiNet) : SungrowWiNet :=
  {| config_entry_state := config_entry_state self; sungrow := sungrow self;
     inverter_coordinators := inverter_coordinators self;
     battery_coordinators := battery_coordinators self ++ [c];
     dispatched := dispatched self |}.

(** [async_dispatcher_send(self.hass, SUNGROW_DISCOVERY_NEW, c)] *)
Definition async_dispatcher_send (c : SungrowCoordinator) (self : SungrowWiNet) : SungrowWiNet :=
  {| config_entry_state := config_entry_state self; sungrow := sungrow self;
     inverter_coordinators := inverter_coordinators self;
     battery_coordinators := battery_coordinators self;
     dispatched := dispatched self ++ [c] |}.

(** The [for inverter in _inverter_list] loop of [_get_inverter_infos]. *)
Fixpoint read_inverters (rows : list json) (inverter_infos : list SungrowDeviceInfo)
  : outcome (list SungrowDeviceInfo) :=
  match rows with
  | [] => Return inverter_infos
  | inverter :: rows' =>
      device_id ← py_getitem inverter "dev_id";
      device_sn ← py_getitem inverter "dev_sn";
      dev_type ← py_getitem inverter "dev_type";
      let device_type := get_device_type dev_type in
      sn_key ← py_hash device_sn;                 (* identifiers={(DOMAIN, device_sn)} *)
      dev_model ← py_getitem inverter "dev_model";
      dev_name ← py_getitem inverter "dev_name";
      let device_info :=
        {| identifiers := (DOMAIN, sn_key); manufacturer := "Sungrow";
           model := dev_model; name := dev_name; serial_number := device_sn |} in
      read_inverters rows'
        (inverter_infos ++ [{| device_info := device_info; wi_net_id := device_id;
                               device_sn := sn_key; device_type := device_type |}])
  end.

Section Discovery.
Variable gw : gateway.
Variable fuel : nat.
(** [DataUpdateCoordinator.async_config_entry_first_refresh], declared
    outside the sources: it is awaited on a fresh coordinator and may touch
    that coordinator and the client, nothing else. *)
Variable async_config_entry_first_refresh : Poll unit.

Definition on_client {A} (m : M SungrowWebsocketClient A) : M SungrowWiNet A :=
  zoom sungrow set_sungrow m.

Definition _get_inverter_infos : M SungrowWiNet (list SungrowDeviceInfo) :=
  try_except_else
    (on_client (get_device_info gw fuel))
    (fun err =>
       if is_SungrowError err then
         Some (st ← gets config_entry_state;
               if bool_decide (st = LOADED)
               then mret []                      (* re-scan: try again as scheduled *)
               else raise ConfigEntryNotReady)
       else None)
    (fun _inverter_list =>
       lift (rows ← py_iter _inverter_list; read_inverters rows [])).

(** [await coordinator.async_config_entry_first_refresh()] on a coordinator
    that is not yet in any list. *)
Definition first_refresh (c : SungrowCoordinator) : M SungrowWiNet SungrowCoordinator :=
  fun self =>
    let '(r, (c', client')) := async_config_entry_first_refresh (c, sungrow self) in
    (match r with
     | Return _ => Return c'
     | Raise e => Raise e
     | Diverge => Diverge
     end, set_sungrow client' self).

(** The [for _inverter_info in _inverter_infos] loop of [_init_devices_inverter]. *)
Fixpoint add_new_inverters (_inverter_infos : list SungrowDeviceInfo) : M SungrowWiNet unit :=
  match _inverter_infos with
  | [] => mret tt
  | _inverter_info :: rest =>
      known ← gets (fun self => (device_sn ∘ inverter_info) <$> inverter_coordinators self);
      if bool_decide (device_sn _inverter_info ∈ known) then
        add_new_inverters rest                   (* continue *)
      else
        _coordinator ← first_refresh
                         (Coordinator.__init__ SungrowInverterUpdateCoordinator _inverter_info);
        modify (append_inverter_coordinator _coordinator);;
        st ← gets config_entry_state;
        (if bool_decide (st = LOADED)
         then modify (async_dispatcher_send _coordinator)
         else mret tt);;
        (if bool_decide (device_type _inverter_info = HYBRID_INVERTER) then
           _battery_coordinator ← first_refresh
                                    (Coordinator.__init__ SungrowBatteryUpdateCoordinator _inverter_info);
           modify (append_battery_coordinator _battery_coordinator)
         else mret tt);;
        add_new_inverters rest
  end.

Definition _init_devices_inverter : M SungrowWiNet unit :=
  _inverter_infos ← _get_inverter_infos;
  add_new_inverters _inverter_infos.

End Discovery.
End WiNet.

(** * Vocabulary of the properties *)

Module ClientSpec.
Import Py Sungrow.

(** Whether a run returned, and what (else [dflt]). *)
Definition returns {A} (o : outcome A) : bool :=
  match o with
  | Return _ => true
  | _ => false
  end.

Definition returned {A} (dflt : A) (o : outcome A) : A :=
  match o with
  | Return a => a
  | _ => dflt
  end.

(** [hasattr(self, "_ws") and not self._ws.closed] *)
Definition live (self : SungrowWebsocketClient) : bool :=
  match _ws self with
  | Some ws => negb (closed ws)
  | None => false
  end.

(** The code [response.get("result_code", 0)] compares equal to [code]. *)
Definition reads_as (response : json) (code : Z) : bool :=
  match py_get response "result_code" (JInt 0) with
  | Return c => py_eq_int c code
  | _ => false
  end.

(** An envelope of the wire format whose code is TOKEN_EXPIRED. *)
Definition token_expiry_envelope (response : json) : bool :=
  match response with
  | JDict d =>
      match d !! "result_code", d !! "result_msg" with
      | Some c, Some _ => py_eq_int c RESULT_TOKEN_EXPIRED
      | _, _ => false
      end
  | _ => false
  end.

(** The [result_data] of an envelope whose code is SUCCESS. *)
Definition success_payload (response : json) : option json :=
  match response with
  | JDict d =>
      match d !! "result_code" with
      | Some c => if py_eq_int c RESULT_SUCCESS then d !! "result_data" else None
      | None => None
      end
  | _ => None
  end.

(** The token a successful answer to "connect" carries. *)
Definition granted_token (reply : json) : option json :=
  match success_payload reply with
  | Some (JDict d) => d !! "token"
  | _ => None
  end.

(** The request [_ensure_token] sends. *)
Definition connect_request : json :=
  JDict (<["lang" := JStr "en_us"]> (<["token" := JStr ""]> {["service" := JStr "connect"]})).

(** The events of [k] connection attempts that time out. *)
Definition timed_out_attempts (url : string) (k : nat) : list io_event :=
  mjoin (replicate k [WsConnect url; Sleep 1]).

(** The client after one connection attempt that timed out, and after [k]. *)
Definition after_timeout (url : string) (self : SungrowWebsocketClient) : SungrowWebsocketClient :=
  let s := session self in
  set_token (JStr "")
    (set_session {| connects := S (connects s); sends := sends s; receives := receives s;
                    clock_reads := clock_reads s;
                    log := log s ++ [WsConnect url; Sleep 1] |} self).

Fixpoint after_timeouts (k : nat) (url : string) (self : SungrowWebsocketClient)
  : SungrowWebsocketClient :=
  match k with
  | O => self
  | S k' => after_timeouts k' url (after_timeout url self)
  end.

(** The client after it has sent [msg] and received the answer. *)
Definition after_exchange (msg : json) (self : SungrowWebsocketClient) : SungrowWebsocketClient :=
  let s := session self in
  set_session {| connects := connects s; sends := S (sends s); receives := S (receives s);
                 clock_reads := clock_reads s;
                 log := log s ++ [SendJson msg; ReceiveJson] |} self.

(** One token expiry as the gateway plays it: the answer to the call, then
    the answer to the "connect" request the client sends next. *)
Record expiry_round : Type := {
  expired : json;
  reply : json;
  new_token : json
}.

Definition expiry_round_ok (r : expiry_round) : Prop :=
  token_expiry_envelope (expired r) = true /\ granted_token (reply r) = Some (new_token r).

(** What the gateway sends during a call that meets [rounds] and then succeeds. *)
Definition answers (rounds : list expiry_round) (success : json) : list json :=
  (rounds ≫= fun r => [expired r; reply r]) ++ [success].

(** From its [base]-th answer on the gateway plays [script]; its next [n]
    sends go through. *)
Definition scripted_from (gw : gateway) (base : nat) (script : list json) : Prop :=
  forall k x, script !! k = Some x -> on_receive gw (base + k)%nat = inl x.

Definition sends_ok_from (gw : gateway) (base n : nat) : Prop :=
  forall k, (k < n)%nat -> on_send gw (base + k)%nat = None.

(** The client, token in hand, after the rounds and the final exchange:
    every expiry empties the token, asks for a new one and sends the same
    call again. *)
Fixpoint retried (service : string) (params : gmap string json)
    (rounds : list expiry_round) (ready : SungrowWebsocketClient) : SungrowWebsocketClient :=
  match rounds with
  | [] => after_exchange (request_msg (token ready) service params) ready
  | r :: rounds' =>
      retried service params rounds'
        (set_token (new_token r)
           (after_exchange connect_request
              (set_token (JStr "")
                 (after_exchange (request_msg (token ready) service params) ready))))
  end.

(** The same, as seen on the wire. *)
Fixpoint retry_log (service : string) (params : gmap string json)
    (tok : json) (rounds : list expiry_round) : list io_event :=
  match rounds with
  | [] => [SendJson (request_msg tok service params); ReceiveJson]
  | r :: rounds' =>
      [SendJson (request_msg tok service params); ReceiveJson;
       SendJson connect_request; ReceiveJson]
      ++ retry_log service params (new_token r) rounds'
  end.

(** A gateway that plays the given connection outcomes and answers, lets
    every send through, and is silent (timeout, connection error) after. *)
Definition scripted_gateway (connections : list (option exn)) (responses : list (json + exn))
  : gateway :=
  {| on_connect := fun k => default (Some TimeoutError) (connections !! k);
     on_send := fun _ => None;
     on_receive := fun k => default (inr ConnectionError) (responses !! k);
     on_clock := fun k => 1700000000 + Z.of_nat k |}.

(** Envelopes of the wire format. *)
Definition envelope (code : Z) (msg : string) (fields : gmap string json) : json :=
  JDict (<["result_code" := JInt code]> (<["result_msg" := JStr msg]> fields)).

Definition success_envelope (result_data : json) : json :=
  envelope 1 "success" {["result_data" := result_data]}.

Definition connect_reply (tok : string) : json :=
  success_envelope (JDict (<["service" := JStr "connect"]> (<["token" := JStr tok]>
                             (<["uid" := JInt 1]> {["tips_disable" := JInt 0]})))).

Definition expired_envelope : json := envelope 106 "token expired" ∅.

End ClientSpec.

Module CoordinatorSpec.
Import Py Sungrow Const Sensor Coordinator.

(** What [_async_update_data] does to the coordinator when the fetch
    raised a [SungrowError] ... *)
Definition failed (self : SungrowCoordinator) : SungrowCoordinator :=
  let c := set_failed_update_count (_failed_update_count self + 1) self in
  if _failed_update_count c =? MAX_FAILED_UPDATES
  then set_update_interval (error_interval (class_of c)) c
  else c.

(** ... and when it returned [data]. *)
Definition succeeded (data : snapshot) (self : SungrowCoordinator) : SungrowCoordinator :=
  let c := if negb (_failed_update_count self =? 0)
           then set_update_interval (default_interval (class_of self))
                  (set_failed_update_count 0 self)
           else self in
  set_unregistered_descriptors
    (track_new_ids (valid_descriptions (class_of c)) (map_to_list data).*1
       (unregistered_descriptors c)) c.

Section Polls.
Variable gw : gateway.
Variable fuel : nat.
Variable int_of_str : string -> option Z.

(** The fetch of the coordinator's class, on the client it polls. *)
Definition fetch (s : SungrowCoordinator * SungrowWebsocketClient)
  : outcome snapshot * SungrowWebsocketClient :=
  _update_method gw fuel int_of_str (class_of s.1) (inverter_info s.1) s.2.

(** The fetch fails with a [SungrowError]; the fetch returns data. *)
Definition fetch_fails (s : SungrowCoordinator * SungrowWebsocketClient) : bool :=
  match (fetch s).1 with
  | Raise e => is_SungrowError e
  | _ => false
  end.

Definition fetch_succeeds (s : SungrowCoordinator * SungrowWebsocketClient) : bool :=
  match (fetch s).1 with
  | Return _ => true
  | _ => false
  end.

(** The loop after one poll, and after [k] polls. *)
Definition poll (s : SungrowCoordinator * SungrowWebsocketClient)
  : SungrowCoordinator * SungrowWebsocketClient :=
  (_async_update_data gw fuel int_of_str s).2.

Fixpoint polls (k : nat) (s : SungrowCoordinator * SungrowWebsocketClient)
  : SungrowCoordinator * SungrowWebsocketClient :=
  match k with
  | O => s
  | S k' => poll (polls k' s)
  end.

(** One call of the inverter's fetch to the gateway, and the client after
    [k] of them. *)
Definition attempt (info : SungrowDeviceInfo) : M SungrowWebsocketClient sensors :=
  dev_id ← lift (py_int int_of_str (wi_net_id info));
  get_realtime gw fuel dev_id.

Definition battery_attempt (info : SungrowDeviceInfo) : M SungrowWebsocketClient sensors :=
  dev_id ← lift (py_int int_of_str (wi_net_id info));
  get_battery_realtime gw fuel dev_id.

Definition attempt_fails (info : SungrowDeviceInfo) (w : SungrowWebsocketClient) : bool :=
  match (attempt info w).1 with
  | Raise e => is_SungrowError e
  | _ => false
  end.

Fixpoint after_attempts (k : nat) (info : SungrowDeviceInfo) (w : SungrowWebsocketClient)
  : SungrowWebsocketClient :=
  match k with
  | O => w
  | S k' => (attempt info (after_attempts k' info w)).2
  end.

(** What happens to a coordinator between two observations: a refresh, or
    a run of the listener that adds entities for seen keys. *)
Inductive action : Type :=
| Refresh
| AddEntities.

(** One action: the entities it hands to [async_add_entities], and the state
    it leaves. *)
Definition step (a : action) (s : SungrowCoordinator * SungrowWebsocketClient)
  : list entity * (SungrowCoordinator * SungrowWebsocketClient) :=
  match a with
  | Refresh => ([], (_async_refresh gw fuel int_of_str s).2)
  | AddEntities =>
      match _add_entities_for_unregistered_descriptors s.1 with
      | (Return new_entities, c) => (new_entities, (c, s.2))
      | (_, c) => ([], (c, s.2))
      end
  end.

Fixpoint run (actions : list action) (s : SungrowCoordinator * SungrowWebsocketClient)
  : list (list entity) * (SungrowCoordinator * SungrowWebsocketClient) :=
  match actions with
  | [] => ([], s)
  | a :: actions' =>
      let '(new_entities, s') := step a s in
      let '(reports, s'') := run actions' s' in
      (new_entities :: reports, s'')
  end.

End Polls.

(** The entity the scan makes of a description. *)
Definition make_entity (wi_net_id : pykey) (description : SungrowSensorEntityDescription) : entity :=
  {| entity_description := description; entity_wi_net_id := wi_net_id |}.

(** The device is tracked and none of its unregistered descriptions reads [key]. *)
Definition gone (wi_net_id : pykey) (key : string) (self : SungrowCoordinator) : Prop :=
  exists l, unregistered_descriptors self !! wi_net_id = Some l
            /\ forall x, x ∈ l -> lookup_key x <> key.

(** Tracked devices stay tracked, and what is unregistered for them only shrinks. *)
Definition shrinks (self self' : SungrowCoordinator) : Prop :=
  forall wi_net_id l,
    unregistered_descriptors self !! wi_net_id = Some l ->
    exists l', unregistered_descriptors self' !! wi_net_id = Some l' /\ l' `sublist_of` l.

(** Every id of the cached snapshot is tracked. *)
Definition tracked (self : SungrowCoordinator) : Prop :=
  forall d wi_net_id,
    data self = Some d -> is_Some (d !! wi_net_id) ->
    is_Some (unregistered_descriptors self !! wi_net_id).

(** A [real]/[real_battery] answer with the given rows. *)
Definition row (name value unit : string) : json :=
  JDict (<["data_name" := JStr name]> (<["data_value" := JStr value]>
           {["data_unit" := JStr unit]})).

Definition realtime_envelope (rows : list json) : json :=
  ClientSpec.success_envelope (JDict {["list" := JList rows]}).

(** A descriptor as [_get_inverter_infos] builds it. *)
Definition inverter (dev_id : Z) (sn model : string) (dev_type : Z) : SungrowDeviceInfo :=
  {| device_info := {| identifiers := (DOMAIN, KStr sn); manufacturer := "Sungrow";
                       model := JStr model; name := JStr model; serial_number := JStr sn |};
     wi_net_id := JInt dev_id;
     device_sn := KStr sn;
     device_type := get_device_type (JInt dev_type) |}.

End CoordinatorSpec.

Module WiNetSpec.
Import Py Sungrow Const Sensor Coordinator WiNet.

(** The serial numbers that have an inverter loop. *)
Definition serials (self : SungrowWiNet) : list pykey :=
  (device_sn ∘ inverter_info) <$> inverter_coordinators self.

(** The dedup rule in the words of the specification: going through the
    descriptors of a cycle, one is new, and accepted, if and only if no
    descriptor accepted before it shares its serial number. *)
Fixpoint accept_new (accepted : list pykey) (cycle : list SungrowDeviceInfo)
  : list SungrowDeviceInfo :=
  match cycle with
  | [] => []
  | descriptor :: cycle' =>
      if bool_decide (device_sn descriptor ∈ accepted)
      then accept_new accepted cycle'
      else descriptor :: accept_new (accepted ++ [device_sn descriptor]) cycle'
  end.

(** The loops a cycle has added to those of [self]. *)
Definition added (self self' : SungrowWiNet) : list SungrowCoordinator :=
  drop (length (inverter_coordinators self)) (inverter_coordinators self').

(** A refresh does not change which device a coordinator polls. *)
Definition keeps_identity (refresh : Poll unit) : Prop :=
  forall c w r c' w',
    refresh (c, w) = (r, (c', w')) ->
    inverter_info c' = inverter_info c /\ class_of c' = class_of c.

(** A row of the [devicelist] answer, and the answer. *)
Definition device_row (dev_id : Z) (sn : string) (dev_type : Z) (dev_model dev_name : string) : json :=
  JDict (<["dev_id" := JInt dev_id]> (<["dev_sn" := JStr sn]> (<["dev_type" := JInt dev_type]>
           (<["dev_model" := JStr dev_model]> {["dev_name" := JStr dev_name]})))).

Definition devicelist_envelope (rows : list json) : json :=
  ClientSpec.success_envelope (JDict {["list" := JList rows]}).

End WiNetSpec.

(** * Properties of the websocket client *)

Import Py Sungrow ClientSpec.

(** Unfolds the monad operations down to pattern matching on outcomes. *)
Ltac run_monad :=
  unfold mbind, M_bind, outcome_bind, bind, mret, M_ret, outcome_ret, ret, lift, raise,
    get, gets, modify, try_except, try_except_else in *;
  cbn beta iota in *.

Section MonadLaws.
Context {S A B : Type}.

Lemma bind_Return (m : M S A) (k : A -> M S B) s a s' :
  m s = (Return a, s') -> (m ≫= k) s = k a s'.
Proof. intros E. unfold mbind, M_bind, bind. by rewrite E. Qed.

Lemma bind_Raise (m : M S A) (k : A -> M S B) s e s' :
  m s = (Raise e, s') -> (m ≫= k) s = (Raise e, s').
Proof. intros E. unfold mbind, M_bind, bind. by rewrite E. Qed.

Lemma bind_Diverge (m : M S A) (k : A -> M S B) s s' :
  m s = (Diverge, s') -> (m ≫= k) s = (Diverge, s').
Proof. intros E. unfold mbind, M_bind, bind. by rewrite E. Qed.

Lemma try_except_Return (m : M S A) h s a s' :
  m s = (Return a, s') -> try_except m h s = (Return a, s').
Proof. intros E. unfold try_except. by rewrite E. Qed.

Lemma try_except_Raise (m : M S A) h s e s' :
  m s = (Raise e, s') ->
  try_except m h s = match h e with Some k => k s' | None => (Raise e, s') end.
Proof. intros E. unfold try_except. by rewrite E. Qed.

Lemma try_except_Diverge (m : M S A) h s s' :
  m s = (Diverge, s') -> try_except m h s = (Diverge, s').
Proof. intros E. unfold try_except. by rewrite E. Qed.

Lemma run_eta (p : outcome A * S) o : p.1 = o -> p = (o, p.2).
Proof. destruct p as [o' s]. by intros <-. Qed.

Lemma run_returned (p : outcome A * S) dflt :
  returns p.1 = true -> p = (Return (returned dflt p.1), p.2).
Proof. by destruct p as [[a|e|] s]. Qed.

End MonadLaws.

(** ** The response codec *)

Lemma py_eq_int_success_not_expired c :
  py_eq_int c RESULT_SUCCESS = true -> py_eq_int c RESULT_TOKEN_EXPIRED = false.
Proof.
  destruct c as [| [] | z | | |]; cbn; try done.
  unfold RESULT_SUCCESS, RESULT_TOKEN_EXPIRED. lia.
Qed.

Lemma parse_response_expired response self :
  token_expiry_envelope response = true ->
  _parse_response response self = (Raise TokenExpiredError, set_token (JStr "") self).
Proof.
  unfold token_expiry_envelope, _parse_response. destruct response as [| | | | |d]; try done.
  destruct (d !! "result_code") as [c|] eqn:Ec; [|done].
  destruct (d !! "result_msg") as [m|] eqn:Em; [|done]. intros Hc.
  run_monad. cbn. rewrite Ec, Em. cbn. rewrite Hc.
  destruct (py_eq_int c RESULT_SUCCESS) eqn:E1; [|done].
  by rewrite (py_eq_int_success_not_expired _ E1) in Hc.
Qed.

Lemma parse_response_success response payload self :
  success_payload response = Some payload ->
  _parse_response response self = (Return payload, self).
Proof.
  unfold success_payload, _parse_response. destruct response as [| | | | |d]; try done.
  destruct (d !! "result_code") as [c|] eqn:Ec; [|done].
  destruct (py_eq_int c RESULT_SUCCESS) eqn:E1; [|done]. intros Hd.
  run_monad. cbn. rewrite Ec. cbn. rewrite E1, Hd. done.
Qed.

(** An envelope that carries an integer code other than SUCCESS and
    TOKEN_EXPIRED, and a message, decodes to a [SungrowError] with both. *)
Lemma parse_response_error d c code msg self :
  d !! "result_code" = Some c ->
  format_d c = Return code ->
  code <> RESULT_SUCCESS -> code <> RESULT_TOKEN_EXPIRED ->
  d !! "result_msg" = Some msg ->
  _parse_response (JDict d) self = (Raise (SungrowError (UnknownResult code msg)), self).
Proof.
  intros Ec Hf H1 H106 Em. unfold _parse_response. run_monad. cbn. rewrite Ec, Em. cbn.
  assert (py_eq_int c RESULT_SUCCESS = false /\ py_eq_int c RESULT_TOKEN_EXPIRED = false)
    as [-> ->].
  { destruct c as [|b|z| | |]; cbn in *; simplify_eq; split; by apply Z.eqb_neq. }
  by rewrite Hf.
Qed.

(** C6: an envelope without [result_code] is read as code 0, which is
    neither SUCCESS nor TOKEN_EXPIRED; decoding it then looks the absent
    field up again to build the log line and raises [KeyError], not the
    [SungrowError] that carries code and message. *)
Theorem parse_response_missing_code (d : gmap string json) (self : SungrowWebsocketClient) :
  d !! "result_code" = None ->
  reads_as (JDict d) 0 = true
  /\ _parse_response (JDict d) self = (Raise (KeyError (KStr "result_code")), self).
Proof.
  intros Ec. unfold reads_as, _parse_response. run_monad. cbn. by rewrite Ec.
Qed.

Lemma parse_response_missing_code_witness :
  reads_as (JDict {["result_msg" := JStr "busy"]}) 0 = true
  /\ _parse_response (JDict {["result_msg" := JStr "busy"]}) (Sungrow.__init__ "192.168.1.5" 8082)
     = (Raise (KeyError (KStr "result_code")), Sungrow.__init__ "192.168.1.5" 8082).
Proof. apply parse_response_missing_code. reflexivity. Defined.

(** C7, as the code has it: decoding performs no I/O and its result depends
    on the envelope alone, but it is not free of effects: for an envelope
    read as TOKEN_EXPIRED it empties the held token; every other envelope,
    and every other attribute, leaves the client as it was. *)
Theorem parse_response_frame (response : json) (self : SungrowWebsocketClient) :
  (_parse_response response self).2 =
    (if reads_as response RESULT_TOKEN_EXPIRED then set_token (JStr "") self else self)
  /\ session (_parse_response response self).2 = session self
  /\ forall self', (_parse_response response self').1 = (_parse_response response self).1.
Proof.
  unfold _parse_response, reads_as.
  destruct response as [| b | z | s | l | d]; try (run_monad; done).
  cbn [py_get]. run_monad.
  destruct (py_eq_int (default (JInt 0) (d !! "result_code")) RESULT_SUCCESS) eqn:E1.
  - rewrite (py_eq_int_success_not_expired _ E1). cbn. repeat case_match; done.
  - destruct (py_eq_int _ RESULT_TOKEN_EXPIRED) eqn:E2.
    + cbn. repeat case_match; simplify_eq; done.
    + cbn. repeat (case_match; simplify_eq; try done).
Qed.

(** C7, as stated, fails: decoding a TOKEN_EXPIRED envelope changes the
    held token. *)
Lemma parse_response_not_pure :
  let self := set_token (JStr "848a0ca3-b37d") (Sungrow.__init__ "192.168.1.5" 8082) in
  token self = JStr "848a0ca3-b37d"
  /\ token (_parse_response expired_envelope self).2 = JStr ""
  /\ (_parse_response expired_envelope self).2 <> self.
Proof.
  split; [reflexivity|]. split; [reflexivity|].
  intros H. apply (f_equal token) in H. discriminate H.
Qed.

(** ** Connecting *)

Section Connection.
Variable gw : gateway.

Lemma after_timeouts_fields k url self :
  _ws (after_timeouts k url self) = _ws self /\
  connects (session (after_timeouts k url self)) = (connects (session self) + k)%nat /\
  sends (session (after_timeouts k url self)) = sends (session self) /\
  receives (session (after_timeouts k url self)) = receives (session self) /\
  log (session (after_timeouts k url self)) = log (session self) ++ timed_out_attempts url k /\
  token (after_timeouts k url self) = match k with O => token self | S _ => JStr "" end.
Proof.
  revert self. induction k as [|k IH]; intros self.
  - cbn. rewrite app_nil_r, Nat.add_0_r. done.
  - cbn [after_timeouts].
    destruct (IH (after_timeout url self)) as (-> & -> & -> & -> & -> & ->).
    cbn. rewrite <- app_assoc. repeat split; try done; try lia. by destruct k.
Qed.

(** [k] timeouts in a row take the loop [k] iterations further. *)
Lemma ensure_connected_loop_timeouts k :
  forall remaining attempts url self,
  (forall i, (i < k)%nat -> on_connect gw (connects (session self) + i) = Some TimeoutError) ->
  _ensure_connected_loop gw (k + remaining) attempts url self =
  _ensure_connected_loop gw remaining (k + attempts) url (after_timeouts k url self).
Proof.
  induction k as [|k IH]; intros remaining attempts url self Hto; [done|].
  cbn [Nat.add _ensure_connected_loop after_timeouts].
  pose proof (Hto 0%nat ltac:(lia)) as H0. rewrite Nat.add_0_r in H0.
  run_monad. unfold ws_connect at 1. cbn. rewrite H0. cbn.
  unfold sleep. run_monad. cbn.
  replace (S (k + attempts)) with (k + S attempts)%nat by lia.
  rewrite <- IH.
  - f_equal. unfold after_timeout, set_token, set_session, logged. cbn.
    by rewrite <- app_assoc.
  - intros i Hi. cbn. rewrite <- (Hto (S i)) by lia. f_equal. lia.
Qed.

Lemma ensure_connected_live self :
  live self = true -> _ensure_connected gw self = (Return tt, self).
Proof. unfold live, _ensure_connected. run_monad. destruct (_ws self) as [[[]]|]; done. Qed.

Lemma ensure_connected_not_live self :
  live self = false ->
  _ensure_connected gw self = _ensure_connected_loop gw 10 0 (ws_url self) self.
Proof. unfold live, _ensure_connected. run_monad. destruct (_ws self) as [[[]]|]; done. Qed.

(** C5: with a live connection [_ensure_connected] does nothing, however
    often it is called.  Without one it makes up to 10 attempts, each after
    emptying the token, and sleeps 1 second after every attempt that timed
    out: it returns connected as soon as an attempt succeeds, and after 10
    timeouts it raises the connection failure, a [SungrowError] whose text
    is "Failed to connect to <url> after 10 attempts." *)
Theorem ensure_connected_spec (self : SungrowWebsocketClient) :
  let url := ws_url self in
  let n := connects (session self) in
  (live self = true -> _ensure_connected gw self = (Return tt, self))
  /\ (forall k, live self = false -> (k < 10)%nat ->
        (forall i, (i < k)%nat -> on_connect gw (n + i) = Some TimeoutError) ->
        on_connect gw (n + k) = None ->
        exists self',
          _ensure_connected gw self = (Return tt, self')
          /\ live self' = true
          /\ token self' = JStr ""
          /\ connects (session self') = (n + k + 1)%nat
          /\ log (session self') =
               log (session self) ++ timed_out_attempts url k ++ [WsConnect url])
  /\ (live self = false ->
        (forall i, (i < 10)%nat -> on_connect gw (n + i) = Some TimeoutError) ->
        exists self',
          _ensure_connected gw self = (Raise (SungrowError (FailedToConnect url 10)), self')
          /\ token self' = JStr ""
          /\ connects (session self') = (n + 10)%nat
          /\ log (session self') = log (session self) ++ timed_out_attempts url 10).
Proof.
  intros url n. split; [apply ensure_connected_live|split].
  - intros k Hl Hk Hto Hok. rewrite (ensure_connected_not_live _ Hl).
    pose proof (ensure_connected_loop_timeouts k (S (9 - k)) 0 url self Hto) as E.
    replace (k + S (9 - k))%nat with 10%nat in E by lia. fold url. rewrite E. clear E.
    destruct (after_timeouts_fields k url self) as (Hws & Hc & Hs & Hr & Hlog & Htok).
    cbn [_ensure_connected_loop]. run_monad. unfold ws_connect. cbn.
    rewrite Hc. fold n. rewrite Hok. eexists; split; [done|]. cbn.
    rewrite Hlog. repeat split; try done; try lia. by rewrite <- app_assoc.
  - intros Hl Hto. rewrite (ensure_connected_not_live _ Hl). fold url.
    change 10%nat with (10 + 0)%nat at 1.
    rewrite (ensure_connected_loop_timeouts 10 0 0 url self Hto).
    destruct (after_timeouts_fields 10 url self) as (Hws & Hc & Hs & Hr & Hlog & Htok).
    cbn [_ensure_connected_loop]. run_monad. eexists; split; [done|]. done.
Qed.

End Connection.

(** The three cases of [ensure_connected_spec] at work: a connected client,
    a fresh one that connects at the fourth attempt, and one that never
    gets through. *)
Lemma ensure_connected_spec_witness :
  let fresh := Sungrow.__init__ "192.168.1.5" 8082 in
  let url := "ws://192.168.1.5:8082/ws/home/overview" in
  let slow := scripted_gateway [Some TimeoutError; Some TimeoutError; Some TimeoutError; None] [] in
  let dead := scripted_gateway [] [] in
  let connected := set_ws (Some {| closed := false |}) fresh in
  _ensure_connected dead connected = (Return tt, connected)
  /\ (exists self', _ensure_connected slow fresh = (Return tt, self')
        /\ live self' = true /\ token self' = JStr ""
        /\ connects (session self') = 4%nat
        /\ log (session self') =
             [WsConnect url; Sleep 1; WsConnect url; Sleep 1; WsConnect url; Sleep 1;
              WsConnect url])
  /\ (exists self', _ensure_connected dead fresh
                    = (Raise (SungrowError (FailedToConnect url 10)), self')
        /\ token self' = JStr ""
        /\ connects (session self') = 10%nat
        /\ log (session self') = timed_out_attempts url 10).
Proof.
  intros fresh url slow dead connected. split; [|split].
  - apply (proj1 (ensure_connected_spec dead connected)). reflexivity.
  - apply (proj1 (proj2 (ensure_connected_spec slow fresh)) 3%nat).
    + reflexivity.
    + lia.
    + intros [|[|[|i]]] Hi; try reflexivity. lia.
    + reflexivity.
  - apply (proj2 (proj2 (ensure_connected_spec dead fresh))).
    + reflexivity.
    + intros i _. unfold dead, scripted_gateway. cbn. by rewrite lookup_nil.
Defined.

(** ** Calls and token expiry *)

Section Retry.
Variable gw : gateway.

Lemma exchange_ok msg self response :
  live self = true ->
  on_send gw (sends (session self)) = None ->
  on_receive gw (receives (session self)) = inl response ->
  (send_json gw msg;; receive_json gw) self = (Return response, after_exchange msg self).
Proof.
  unfold live. intros Hl Hs Hr. destruct (_ws self) as [ws|] eqn:Ews; [|done].
  erewrite bind_Return; [|unfold send_json; rewrite Ews, Hs; reflexivity].
  unfold receive_json. cbn. rewrite Ews, Hr. unfold after_exchange, logged. cbn.
  by rewrite <- app_assoc.
Qed.

Lemma ensure_token_held self :
  live self = true -> truthy (token self) = true ->
  _ensure_token gw self = (Return tt, self).
Proof.
  intros Hl Ht. unfold _ensure_token.
  rewrite (bind_Return _ _ _ _ _ (ensure_connected_live gw _ Hl)).
  erewrite bind_Return by reflexivity. by rewrite Ht.
Qed.

Lemma ensure_token_granted self reply t :
  live self = true -> truthy (token self) = false ->
  on_send gw (sends (session self)) = None ->
  on_receive gw (receives (session self)) = inl reply ->
  granted_token reply = Some t ->
  _ensure_token gw self = (Return tt, set_token t (after_exchange connect_request self)).
Proof.
  intros Hl Ht Hs Hr Hg. unfold _ensure_token.
  rewrite (bind_Return _ _ _ _ _ (ensure_connected_live gw _ Hl)).
  erewrite bind_Return by reflexivity. rewrite Ht.
  pose proof (exchange_ok connect_request self reply Hl Hs Hr) as Hx.
  unfold granted_token, success_payload in Hg.
  destruct reply as [| | | | |d]; try done.
  destruct (d !! "result_code") as [c|] eqn:Ec; [|done].
  destruct (py_eq_int c RESULT_SUCCESS) eqn:E1; [|done].
  destruct (d !! "result_data") as [[| | | | |d']|] eqn:Ed; try done.
  revert Hx. unfold connect_request. run_monad.
  destruct (send_json _ _ self) as [[] ?]; try done; intros ->.
  cbn. rewrite Ec. cbn. rewrite E1, Ed. cbn. rewrite Hg. done.
Qed.

Lemma scripted_from_cons base x script :
  scripted_from gw base (x :: script) ->
  on_receive gw base = inl x /\ scripted_from gw (S base) script.
Proof.
  intros H. split.
  - rewrite <- (Nat.add_0_r base). by apply H.
  - intros k y Hk. replace (S base + k)%nat with (base + S k)%nat by lia. by apply H.
Qed.

Lemma sends_ok_from_S base n :
  sends_ok_from gw base (S n) -> on_send gw base = None /\ sends_ok_from gw (S base) n.
Proof.
  intros H. split.
  - rewrite <- (Nat.add_0_r base). apply H. lia.
  - intros k Hk. replace (S base + k)%nat with (base + S k)%nat by lia. apply H. lia.
Qed.

(** One pass through the body of [_ws_get] once a token is in hand. *)
Lemma attempt_run service params ready response :
  live ready = true ->
  on_send gw (sends (session ready)) = None ->
  on_receive gw (receives (session ready)) = inl response ->
  (tok ← gets token;
   send_json gw (request_msg tok service params);;
   response ← receive_json gw;
   _parse_response response) ready =
  _parse_response response (after_exchange (request_msg (token ready) service params) ready).
Proof.
  intros Hl Hs Hr. erewrite bind_Return by reflexivity.
  pose proof (exchange_ok (request_msg (token ready) service params) ready response Hl Hs Hr) as Hx.
  revert Hx. run_monad. destruct (send_json _ _ ready) as [[] ?]; try done.
  by intros ->.
Qed.

Lemma ws_get_from_ready service params success payload rounds :
  success_payload success = Some payload ->
  forall fuel self ready,
  Forall expiry_round_ok rounds ->
  _ensure_token gw self = (Return tt, ready) ->
  live ready = true ->
  scripted_from gw (receives (session ready)) (answers rounds success) ->
  sends_ok_from gw (sends (session ready)) (length (answers rounds success)) ->
  (length rounds < fuel)%nat ->
  _ws_get gw fuel service params self = (Return payload, retried service params rounds ready).
Proof.
  intros Hp. induction rounds as [|r rounds IH];
    intros fuel self ready Hok Hens Hl Hrecv Hsend Hfuel.
  - destruct fuel as [|fuel]; [cbn in Hfuel; lia|]. cbn [_ws_get retried].
    apply scripted_from_cons in Hrecv as [Hr _]. apply sends_ok_from_S in Hsend as [Hs _].
    apply try_except_Return. rewrite (bind_Return _ _ _ _ _ Hens).
    rewrite (attempt_run _ _ _ _ Hl Hs Hr). by apply parse_response_success.
  - destruct fuel as [|fuel]; [cbn in Hfuel; lia|]. cbn [_ws_get retried].
    inversion Hok as [|? ? [Hexp Hgr] Hok']; subst.
    cbn [answers mbind list_bind mjoin fmap list_fmap app] in Hrecv, Hsend.
    apply scripted_from_cons in Hrecv as [Hr1 Hrecv].
    apply scripted_from_cons in Hrecv as [Hr2 Hrecv].
    cbn [length] in Hsend.
    apply sends_ok_from_S in Hsend as [Hs1 Hsend].
    apply sends_ok_from_S in Hsend as [Hs2 Hsend].
    erewrite try_except_Raise; cycle 1.
    { rewrite (bind_Return _ _ _ _ _ Hens). rewrite (attempt_run _ _ _ _ Hl Hs1 Hr1).
      by apply parse_response_expired. }
    cbn beta iota.
    eapply IH; try done.
    + by eapply ensure_token_granted.
    + cbn in Hfuel. lia.
Qed.

Lemma retried_log service params rounds : forall ready,
  log (session (retried service params rounds ready)) =
  log (session ready) ++ retry_log service params (token ready) rounds.
Proof.
  induction rounds as [|r rounds IH]; intros ready; cbn [retried retry_log]; [done|].
  rewrite IH. cbn. rewrite <- !app_assoc. done.
Qed.

Lemma default_last_cons {A} (l : list A) : forall a b x,
  default a (last (x :: l)) = default b (last (x :: l)).
Proof. induction l as [|y l IH]; intros a b x; [done|]. apply (IH a b y). Qed.

Lemma retried_token service params rounds : forall ready,
  token (retried service params rounds ready) =
  default (token ready) (last (new_token <$> rounds)).
Proof.
  induction rounds as [|r rounds IH]; intros ready; cbn [retried]; [done|].
  rewrite IH. cbn. destruct rounds as [|r' rounds]; [done|].
  rewrite !fmap_cons. cbn [last]. apply default_last_cons.
Qed.

(** C1: once the ensure-token step of a call has gone through, let the
    gateway answer the call with any number of token-expiry envelopes, each
    followed by a token for the "connect" request it provokes, and then
    with a success envelope.  [_ws_get] returns the [result_data] of that
    envelope; the caller sees no exception.  Each expiry empties the token,
    a new one is requested and the same call is sent again, as often as the
    gateway asks for it. *)
Theorem ws_get_transparent_retry
    (service : string) (params : gmap string json)
    (self ready : SungrowWebsocketClient)
    (rounds : list expiry_round) (success payload : json) (fuel : nat) :
  _ensure_token gw self = (Return tt, ready) ->
  live ready = true ->
  Forall expiry_round_ok rounds ->
  success_payload success = Some payload ->
  scripted_from gw (receives (session ready)) (answers rounds success) ->
  sends_ok_from gw (sends (session ready)) (length (answers rounds success)) ->
  (length rounds < fuel)%nat ->
  exists self',
    _ws_get gw fuel service params self = (Return payload, self')
    /\ self' = retried service params rounds ready
    /\ log (session self') =
         log (session ready) ++ retry_log service params (token ready) rounds
    /\ token self' = default (token ready) (last (new_token <$> rounds)).
Proof.
  intros Hens Hl Hok Hp Hrecv Hsend Hfuel.
  exists (retried service params rounds ready). split; [|split; [done|split]].
  - by eapply ws_get_from_ready.
  - apply retried_log.
  - apply retried_token.
Qed.

End Retry.

(** A fresh client asks for the device list; the gateway lets its token
    expire twice before it answers. *)
Lemma ws_get_transparent_retry_witness :
  let devices := JDict {["list" := JList []]} in
  let rounds :=
    [ {| expired := expired_envelope; reply := connect_reply "t1"; new_token := JStr "t1" |};
      {| expired := expired_envelope; reply := connect_reply "t2"; new_token := JStr "t2" |} ] in
  let gw := scripted_gateway [None]
              (inl <$> connect_reply "t0" :: answers rounds (success_envelope devices)) in
  let fresh := Sungrow.__init__ "192.168.1.5" 8082 in
  let ready := (_ensure_token gw fresh).2 in
  let params : gmap string json := <["type" := JStr "0"]> {["is_check_token" := JStr "0"]} in
  exists self',
    _ws_get gw 3 "devicelist" params fresh = (Return devices, self')
    /\ self' = retried "devicelist" params rounds ready
    /\ log (session self') =
         log (session ready) ++ retry_log "devicelist" params (JStr "t0") rounds
    /\ token self' = JStr "t2".
Proof.
  intros devices rounds gw fresh ready params.
  apply (ws_get_transparent_retry gw "devicelist" params fresh ready rounds
           (success_envelope devices) devices 3).
  - apply run_eta. vm_compute. reflexivity.
  - vm_compute. reflexivity.
  - repeat constructor.
  - reflexivity.
  - intros k x. do 5 (destruct k as [|k]; [intros [= <-]; reflexivity|]).
    intros H. discriminate H.
  - intros k _. reflexivity.
  - cbn. lia.
Defined.

(** * Properties of the coordinators *)

Import Const Sensor Coordinator CoordinatorSpec.

Section PollProperties.
Variable gw : gateway.
Variable fuel : nat.
Variable int_of_str : string -> option Z.

(** [_async_update_data], by the outcome of the fetch. *)
Lemma async_update_data_run c w :
  _async_update_data gw fuel int_of_str (c, w) =
  match _update_method gw fuel int_of_str (class_of c) (inverter_info c) w with
  | (Return data, w') => (Return data, (succeeded data c, w'))
  | (Raise e, w') =>
      if is_SungrowError e
      then (Raise (UpdateFailed e), (failed c, w'))
      else (Raise e, (c, w'))
  | (Diverge, w') => (Diverge, (c, w'))
  end.
Proof.
  unfold _async_update_data, on_sungrow, on_self, zoom. run_monad. cbn.
  destruct (_update_method _ _ _ _ _ w) as [[data|e|] w']; cbn; [| |done].
  - unfold succeeded. by destruct (_failed_update_count c =? 0).
  - destruct (is_SungrowError e); [|done]. cbn. unfold failed. cbn.
    by destruct (_failed_update_count c + 1 =? MAX_FAILED_UPDATES).
Qed.

Lemma poll_failure s :
  fetch_fails gw fuel int_of_str s = true ->
  (poll gw fuel int_of_str s).1 = failed s.1.
Proof.
  destruct s as [c w]. unfold fetch_fails, fetch, poll. rewrite async_update_data_run. cbn.
  destruct (_update_method _ _ _ _ _ w) as [[data|e|] w']; cbn; try done.
  by intros ->.
Qed.

Lemma poll_success s :
  fetch_succeeds gw fuel int_of_str s = true ->
  exists data, (fetch gw fuel int_of_str s).1 = Return data
               /\ (poll gw fuel int_of_str s).1 = succeeded data s.1.
Proof.
  destruct s as [c w]. unfold fetch_succeeds, fetch, poll. rewrite async_update_data_run. cbn.
  destruct (_update_method _ _ _ _ _ w) as [[data|e|] w']; cbn; try done.
  intros _. by exists data.
Qed.

(** The loop after [k] failures in a row, counted from a clean state. *)
Lemma polls_failures k : forall s,
  _failed_update_count s.1 = 0 ->
  update_interval s.1 = default_interval (class_of s.1) ->
  (forall i, (i < k)%nat -> fetch_fails gw fuel int_of_str (polls gw fuel int_of_str i s) = true) ->
  let s' := polls gw fuel int_of_str k s in
  class_of s'.1 = class_of s.1
  /\ _failed_update_count s'.1 = Z.of_nat k
  /\ update_interval s'.1 =
       if (Z.of_nat k <? MAX_FAILED_UPDATES)
       then default_interval (class_of s.1) else error_interval (class_of s.1).
Proof.
  induction k as [|k IH]; intros s H0 Hi Hfail.
  - cbn. by rewrite H0, Hi.
  - cbn [polls]. destruct (IH s H0 Hi) as (Hcls & Hcnt & Hint).
    { intros i Hlt. apply Hfail. lia. }
    clear IH. cbn zeta in *.
    rewrite (poll_failure _ (Hfail k ltac:(lia))).
    unfold failed. cbn. rewrite Hcnt.
    destruct (Z.of_nat k + 1 =? MAX_FAILED_UPDATES) eqn:E; cbn; rewrite ?Hcls, ?Hcnt, ?Hint.
    + apply Z.eqb_eq in E. unfold MAX_FAILED_UPDATES in *.
      repeat split; [lia|]. destruct (Z.ltb_spec (Z.of_nat (S k)) 3); [lia|done].
    + apply Z.eqb_neq in E. unfold MAX_FAILED_UPDATES in *.
      repeat split; [lia|].
      destruct (Z.ltb_spec (Z.of_nat k) 3), (Z.ltb_spec (Z.of_nat (S k)) 3); try done; lia.
Qed.

(** C2: a loop of either class that starts with counter 0 and the NORMAL
    interval of one minute runs, after [k >= 3] failed fetches in a row, on
    the DEGRADED interval, ten times as long, and keeps it for every
    further failure; the next fetch that succeeds puts the counter back to
    0 and the interval back to NORMAL. *)
Theorem degraded_after_three_failures
    (s : SungrowCoordinator * SungrowWebsocketClient) (k : nat) :
  _failed_update_count s.1 = 0 ->
  update_interval s.1 = default_interval (class_of s.1) ->
  (forall i, (i < k)%nat ->
     fetch_fails gw fuel int_of_str (polls gw fuel int_of_str i s) = true) ->
  (3 <= k)%nat ->
  let NORMAL := default_interval (class_of s.1) in
  let DEGRADED := error_interval (class_of s.1) in
  let s' := polls gw fuel int_of_str k s in
  NORMAL = 60 /\ DEGRADED = 10 * NORMAL
  /\ update_interval s'.1 = DEGRADED
  /\ _failed_update_count s'.1 = Z.of_nat k
  /\ (fetch_succeeds gw fuel int_of_str s' = true ->
      _failed_update_count (poll gw fuel int_of_str s').1 = 0
      /\ update_interval (poll gw fuel int_of_str s').1 = NORMAL).
Proof.
  intros H0 Hi Hfail Hk NORMAL DEGRADED s'.
  destruct (polls_failures k s H0 Hi Hfail) as (Hcls & Hcnt & Hint). fold s' in Hcls, Hcnt, Hint.
  split; [by destruct (class_of s.1)|]. split; [by destruct (class_of s.1)|].
  split; [|split; [done|]].
  - rewrite Hint. unfold MAX_FAILED_UPDATES. destruct (Z.ltb_spec (Z.of_nat k) 3); [lia|done].
  - intros Hok. destruct (poll_success _ Hok) as (data & _ & ->).
    unfold succeeded. rewrite Hcnt. destruct (Z.eqb_spec (Z.of_nat k) 0); [lia|].
    cbn. by rewrite Hcls.
Qed.

End PollProperties.

Lemma degraded_after_three_failures_witness :
  let timeout := ClientSpec.envelope 8 "LNRequestTimeout" ∅ in
  let gw := ClientSpec.scripted_gateway [None]
              (inl <$> ClientSpec.connect_reply "t0" :: replicate 9 timeout
                       ++ [realtime_envelope [row "I18N_COMMON_BUS_VOLTAGE" "652.0" "V"]]) in
  let s := (Coordinator.__init__ SungrowInverterUpdateCoordinator
              (inverter 1 "A2320857820" "SH10RT" 35),
            Sungrow.__init__ "192.168.1.5" 8082) in
  let s' := polls gw 4 (fun _ => None) 3 s in
  update_interval s.1 = 60
  /\ update_interval s'.1 = 600
  /\ _failed_update_count s'.1 = 3
  /\ _failed_update_count (poll gw 4 (fun _ => None) s').1 = 0
  /\ update_interval (poll gw 4 (fun _ => None) s').1 = 60.
Proof.
  intros timeout gw s s'.
  assert (Hfail : forall i, (i < 3)%nat ->
            fetch_fails gw 4 (fun _ => None) (polls gw 4 (fun _ => None) i s) = true).
  { intros [|[|[|i]]] Hi; [vm_compute; reflexivity ..|lia]. }
  destruct (degraded_after_three_failures gw 4 (fun _ => None) s 3
              eq_refl eq_refl Hfail (le_n 3)) as (_ & _ & Hint & Hcnt & Hok).
  destruct Hok as [Hcnt' Hint']; [vm_compute; reflexivity|].
  repeat split; assumption || reflexivity.
Defined.

(** ** Silent retries *)

Section FetchProperties.
Variable gw : gateway.
Variable fuel : nat.
Variable int_of_str : string -> option Z.

Lemma silent_retry_loop_cons silent_retry range info w :
  silent_retry_loop gw fuel int_of_str (silent_retry :: range) info w =
  match attempt gw fuel int_of_str info w with
  | (Raise e, w') =>
      if is_SungrowError e then
        if Nat.eqb silent_retry (SILENT_RETRIES - 1) then (Raise e, w')
        else silent_retry_loop gw fuel int_of_str range info w'
      else (Raise e, w')
  | r => r
  end.
Proof.
  cbn [silent_retry_loop]. unfold try_except. fold (attempt gw fuel int_of_str info).
  destruct (attempt gw fuel int_of_str info w) as [[d|e|] w']; try done.
  destruct (is_SungrowError e); [|done]. by destruct (Nat.eqb _ _).
Qed.

Lemma attempt_returns_hashable info w data w' :
  attempt gw fuel int_of_str info w = (Return data, w') ->
  exists id, py_hash (wi_net_id info) = Return id.
Proof.
  unfold attempt. run_monad. destruct (wi_net_id info) as [|b|z|s| |]; cbn; try done; eauto.
Qed.

Lemma attempt_fails_inv k info w :
  attempt_fails gw fuel int_of_str info (after_attempts gw fuel int_of_str k info w) = true ->
  exists e, attempt gw fuel int_of_str info (after_attempts gw fuel int_of_str k info w)
            = (Raise e, after_attempts gw fuel int_of_str (S k) info w)
            /\ is_SungrowError e = true.
Proof.
  unfold attempt_fails. cbn [after_attempts].
  destruct (attempt _ _ _ info _) as [[d|e|] w']; cbn; try done. eauto.
Qed.

(** C8, as the code has it: the inverter fetch calls the gateway at most
    three times in a cycle, so it retries silently at most twice.  A
    [SungrowError] from the first or the second call is swallowed and the
    same call made again; the first call that returns ends the fetch with
    its data, and no error is seen; the error of a third failure in a row
    surfaces, and no fourth call is made.  The battery fetch makes one
    call, whose failure surfaces at once. *)
Theorem inverter_fetch_three_attempts (info : SungrowDeviceInfo) (w : SungrowWebsocketClient) :
  let inverter_fetch := _update_method gw fuel int_of_str SungrowInverterUpdateCoordinator info in
  let battery_fetch := _update_method gw fuel int_of_str SungrowBatteryUpdateCoordinator info in
  (forall j data w',
     (j < 3)%nat ->
     (forall i, (i < j)%nat ->
        attempt_fails gw fuel int_of_str info (after_attempts gw fuel int_of_str i info w) = true) ->
     attempt gw fuel int_of_str info (after_attempts gw fuel int_of_str j info w)
       = (Return data, w') ->
     exists id, py_hash (wi_net_id info) = Return id
                /\ inverter_fetch w = (Return {[ id := data ]}, w'))
  /\ ((forall i, (i < 3)%nat ->
         attempt_fails gw fuel int_of_str info (after_attempts gw fuel int_of_str i info w) = true) ->
      exists e, is_SungrowError e = true
                /\ (attempt gw fuel int_of_str info
                      (after_attempts gw fuel int_of_str 2 info w)).1 = Raise e
                /\ inverter_fetch w = (Raise e, after_attempts gw fuel int_of_str 3 info w))
  /\ (forall e w',
        battery_attempt gw fuel int_of_str info w = (Raise e, w') ->
        battery_fetch w = (Raise e, w')).
Proof.
  intros inverter_fetch battery_fetch. split; [|split].
  - intros j data w' Hj Hfail Hok.
    destruct (attempt_returns_hashable _ _ _ _ Hok) as [id Hid]. exists id. split; [done|].
    unfold inverter_fetch, _update_method. change (seq 0 SILENT_RETRIES) with [0; 1; 2]%nat.
    assert (silent_retry_loop gw fuel int_of_str [0; 1; 2]%nat info w = (Return data, w')) as E.
    { destruct j as [|[|[|j]]]; [| | |lia].
      - rewrite silent_retry_loop_cons.
        change (after_attempts gw fuel int_of_str 0 info w) with w in Hok. by rewrite Hok.
      - destruct (attempt_fails_inv 0 _ _ (Hfail 0%nat ltac:(lia))) as (e0 & E0 & He0).
        change (after_attempts gw fuel int_of_str 0 info w) with w in E0.
        rewrite silent_retry_loop_cons, E0, He0. cbn [Nat.eqb SILENT_RETRIES Nat.sub].
        rewrite silent_retry_loop_cons. by rewrite Hok.
      - destruct (attempt_fails_inv 0 _ _ (Hfail 0%nat ltac:(lia))) as (e0 & E0 & He0).
        change (after_attempts gw fuel int_of_str 0 info w) with w in E0.
        destruct (attempt_fails_inv 1 _ _ (Hfail 1%nat ltac:(lia))) as (e1 & E1 & He1).
        rewrite silent_retry_loop_cons, E0, He0. cbn [Nat.eqb SILENT_RETRIES Nat.sub].
        rewrite silent_retry_loop_cons, E1, He1. cbn [Nat.eqb SILENT_RETRIES Nat.sub].
        rewrite silent_retry_loop_cons. by rewrite Hok. }
    rewrite (bind_Return _ _ _ _ _ E). run_monad. by rewrite Hid.
  - intros Hfail.
    destruct (attempt_fails_inv 0 _ _ (Hfail 0%nat ltac:(lia))) as (e0 & E0 & He0).
        change (after_attempts gw fuel int_of_str 0 info w) with w in E0.
    destruct (attempt_fails_inv 1 _ _ (Hfail 1%nat ltac:(lia))) as (e1 & E1 & He1).
    destruct (attempt_fails_inv 2 _ _ (Hfail 2%nat ltac:(lia))) as (e2 & E2 & He2).
    exists e2. split; [done|]. split; [by rewrite E2|].
    unfold inverter_fetch, _update_method. change (seq 0 SILENT_RETRIES) with [0; 1; 2]%nat.
    apply bind_Raise.
    rewrite silent_retry_loop_cons, E0, He0. cbn [Nat.eqb SILENT_RETRIES Nat.sub].
    rewrite silent_retry_loop_cons, E1, He1. cbn [Nat.eqb SILENT_RETRIES Nat.sub].
    rewrite silent_retry_loop_cons, E2, He2. reflexivity.
  - intros e w' E. unfold battery_fetch, _update_method.
    unfold battery_attempt in E. revert E. run_monad.
    destruct (py_int int_of_str (wi_net_id info)) as [z| |]; cbn; intros E; [|by simplify_eq..].
    by rewrite E.
Qed.

End FetchProperties.

(** Two timeouts of the gateway are masked; three are not; a battery has
    no mask at all. *)
Lemma inverter_fetch_three_attempts_witness :
  let timeout := ClientSpec.envelope 8 "LNRequestTimeout" ∅ in
  let answer := realtime_envelope [row "I18N_COMMON_BUS_VOLTAGE" "652.0" "V"] in
  let flaky := ClientSpec.scripted_gateway [None]
                 (inl <$> [ClientSpec.connect_reply "t0"; timeout; timeout; answer]) in
  let broken := ClientSpec.scripted_gateway [None]
                  (inl <$> [ClientSpec.connect_reply "t0"; timeout; timeout; timeout]) in
  let info := inverter 1 "A2320857820" "SH10RT" 35 in
  let w := Sungrow.__init__ "192.168.1.5" 8082 in
  let ios : string -> option Z := fun _ => None in
  let third := attempt flaky 4 ios info (after_attempts flaky 4 ios 2 info w) in
  let failure := SungrowError (UnknownResult 8 (JStr "LNRequestTimeout")) in
  (exists id, py_hash (wi_net_id info) = Return id
     /\ _update_method flaky 4 ios SungrowInverterUpdateCoordinator info w
        = (Return {[ id := returned ∅ third.1 ]}, third.2))
  /\ (exists e, is_SungrowError e = true
        /\ (attempt broken 4 ios info (after_attempts broken 4 ios 2 info w)).1 = Raise e
        /\ _update_method broken 4 ios SungrowInverterUpdateCoordinator info w
           = (Raise e, after_attempts broken 4 ios 3 info w))
  /\ _update_method broken 4 ios SungrowBatteryUpdateCoordinator info w
     = (Raise failure, (battery_attempt broken 4 ios info w).2).
Proof.
  intros timeout answer flaky broken info w ios third failure. split; [|split].
  - apply (proj1 (inverter_fetch_three_attempts flaky 4 ios info w) 2%nat).
    + lia.
    + intros [|[|i]] Hi; [vm_compute; reflexivity ..|lia].
    + apply run_returned. vm_compute. reflexivity.
  - apply (proj1 (proj2 (inverter_fetch_three_attempts broken 4 ios info w))).
    intros [|[|[|i]]] Hi; [vm_compute; reflexivity ..|lia].
  - apply (proj2 (proj2 (inverter_fetch_three_attempts broken 4 ios info w))).
    apply run_eta. vm_compute. reflexivity.
Defined.

(** C8, as stated, fails: when three calls in a row fail, the error
    surfaces although a third retry would have returned data; the fetch
    has made three calls (four sends with the one that fetched the
    token), not four. *)
Lemma inverter_fetch_no_third_retry :
  let timeout := ClientSpec.envelope 8 "LNRequestTimeout" ∅ in
  let answer := realtime_envelope [row "I18N_COMMON_BUS_VOLTAGE" "652.0" "V"] in
  let gw := ClientSpec.scripted_gateway [None]
              (inl <$> [ClientSpec.connect_reply "t0"; timeout; timeout; timeout; answer]) in
  let info := inverter 1 "A2320857820" "SH10RT" 35 in
  let w := Sungrow.__init__ "192.168.1.5" 8082 in
  let ios : string -> option Z := fun _ => None in
  let fetch := _update_method gw 4 ios SungrowInverterUpdateCoordinator info w in
  attempt_fails gw 4 ios info w = true
  /\ attempt_fails gw 4 ios info (after_attempts gw 4 ios 1 info w) = true
  /\ attempt_fails gw 4 ios info (after_attempts gw 4 ios 2 info w) = true
  /\ returns (attempt gw 4 ios info (after_attempts gw 4 ios 3 info w)).1 = true
  /\ fetch.1 = Raise (SungrowError (UnknownResult 8 (JStr "LNRequestTimeout")))
  /\ sends (session fetch.2) = 4%nat
  /\ receives (session fetch.2) = 4%nat.
Proof. repeat split; vm_compute; reflexivity. Qed.

(** ** Seen keys *)

Lemma seen_lookup_key device_data x y :
  lookup_key x = lookup_key y -> seen device_data x = seen device_data y.
Proof. unfold seen. by intros ->. Qed.

Lemma scan_descriptions_spec wi_net_id device_data descriptions :
  forall remaining new_entities,
  scan_descriptions wi_net_id device_data descriptions remaining new_entities =
  (remaining ++ filter (fun d => seen device_data d = false) descriptions,
   new_entities
   ++ (make_entity wi_net_id <$> filter (fun d => seen device_data d = true) descriptions)).
Proof.
  induction descriptions as [|d l IH]; intros remaining new_entities; cbn [scan_descriptions].
  - by rewrite !filter_nil, !app_nil_r.
  - destruct (seen device_data d) eqn:E; rewrite IH.
    + rewrite (filter_cons_True (fun d => seen device_data d = true) d l E).
      rewrite (filter_cons_False (fun d => seen device_data d = false) d l) by congruence.
      by rewrite fmap_cons, <- app_assoc.
    + rewrite (filter_cons_True (fun d => seen device_data d = false) d l E).
      rewrite (filter_cons_False (fun d => seen device_data d = true) d l) by congruence.
      by rewrite <- app_assoc.
Qed.

Lemma scan_devices_cons wi_net_id device_data items new_entities c :
  scan_devices ((wi_net_id, device_data) :: items) new_entities c =
  match unregistered_descriptors c !! wi_net_id with
  | None => (Raise (KeyError wi_net_id), c)
  | Some l =>
      scan_devices items
        (new_entities ++ (make_entity wi_net_id <$> filter (fun d => seen device_data d = true) l))
        (set_unregistered_descriptors
           (<[wi_net_id := filter (fun d => seen device_data d = false) l]>
              (unregistered_descriptors c)) c)
  end.
Proof.
  cbn [scan_devices]. run_monad.
  destruct (unregistered_descriptors c !! wi_net_id) as [l|]; [|done].
  by rewrite scan_descriptions_spec.
Qed.

Lemma shrinks_refl c : shrinks c c.
Proof. intros id l Hl. by exists l. Qed.

Lemma shrinks_trans c1 c2 c3 : shrinks c1 c2 -> shrinks c2 c3 -> shrinks c1 c3.
Proof.
  intros H12 H23 id l Hl. destruct (H12 id l Hl) as (l2 & Hl2 & Hs2).
  destruct (H23 id l2 Hl2) as (l3 & Hl3 & Hs3). exists l3. split; [done|].
  by etrans.
Qed.

Lemma gone_shrinks wi_net_id key c c' : gone wi_net_id key c -> shrinks c c' -> gone wi_net_id key c'.
Proof.
  intros (l & Hl & Hkey) Hs. destruct (Hs _ _ Hl) as (l' & Hl' & Hsub).
  exists l'. split; [done|]. intros x Hx. apply Hkey. by eapply elem_of_sublist.
Qed.

Lemma shrinks_scan_one wi_net_id device_data l c :
  unregistered_descriptors c !! wi_net_id = Some l ->
  shrinks c (set_unregistered_descriptors
               (<[wi_net_id := filter (fun d => seen device_data d = false) l]>
                  (unregistered_descriptors c)) c).
Proof.
  intros Hl id l0 Hl0. cbn. destruct (decide (wi_net_id = id)) as [->|Hne].
  - rewrite lookup_insert_eq. eexists; split; [done|]. simplify_eq. apply sublist_filter.
  - rewrite lookup_insert_ne by done. by exists l0.
Qed.

(** The outer loop of the scan: it only touches [unregistered_descriptors],
    which shrinks; every entity it adds comes from a description that was
    unregistered for that device and whose key is gone afterwards; it
    raises no [KeyError] when all the devices it visits are tracked. *)
Lemma scan_devices_spec items : forall new_entities c r c',
  scan_devices items new_entities c = (r, c') ->
  data c' = data c /\ class_of c' = class_of c
  /\ shrinks c c'
  /\ (forall out, r = Return out -> forall e, e ∈ out ->
        e ∈ new_entities
        \/ exists l, unregistered_descriptors c !! entity_wi_net_id e = Some l
                     /\ entity_description e ∈ l
                     /\ gone (entity_wi_net_id e) (lookup_key (entity_description e)) c')
  /\ ((forall id dd, (id, dd) ∈ items -> is_Some (unregistered_descriptors c !! id)) ->
      exists out, r = Return out).
Proof.
  induction items as [|[id dd] items IH]; intros acc c r c' Hrun.
  - cbn in Hrun. injection Hrun as <- <-. repeat split; try done.
    + apply shrinks_refl.
    + intros out [= <-] e He. by left.
    + eauto.
  - rewrite scan_devices_cons in Hrun.
    destruct (unregistered_descriptors c !! id) as [l|] eqn:El.
    2:{ injection Hrun as <- <-. repeat split; try done.
        - apply shrinks_refl.
        - intros Hall. destruct (Hall id dd) as [? ?]; [left|congruence]. }
    pose proof (shrinks_scan_one id dd l c El) as Hs1.
    destruct (IH _ _ _ _ Hrun) as (Hd & Hc & Hs & Hout & Hok). clear IH.
    split; [done|]. split; [done|]. split; [by eapply shrinks_trans|]. split.
    + intros out -> e He. destruct (Hout out eq_refl e He) as [Hacc|(l1 & Hl1 & Hin & Hgone)].
      * apply elem_of_app in Hacc as [Hacc|Hnew]; [by left|]. right.
        apply list_elem_of_fmap in Hnew as (d & -> & Hd'). cbn.
        apply list_elem_of_filter in Hd' as [Hseen Hd']. exists l. split; [done|]. split; [done|].
        destruct (Hs id _ (lookup_insert_eq _ _ _)) as (l' & Hl' & Hsub).
        exists l'. split; [done|]. intros x Hx Hkey.
        pose proof (elem_of_sublist _ _ _ Hx Hsub) as Hx'.
        apply list_elem_of_filter in Hx' as [Hns _].
        rewrite (seen_lookup_key dd _ _ Hkey) in Hns. congruence.
      * right. cbn in Hl1. destruct (decide (id = entity_wi_net_id e)) as [Heq|Hne].
        -- rewrite <- Heq in Hl1, Hgone |- *. rewrite lookup_insert_eq in Hl1.
           injection Hl1 as <-. exists l. split; [done|].
           split; [|done]. by apply list_elem_of_filter in Hin as [_ ?].
        -- rewrite lookup_insert_ne in Hl1 by done. by exists l1.
    + intros Hall. apply Hok. intros id' dd' Hin. cbn.
      destruct (decide (id = id')) as [Heq|Hne]; [by rewrite Heq, lookup_insert_eq|].
      rewrite lookup_insert_ne by done. apply (Hall id' dd'). by right.
Qed.

Lemma track_new_ids_lookup valid ids : forall unregistered wi_net_id,
  track_new_ids valid ids unregistered !! wi_net_id =
  match unregistered !! wi_net_id with
  | Some l => Some l
  | None => if bool_decide (wi_net_id ∈ ids) then Some valid else None
  end.
Proof.
  unfold track_new_ids.
  induction ids as [|a ids IH]; intros u id; cbn [foldl].
  - destruct (u !! id); [done|]. by rewrite bool_decide_eq_false_2 by apply not_elem_of_nil.
  - rewrite IH. clear IH.
    destruct (decide (a = id)) as [Heq|Hne].
    + rewrite Heq. destruct (u !! id) as [l|] eqn:E; [by rewrite E|].
      rewrite lookup_insert_eq. by rewrite bool_decide_eq_true_2 by left.
    + assert ((match u !! a with
               | Some _ => u
               | None => <[a:=valid]> u
               end) !! id = u !! id) as ->.
      { destruct (u !! a); [done|]. by rewrite lookup_insert_ne. }
      destruct (u !! id); [done|].
      rewrite (bool_decide_ext (id ∈ ids) (id ∈ a :: ids)); [done|].
      rewrite elem_of_cons. split; [by right|]. by intros [->|?].
Qed.

Lemma succeeded_fields data c :
  class_of (succeeded data c) = class_of c
  /\ Coordinator.data (succeeded data c) = Coordinator.data c
  /\ unregistered_descriptors (succeeded data c) =
       track_new_ids (valid_descriptions (class_of c)) (map_to_list data).*1
         (unregistered_descriptors c).
Proof. unfold succeeded. by destruct (_failed_update_count c =? 0). Qed.

Lemma failed_fields c :
  class_of (failed c) = class_of c
  /\ Coordinator.data (failed c) = Coordinator.data c
  /\ unregistered_descriptors (failed c) = unregistered_descriptors c.
Proof. unfold failed. cbn. by destruct (_ =? _). Qed.

Lemma shrinks_succeeded data c : shrinks c (succeeded data c).
Proof.
  intros id l Hl. destruct (succeeded_fields data c) as (_ & _ & ->).
  rewrite track_new_ids_lookup, Hl. by exists l.
Qed.

Lemma shrinks_failed c : shrinks c (failed c).
Proof. intros id l Hl. destruct (failed_fields c) as (_ & _ & ->). by exists l. Qed.

Section SeenKeyProperties.
Variable gw : gateway.
Variable fuel : nat.
Variable int_of_str : string -> option Z.

Lemma async_refresh_run c w :
  _async_refresh gw fuel int_of_str (c, w) =
  match _update_method gw fuel int_of_str (class_of c) (inverter_info c) w with
  | (Return data, w') => (Return tt, (set_data (Some data) (succeeded data c), w'))
  | (Raise e, w') =>
      if is_SungrowError e
      then (Raise (UpdateFailed e), (failed c, w'))
      else (Raise e, (c, w'))
  | (Diverge, w') => (Diverge, (c, w'))
  end.
Proof.
  unfold _async_refresh. unfold mbind at 1, M_bind, bind. rewrite async_update_data_run.
  destruct (_update_method _ _ _ _ _ w) as [[data|e|] w']; [done| |done].
  by destruct (is_SungrowError e).
Qed.

(** Every action leaves the class alone, keeps tracked devices tracked and
    lets their unregistered descriptions only shrink; it keeps the
    invariant that the ids of the cached snapshot are tracked. *)
Lemma step_invariants a s :
  let s' := (step gw fuel int_of_str a s).2 in
  class_of s'.1 = class_of s.1
  /\ shrinks s.1 s'.1
  /\ (tracked s.1 -> tracked s'.1).
Proof.
  destruct s as [c w]. destruct a; cbn [step fst snd].
  - rewrite async_refresh_run.
    destruct (_update_method _ _ _ _ _ w) as [[d|e|] w']; cbn [fst snd].
    + destruct (succeeded_fields d c) as (Hc & Hd & Hu).
      split; [done|]. split; [apply shrinks_succeeded|].
      intros _ d' id [= <-] Hid.
      change (unregistered_descriptors (set_data (Some d) (succeeded d c)))
        with (unregistered_descriptors (succeeded d c)).
      rewrite Hu, track_new_ids_lookup.
      destruct (unregistered_descriptors c !! id); [done|].
      rewrite bool_decide_eq_true_2; [done|].
      destruct Hid as [dd Hdd]. apply list_elem_of_fmap. exists (id, dd).
      split; [done|]. by apply elem_of_map_to_list.
    + destruct (is_SungrowError e); cbn [fst snd].
      * destruct (failed_fields c) as (Hc & Hd & Hu).
        split; [done|]. split; [apply shrinks_failed|].
        intros Ht d' id. rewrite Hd, Hu. apply Ht.
      * split; [done|]. split; [apply shrinks_refl|done].
    + split; [done|]. split; [apply shrinks_refl|done].
  - unfold _add_entities_for_unregistered_descriptors. run_monad.
    destruct (data c) as [d|] eqn:Ed.
    2:{ cbn. split; [done|]. split; [apply shrinks_refl|done]. }
    destruct (scan_devices (map_to_list d) [] c) as [r c'] eqn:Escan.
    destruct (scan_devices_spec _ _ _ _ _ Escan) as (Hd & Hc & Hs & _ & _).
    assert (Hinv : class_of c' = class_of c /\ shrinks c c' /\ (tracked c -> tracked c')).
    { split; [done|]. split; [done|]. intros Ht d' id Hd' Hid. rewrite Hd in Hd'.
      destruct (Ht d' id Hd' Hid) as [l Hl]. destruct (Hs id l Hl) as (l' & Hl' & _). eauto. }
    by destruct r.
Qed.

Lemma run_cons a actions s :
  run gw fuel int_of_str (a :: actions) s =
  ((step gw fuel int_of_str a s).1 :: (run gw fuel int_of_str actions (step gw fuel int_of_str a s).2).1,
   (run gw fuel int_of_str actions (step gw fuel int_of_str a s).2).2).
Proof.
  cbn [run]. destruct (step _ _ _ a s) as [r s']. cbn.
  by destruct (run _ _ _ actions s') as [rs s''].
Qed.

Lemma run_invariants actions : forall s,
  let s' := (run gw fuel int_of_str actions s).2 in
  class_of s'.1 = class_of s.1
  /\ shrinks s.1 s'.1
  /\ (tracked s.1 -> tracked s'.1).
Proof.
  induction actions as [|a actions IH]; intros s.
  - cbn. split; [done|]. split; [apply shrinks_refl|done].
  - rewrite run_cons. cbn [snd].
    destruct (step_invariants a s) as (Hc1 & Hs1 & Ht1).
    destruct (IH (step gw fuel int_of_str a s).2) as (Hc2 & Hs2 & Ht2).
    cbn zeta in *. split; [congruence|]. split; [by eapply shrinks_trans|]. auto.
Qed.

Lemma tracked_init cls info : tracked (Coordinator.__init__ cls info).
Proof. intros d id Hd. discriminate Hd. Qed.

(** C10: in every state a coordinator reaches from its creation through
    refreshes and runs of the seen-key listener, each id of the cached
    snapshot is a key of [unregistered_descriptors], so the scan raises no
    [KeyError]; and a fetch that returns [data] leaves every id of [data]
    tracked, with the full description list of the class if the id was
    not tracked before and with what it had otherwise. *)
Theorem snapshot_ids_tracked
    (cls : coordinator_class) (info : SungrowDeviceInfo) (w : SungrowWebsocketClient)
    (actions : list action) :
  let s := (run gw fuel int_of_str actions (Coordinator.__init__ cls info, w)).2 in
  tracked s.1
  /\ (forall id, (_add_entities_for_unregistered_descriptors s.1).1 <> Raise (KeyError id))
  /\ (forall data s',
        _async_update_data gw fuel int_of_str s = (Return data, s') ->
        forall id, is_Some (data !! id) ->
        unregistered_descriptors s'.1 !! id =
          Some (default (valid_descriptions cls) (unregistered_descriptors s.1 !! id))).
Proof.
  intros s.
  destruct (run_invariants actions (Coordinator.__init__ cls info, w)) as (Hc & _ & Ht).
  fold s in Hc, Ht. cbn in Hc. specialize (Ht (tracked_init cls info)).
  split; [done|]. split.
  - intros id. unfold _add_entities_for_unregistered_descriptors. run_monad.
    destruct (data s.1) as [d|] eqn:Ed; [|done].
    destruct (scan_devices (map_to_list d) [] s.1) as [r c'] eqn:Escan.
    destruct (scan_devices_spec _ _ _ _ _ Escan) as (_ & _ & _ & _ & Hok).
    destruct Hok as [out ->]; [|done].
    intros id' dd Hin. apply (Ht d id' Ed). exists dd. by apply elem_of_map_to_list.
  - intros d s' Hrun id Hid. destruct s as [c w0]. rewrite async_update_data_run in Hrun.
    destruct (_update_method _ _ _ _ _ w0) as [[d'|e|] w']; [|by destruct (is_SungrowError e)|done].
    injection Hrun as -> <-. cbn [fst] in *.
    destruct (succeeded_fields d c) as (_ & _ & ->). rewrite track_new_ids_lookup, Hc.
    destruct (unregistered_descriptors c !! id); [done|].
    rewrite bool_decide_eq_true_2; [done|].
    destruct Hid as [dd Hdd]. apply list_elem_of_fmap. exists (id, dd).
    split; [done|]. by apply elem_of_map_to_list.
Qed.

End SeenKeyProperties.

Section ReportedOnce.
Variable gw : gateway.
Variable fuel : nat.
Variable int_of_str : string -> option Z.

(** An entity an action reports comes from a description that was
    unregistered for its device, and whose key is gone afterwards. *)
Lemma step_reports a s e :
  e ∈ (step gw fuel int_of_str a s).1 ->
  exists l, unregistered_descriptors s.1 !! entity_wi_net_id e = Some l
            /\ entity_description e ∈ l
            /\ gone (entity_wi_net_id e) (lookup_key (entity_description e))
                 (step gw fuel int_of_str a s).2.1.
Proof.
  destruct s as [c w]. destruct a; cbn [step fst snd]; [by intros ?%elem_of_nil|].
  destruct (_add_entities_for_unregistered_descriptors c) as [r c'] eqn:Erun.
  unfold _add_entities_for_unregistered_descriptors in Erun. run_monad.
  destruct (data c) as [d|]; [|injection Erun as <- <-; by intros ?%elem_of_nil].
  destruct (scan_devices_spec _ _ _ _ _ Erun) as (_ & _ & _ & Hout & _).
  destruct r as [out| |]; cbn [fst snd]; [|by intros ?%elem_of_nil..].
  intros He. destruct (Hout out eq_refl e He) as [?%elem_of_nil|H]; done.
Qed.

(** Once a key is gone for a device, no later action reports it. *)
Lemma run_gone actions : forall s wi_net_id key j rj e,
  gone wi_net_id key s.1 ->
  (run gw fuel int_of_str actions s).1 !! j = Some rj ->
  e ∈ rj -> entity_wi_net_id e = wi_net_id ->
  lookup_key (entity_description e) <> key.
Proof.
  induction actions as [|a actions IH]; intros s id key j rj e Hgone Hj He Hid; [done|].
  rewrite run_cons in Hj. cbn [fst] in Hj. destruct j as [|j].
  - injection Hj as <-. destruct (step_reports a s e He) as (l & Hl & Hin & _).
    destruct Hgone as (l0 & Hl0 & Hkey). rewrite Hid in Hl. simplify_eq. by apply Hkey.
  - eapply (IH (step gw fuel int_of_str a s).2); try done.
    eapply gone_shrinks; [done|]. apply step_invariants.
Qed.

(** C9: in any sequence of refreshes and runs of the seen-key listener, a
    key reported as newly available for a device is not reported for that
    device by any later run; for each tracked device the unregistered
    descriptions only shrink, so a description that was removed does not
    come back. *)
Theorem seen_key_reported_once
    (s : SungrowCoordinator * SungrowWebsocketClient) (actions : list action) :
  let reports := (run gw fuel int_of_str actions s).1 in
  let s' := (run gw fuel int_of_str actions s).2 in
  (forall i j ri rj e e',
     (i < j)%nat ->
     reports !! i = Some ri -> e ∈ ri ->
     reports !! j = Some rj -> e' ∈ rj ->
     entity_wi_net_id e' = entity_wi_net_id e ->
     lookup_key (entity_description e') <> lookup_key (entity_description e))
  /\ shrinks s.1 s'.1.
Proof.
  intros reports s'. split; [|apply run_invariants].
  subst reports. clear s'. revert s.
  induction actions as [|a actions IH]; intros s i j ri rj e e' Hij Hi He Hj He' Hid; [done|].
  rewrite run_cons in Hi, Hj. cbn [fst] in Hi, Hj.
  destruct j as [|j]; [lia|]. destruct i as [|i].
  - injection Hi as <-. destruct (step_reports a s e He) as (_ & _ & _ & Hgone).
    by eapply run_gone.
  - eapply (IH (step gw fuel int_of_str a s).2 i j); try done. lia.
Qed.

End ReportedOnce.

(** The bus voltage shows up in the first snapshot, the grid frequency
    only in the second: each is reported once. *)
Lemma seen_key_reported_once_witness :
  let first := realtime_envelope [row "I18N_COMMON_BUS_VOLTAGE" "652.0" "V"] in
  let second := realtime_envelope [row "I18N_COMMON_BUS_VOLTAGE" "651.3" "V";
                                   row "I18N_COMMON_GRID_FREQUENCY" "49.99" "Hz"] in
  let gw := ClientSpec.scripted_gateway [None]
              (inl <$> [ClientSpec.connect_reply "t0"; first; second]) in
  let s := (Coordinator.__init__ SungrowInverterUpdateCoordinator
              (inverter 1 "A2320857820" "SH10RT" 35),
            Sungrow.__init__ "192.168.1.5" 8082) in
  let bus := make_entity (KInt 1) (description "pv_voltage_bus" "I18N_COMMON_BUS_VOLTAGE") in
  let frequency := make_entity (KInt 1) (description "grid_frequency" "I18N_COMMON_GRID_FREQUENCY") in
  (run gw 4 (fun _ => None) [Refresh; AddEntities; Refresh; AddEntities] s).1
    = [[]; [bus]; []; [frequency]]
  /\ lookup_key (entity_description frequency) <> lookup_key (entity_description bus).
Proof.
  intros first second gw s bus frequency. split; [vm_compute; reflexivity|].
  apply (proj1 (seen_key_reported_once gw 4 (fun _ => None) s
                  [Refresh; AddEntities; Refresh; AddEntities])
           1%nat 3%nat [bus] [frequency] bus frequency).
  - lia.
  - vm_compute. reflexivity.
  - apply list_elem_of_singleton. reflexivity.
  - vm_compute. reflexivity.
  - apply list_elem_of_singleton. reflexivity.
  - reflexivity.
Defined.

Lemma snapshot_ids_tracked_witness :
  let first := realtime_envelope [row "I18N_COMMON_BUS_VOLTAGE" "652.0" "V"] in
  let gw := ClientSpec.scripted_gateway [None] (inl <$> [ClientSpec.connect_reply "t0"; first]) in
  let s := (Coordinator.__init__ SungrowInverterUpdateCoordinator
              (inverter 1 "A2320857820" "SH10RT" 35),
            Sungrow.__init__ "192.168.1.5" 8082) in
  let update := _async_update_data gw 4 (fun _ => None) s in
  unregistered_descriptors s.1 !! KInt 1 = None
  /\ unregistered_descriptors update.2.1 !! KInt 1 = Some INVERTER_ENTITY_DESCRIPTIONS.
Proof.
  intros first gw s update. split; [reflexivity|].
  apply (proj2 (proj2 (snapshot_ids_tracked gw 4 (fun _ => None)
                         SungrowInverterUpdateCoordinator
                         (inverter 1 "A2320857820" "SH10RT" 35)
                         (Sungrow.__init__ "192.168.1.5" 8082) []))
           (returned ∅ update.1) update.2).
  - apply (run_returned update). vm_compute. reflexivity.
  - apply (bool_decide_unpack _). vm_compute. exact I.
Defined.

(** * Properties of discovery *)

Import WiNet WiNetSpec.

Section DiscoveryProperties.
Variable gw : gateway.
Variable fuel : nat.
Variable refresh : Poll unit.

(** ** Failure of the device list *)

Lemma get_inverter_infos_failure self e client' :
  get_device_info gw fuel (sungrow self) = (Raise e, client') ->
  is_SungrowError e = true ->
  _get_inverter_infos gw fuel self =
  (if bool_decide (config_entry_state self = LOADED)
   then Return [] else Raise ConfigEntryNotReady,
   set_sungrow client' self).
Proof.
  intros Hget He. unfold _get_inverter_infos, try_except_else, on_client, zoom.
  rewrite Hget, He. run_monad. cbn. by destruct (bool_decide _).
Qed.

(** C4: when the device list cannot be had for a [SungrowError], the first
    invocation, made before the entry is loaded, fails with
    [ConfigEntryNotReady]; a rescan, made once it is loaded, returns
    normally.  Either way the inverter and battery loops and the signals
    sent are what they were: nothing is torn down. *)
Theorem device_list_failure_policy (self : SungrowWiNet) (e : exn)
    (client' : SungrowWebsocketClient) :
  get_device_info gw fuel (sungrow self) = (Raise e, client') ->
  is_SungrowError e = true ->
  let self' := (_init_devices_inverter gw fuel refresh self).2 in
  (config_entry_state self <> LOADED ->
     (_init_devices_inverter gw fuel refresh self).1 = Raise ConfigEntryNotReady)
  /\ (config_entry_state self = LOADED ->
        (_get_inverter_infos gw fuel self).1 = Return []
        /\ (_init_devices_inverter gw fuel refresh self).1 = Return tt)
  /\ inverter_coordinators self' = inverter_coordinators self
  /\ battery_coordinators self' = battery_coordinators self
  /\ dispatched self' = dispatched self
  /\ config_entry_state self' = config_entry_state self.
Proof.
  intros Hget He self'. subst self'. unfold _init_devices_inverter.
  pose proof (get_inverter_infos_failure self e client' Hget He) as Hinfos.
  destruct (bool_decide_reflect (config_entry_state self = LOADED)) as [Hl|Hl].
  - rewrite (bind_Return _ _ _ _ _ Hinfos), Hinfos. cbn. repeat split; done.
  - rewrite (bind_Raise _ _ _ _ _ Hinfos). cbn. repeat split; done.
Qed.

(** ** Deduplication by serial number *)

Lemma add_new_inverters_cons d rest self :
  add_new_inverters refresh (d :: rest) self =
  if bool_decide (device_sn d ∈ serials self) then add_new_inverters refresh rest self
  else
    match refresh (Coordinator.__init__ SungrowInverterUpdateCoordinator d, sungrow self) with
    | (Return _, (c, w)) =>
        let self1 := append_inverter_coordinator c (set_sungrow w self) in
        let self2 := if bool_decide (config_entry_state self1 = LOADED)
                     then async_dispatcher_send c self1 else self1 in
        if bool_decide (device_type d = HYBRID_INVERTER) then
          match refresh (Coordinator.__init__ SungrowBatteryUpdateCoordinator d, sungrow self2) with
          | (Return _, (b, w')) =>
              add_new_inverters refresh rest (append_battery_coordinator b (set_sungrow w' self2))
          | (Raise e, (_, w')) => (Raise e, set_sungrow w' self2)
          | (Diverge, (_, w')) => (Diverge, set_sungrow w' self2)
          end
        else add_new_inverters refresh rest self2
    | (Raise e, (_, w)) => (Raise e, set_sungrow w self)
    | (Diverge, (_, w)) => (Diverge, set_sungrow w self)
    end.
Proof.
  cbn [add_new_inverters]. run_monad. fold (serials self).
  destruct (bool_decide (device_sn d ∈ serials self)); [done|].
  unfold first_refresh.
  destruct (refresh (_, sungrow self)) as [[[]|e|] [c w]]; cbn; [|done..].
  destruct (bool_decide (config_entry_state self = LOADED)); cbn;
    (destruct (bool_decide (device_type d = HYBRID_INVERTER)); cbn; [|done]);
    by destruct (refresh (_, w)) as [[[]|e|] [b w']].
Qed.

(** What one pass over the descriptors of a cycle does to the loops. *)
Lemma add_new_inverters_spec (Hid : keeps_identity refresh) infos : forall self r self',
  add_new_inverters refresh infos self = (r, self') ->
  config_entry_state self' = config_entry_state self
  /\ battery_coordinators self `prefix_of` battery_coordinators self'
  /\ exists cs,
       inverter_coordinators self' = inverter_coordinators self ++ cs
       /\ Forall (fun c => class_of c = SungrowInverterUpdateCoordinator) cs
       /\ (inverter_info <$> cs) `prefix_of` accept_new (serials self) infos
       /\ (r = Return tt -> inverter_info <$> cs = accept_new (serials self) infos).
Proof.
  induction infos as [|d rest IH]; intros self r self' Hrun.
  - cbn in Hrun. injection Hrun as <- <-. split; [done|]. split; [done|].
    exists []. by rewrite app_nil_r.
  - rewrite add_new_inverters_cons in Hrun. cbn [accept_new].
    destruct (bool_decide (device_sn d ∈ serials self)); [by apply IH|].
    destruct (refresh (_, sungrow self)) as [[[]|e|] [c w]] eqn:Er.
    2,3: injection Hrun as <- <-; split; [done|]; split; [done|];
         exists []; rewrite app_nil_r; repeat split; try done; apply prefix_nil.
    destruct (Hid _ _ _ _ _ Er) as [Hinfo Hcls]. cbn in Hinfo, Hcls.
    cbn zeta in Hrun.
    set (self1 := append_inverter_coordinator c (set_sungrow w self)) in *.
    set (self2 := if bool_decide (config_entry_state self1 = LOADED)
                  then async_dispatcher_send c self1 else self1) in *.
    assert (Hs2 : config_entry_state self2 = config_entry_state self
                  /\ battery_coordinators self2 = battery_coordinators self
                  /\ inverter_coordinators self2 = inverter_coordinators self ++ [c]).
    { subst self2.
      destruct (bool_decide (config_entry_state self1 = LOADED)); repeat split; reflexivity. }
    destruct Hs2 as (Hst & Hbat & Hinv).
    assert (Hser : serials self2 = serials self ++ [device_sn d]).
    { unfold serials. rewrite Hinv, fmap_app. cbn. by rewrite Hinfo. }
    assert (Hstop : forall (r0 : outcome unit) w',
              r0 <> Return tt -> (r0, set_sungrow w' self2) = (r, self') ->
              config_entry_state self' = config_entry_state self
              /\ battery_coordinators self `prefix_of` battery_coordinators self'
              /\ exists cs,
                   inverter_coordinators self' = inverter_coordinators self ++ cs
                   /\ Forall (fun c => class_of c = SungrowInverterUpdateCoordinator) cs
                   /\ (inverter_info <$> cs)
                        `prefix_of` (d :: accept_new (serials self ++ [device_sn d]) rest)
                   /\ (r = Return tt ->
                       inverter_info <$> cs
                       = d :: accept_new (serials self ++ [device_sn d]) rest)).
    { intros r0 w' Hr0 [= <- <-]. cbn. split; [done|]. split; [by rewrite Hbat|].
      exists [c]. split; [done|]. split; [by constructor|]. cbn. rewrite Hinfo.
      split; [|done]. apply prefix_cons, prefix_nil. }
    assert (Hgo : forall self3,
              config_entry_state self3 = config_entry_state self ->
              battery_coordinators self `prefix_of` battery_coordinators self3 ->
              inverter_coordinators self3 = inverter_coordinators self ++ [c] ->
              add_new_inverters refresh rest self3 = (r, self') ->
              config_entry_state self' = config_entry_state self
              /\ battery_coordinators self `prefix_of` battery_coordinators self'
              /\ exists cs,
                   inverter_coordinators self' = inverter_coordinators self ++ cs
                   /\ Forall (fun c => class_of c = SungrowInverterUpdateCoordinator) cs
                   /\ (inverter_info <$> cs)
                        `prefix_of` (d :: accept_new (serials self ++ [device_sn d]) rest)
                   /\ (r = Return tt ->
                       inverter_info <$> cs
                       = d :: accept_new (serials self ++ [device_sn d]) rest)).
    { intros self3 Hst3 Hbat3 Hinv3 Hrun3.
      destruct (IH _ _ _ Hrun3) as (Hst' & Hbat' & cs & Hcs & Hcls' & Hpre & Heq).
      assert (Hser3 : serials self3 = serials self ++ [device_sn d]).
      { unfold serials. rewrite Hinv3, fmap_app. cbn. by rewrite Hinfo. }
      rewrite Hser3 in Hpre, Heq.
      split; [congruence|]. split; [by etrans|].
      exists (c :: cs). split; [by rewrite Hcs, Hinv3, <- app_assoc|].
      split; [by constructor|]. cbn. rewrite Hinfo.
      split; [by apply prefix_cons|]. intros Hr. by rewrite (Heq Hr). }
    destruct (bool_decide (device_type d = HYBRID_INVERTER)).
    + destruct (refresh (_, sungrow self2)) as [[[]|e|] [b w']] eqn:Eb.
      * apply (Hgo (append_battery_coordinator b (set_sungrow w' self2)));
          [exact Hst| |exact Hinv|exact Hrun].
        cbn. rewrite Hbat. by apply prefix_app_r.
      * by apply (Hstop (Raise e) w').
      * by apply (Hstop Diverge w').
    + apply (Hgo self2); [exact Hst|by rewrite Hbat|exact Hinv|exact Hrun].
Qed.

Lemma accept_new_NoDup infos : forall accepted,
  NoDup accepted -> NoDup (accepted ++ (device_sn <$> accept_new accepted infos)).
Proof.
  induction infos as [|d rest IH]; intros accepted Hnd; cbn [accept_new].
  - by rewrite fmap_nil, app_nil_r.
  - destruct (bool_decide_reflect (device_sn d ∈ accepted)) as [Hin|Hin]; [by apply IH|].
    rewrite fmap_cons, cons_middle, app_assoc. apply IH.
    apply NoDup_app. split; [done|]. split; [|apply NoDup_singleton].
    intros x Hx ->%list_elem_of_singleton. done.
Qed.

(** A discovery cycle is [_get_inverter_infos], which leaves the loops
    alone, followed by the pass over the descriptors it found. *)
Lemma init_devices_inverter_run self :
  exists r0 client',
    _get_inverter_infos gw fuel self = (r0, set_sungrow client' self)
    /\ _init_devices_inverter gw fuel refresh self =
       match r0 with
       | Return infos => add_new_inverters refresh infos (set_sungrow client' self)
       | Raise e => (Raise e, set_sungrow client' self)
       | Diverge => (Diverge, set_sungrow client' self)
       end.
Proof.
  unfold _init_devices_inverter.
  assert (exists r0 client', _get_inverter_infos gw fuel self = (r0, set_sungrow client' self))
    as (r0 & client' & E).
  { unfold _get_inverter_infos, try_except_else, on_client, zoom.
    destruct (get_device_info gw fuel (sungrow self)) as [[l|e|] client']; [| |by eauto].
    - unfold lift. eauto.
    - destruct (is_SungrowError e); [|by eauto]. run_monad. cbn.
      destruct (bool_decide _); eauto. }
  exists r0, client'. split; [done|]. unfold mbind, M_bind, bind. rewrite E.
  by destruct r0.
Qed.

(** One discovery cycle, whatever its outcome. *)
Lemma cycle_spec (Hid : keeps_identity refresh) self r self' :
  _init_devices_inverter gw fuel refresh self = (r, self') ->
  inverter_coordinators self `prefix_of` inverter_coordinators self'
  /\ battery_coordinators self `prefix_of` battery_coordinators self'
  /\ (NoDup (serials self) ->
      NoDup (serials self')
      /\ forall c, c ∈ added self self' -> device_sn (inverter_info c) ∉ serials self)
  /\ (forall infos w,
        _get_inverter_infos gw fuel self = (Return infos, w) -> r = Return tt ->
        inverter_info <$> added self self' = accept_new (serials self) infos).
Proof.
  intros Hrun. destruct (init_devices_inverter_run self) as (r0 & client' & Hget & Hinit).
  rewrite Hinit in Hrun. clear Hinit.
  assert (Hstop : self' = set_sungrow client' self -> r <> Return tt ->
            inverter_coordinators self `prefix_of` inverter_coordinators self'
            /\ battery_coordinators self `prefix_of` battery_coordinators self'
            /\ (NoDup (serials self) ->
                NoDup (serials self')
                /\ forall c, c ∈ added self self' -> device_sn (inverter_info c) ∉ serials self)
            /\ (forall infos w,
                  _get_inverter_infos gw fuel self = (Return infos, w) -> r = Return tt ->
                  inverter_info <$> added self self' = accept_new (serials self) infos)).
  { intros -> Hr. unfold added, serials. cbn. rewrite drop_all.
    repeat split; try done. by intros c ?%elem_of_nil. }
  destruct r0 as [infos|e|]; [|injection Hrun as <- <-; by apply Hstop..].
  clear Hstop.
  destruct (add_new_inverters_spec Hid _ _ _ _ Hrun) as (_ & Hbat & cs & Hcs & _ & Hpre & Heq).
  cbn in Hcs, Hbat. change (serials (set_sungrow client' self)) with (serials self) in Hpre, Heq.
  assert (Hadded : added self self' = cs).
  { unfold added. by rewrite Hcs, drop_app_length. }
  split; [rewrite Hcs; by apply prefix_app_r|]. split; [done|]. split.
  - intros Hnd.
    assert (Hnd' : NoDup (serials self ++ (device_sn <$> (inverter_info <$> cs)))).
    { destruct Hpre as [k Hk].
      pose proof (accept_new_NoDup infos _ Hnd) as Hfull.
      rewrite Hk, fmap_app, app_assoc in Hfull.
      exact (proj1 (proj1 (NoDup_app _ _) Hfull)). }
    split.
    + unfold serials at 1. rewrite Hcs, fmap_app, (list_fmap_compose inverter_info device_sn cs).
      exact Hnd'.
    + rewrite Hadded. intros c Hc Hin.
      destruct (proj1 (NoDup_app _ _) Hnd') as (_ & Hdisj & _).
      apply (Hdisj _ Hin). apply list_elem_of_fmap. exists (inverter_info c).
      split; [done|]. by apply list_elem_of_fmap_2.
  - intros infos' w Hget' Hr. rewrite Hget in Hget'. injection Hget' as <- _.
    rewrite Hadded. by apply Heq.
Qed.

(** C3: take two discovery cycles, one after the other, from a state in
    which no serial number has two inverter loops.  In a cycle that runs to
    its end, the descriptors given a loop are exactly those the dedup rule
    accepts: a descriptor is new if and only if no descriptor accepted
    before it has its serial number.  Whatever the outcome of the cycles,
    the loops there were stay in place, in order; no serial number ever has
    two inverter loops, so a serial number seen in the first cycle gets no
    second loop in the second, whatever device id comes with it. *)
Theorem discovery_dedup (Hid : keeps_identity refresh)
    (self0 self1 self2 : SungrowWiNet) (r1 r2 : outcome unit) :
  NoDup (serials self0) ->
  _init_devices_inverter gw fuel refresh self0 = (r1, self1) ->
  _init_devices_inverter gw fuel refresh self1 = (r2, self2) ->
  (forall infos w,
     _get_inverter_infos gw fuel self0 = (Return infos, w) -> r1 = Return tt ->
     inverter_info <$> added self0 self1 = accept_new (serials self0) infos)
  /\ (forall infos w,
        _get_inverter_infos gw fuel self1 = (Return infos, w) -> r2 = Return tt ->
        inverter_info <$> added self1 self2 = accept_new (serials self1) infos)
  /\ inverter_coordinators self0 `prefix_of` inverter_coordinators self1
  /\ inverter_coordinators self1 `prefix_of` inverter_coordinators self2
  /\ battery_coordinators self0 `prefix_of` battery_coordinators self1
  /\ battery_coordinators self1 `prefix_of` battery_coordinators self2
  /\ NoDup (serials self2)
  /\ (forall c, c ∈ added self1 self2 -> device_sn (inverter_info c) ∉ serials self1).
Proof.
  intros Hnd H1 H2.
  destruct (cycle_spec Hid _ _ _ H1) as (Hi1 & Hb1 & Hnd1 & Hacc1).
  destruct (cycle_spec Hid _ _ _ H2) as (Hi2 & Hb2 & Hnd2 & Hacc2).
  destruct (Hnd1 Hnd) as [Hnd1' _]. destruct (Hnd2 Hnd1') as [Hnd2' Hnew].
  repeat split; done.
Qed.

End DiscoveryProperties.

(** The refresh of the model keeps the identity of the coordinator. *)
Lemma async_refresh_keeps_identity gw fuel int_of_str :
  keeps_identity (_async_refresh gw fuel int_of_str).
Proof.
  intros c w r c' w' Hrun. rewrite async_refresh_run in Hrun.
  destruct (_update_method _ _ _ _ _ w) as [[d|e|] w0].
  - injection Hrun as _ <- _. unfold succeeded. by destruct (_failed_update_count c =? 0).
  - destruct (is_SungrowError e); injection Hrun as _ <- _; [|done].
    unfold failed. cbn. by destruct (_ =? _).
  - by injection Hrun as _ <- _.
Qed.

(** The gateway is busy when the device list is asked for: setup is told
    to come back later, a rescan keeps the loop it has. *)
Lemma device_list_failure_policy_witness :
  let gw := ClientSpec.scripted_gateway [None]
              (inl <$> [ClientSpec.connect_reply "t0"; ClientSpec.envelope 5 "busy" ∅]) in
  let refresh := _async_refresh gw 4 (fun _ => None) in
  let client := Sungrow.__init__ "192.168.1.5" 8082 in
  let setup := WiNet.__init__ SETUP_IN_PROGRESS client in
  let loaded :=
    append_inverter_coordinator
      (Coordinator.__init__ SungrowInverterUpdateCoordinator
         (inverter 1 "A2320857820" "SH10RT" 35))
      (WiNet.__init__ LOADED client) in
  (_init_devices_inverter gw 4 refresh setup).1 = Raise ConfigEntryNotReady
  /\ (_init_devices_inverter gw 4 refresh loaded).1 = Return tt
  /\ inverter_coordinators (_init_devices_inverter gw 4 refresh loaded).2
     = inverter_coordinators loaded.
Proof.
  intros gw refresh client setup loaded.
  assert (Hget : get_device_info gw 4 client
                 = (Raise (SungrowError (UnknownResult 5 (JStr "busy"))),
                    (get_device_info gw 4 client).2)).
  { apply run_eta. vm_compute. reflexivity. }
  destruct (device_list_failure_policy gw 4 refresh setup _ _ Hget eq_refl)
    as (Hfirst & _).
  destruct (device_list_failure_policy gw 4 refresh loaded _ _ Hget eq_refl)
    as (_ & Hrescan & Hinv & _).
  split; [apply Hfirst; discriminate|]. split; [by apply Hrescan|exact Hinv].
Defined.

(** A hybrid inverter is found at setup; the rescan reports it again under
    another device id, together with a string inverter: only the latter
    gets a loop. *)
Lemma discovery_dedup_witness :
  let reading := realtime_envelope [row "I18N_COMMON_BUS_VOLTAGE" "652.0" "V"] in
  let gw := ClientSpec.scripted_gateway [None]
              (inl <$> [ClientSpec.connect_reply "t0";
                        devicelist_envelope
                          [device_row 1 "A2320857820" 35 "SH10RT" "SH10RT(COM1-001)"];
                        reading; reading;
                        devicelist_envelope
                          [device_row 7 "A2320857820" 35 "SH10RT" "SH10RT(COM1-001)";
                           device_row 2 "B2311452938" 21 "SG5.0RT" "SG5.0RT(COM1-002)"];
                        reading]) in
  let refresh := _async_refresh gw 4 (fun _ => None) in
  let self0 := WiNet.__init__ SETUP_IN_PROGRESS (Sungrow.__init__ "192.168.1.5" 8082) in
  let self1 := (_init_devices_inverter gw 4 refresh self0).2 in
  let self2 := (_init_devices_inverter gw 4 refresh self1).2 in
  let infos2 := returned [] (_get_inverter_infos gw 4 self1).1 in
  serials self1 = [KStr "A2320857820"]
  /\ device_sn <$> infos2 = [KStr "A2320857820"; KStr "B2311452938"]
  /\ wi_net_id <$> infos2 = [JInt 7; JInt 2]
  /\ inverter_info <$> added self1 self2 = accept_new (serials self1) infos2
  /\ device_sn <$> accept_new (serials self1) infos2 = [KStr "B2311452938"]
  /\ inverter_coordinators self1 `prefix_of` inverter_coordinators self2
  /\ NoDup (serials self2)
  /\ length (battery_coordinators self2) = 1%nat.
Proof.
  intros reading gw refresh self0 self1 self2 infos2.
  assert (H1 : _init_devices_inverter gw 4 refresh self0 = (Return tt, self1)).
  { unfold self1. apply run_eta. vm_compute. reflexivity. }
  assert (H2 : _init_devices_inverter gw 4 refresh self1 = (Return tt, self2)).
  { unfold self2. apply run_eta. vm_compute. reflexivity. }
  assert (Hinfos : _get_inverter_infos gw 4 self1
                   = (Return infos2, (_get_inverter_infos gw 4 self1).2)).
  { unfold infos2. apply run_returned. vm_compute. reflexivity. }
  destruct (discovery_dedup gw 4 refresh (async_refresh_keeps_identity gw 4 (fun _ => None))
              self0 self1 self2 (Return tt) (Return tt) (NoDup_nil_2) H1 H2)
    as (_ & Hacc & _ & Hpre & _ & _ & Hnd & _).
  split; [vm_compute; reflexivity|]. split; [vm_compute; reflexivity|].
  split; [vm_compute; reflexivity|]. split; [exact (Hacc _ _ Hinfos eq_refl)|].
  split; [vm_compute; reflexivity|]. split; [exact Hpre|]. split; [exact Hnd|].
  vm_compute. reflexivity.
Defined.

(** * Further properties of the websocket client *)

Section ClientEdges.
Variable gw : gateway.

(** ** What the connection steps leave behind *)

(** The connection loop sends and receives nothing; when it returns the
    socket is open and the token empty. *)
Lemma ensure_connected_loop_frame remaining : forall attempts url self r self',
  _ensure_connected_loop gw remaining attempts url self = (r, self') ->
  sends (session self') = sends (session self)
  /\ receives (session self') = receives (session self)
  /\ (r = Return tt -> live self' = true /\ token self' = JStr "").
Proof.
  induction remaining as [|remaining IH]; intros attempts url self r self' Hrun.
  - cbn in Hrun. injection Hrun as <- <-. done.
  - cbn [_ensure_connected_loop] in Hrun. revert Hrun. run_monad.
    unfold ws_connect. cbn.
    destruct (on_connect gw (connects (session self))) as [e|] eqn:Ec.
    + destruct e; try (intros [= <- <-]; done).
      unfold sleep. run_monad. cbn. intros Hrun. apply IH in Hrun. exact Hrun.
    + intros [= <- <-]. done.
Qed.

Lemma ensure_connected_frame self r self' :
  _ensure_connected gw self = (r, self') ->
  sends (session self') = sends (session self)
  /\ receives (session self') = receives (session self)
  /\ (r = Return tt -> live self' = true).
Proof.
  destruct (live self) eqn:Hl.
  - rewrite (ensure_connected_live gw _ Hl). by intros [= <- <-].
  - rewrite (ensure_connected_not_live gw _ Hl). intros Hrun.
    apply ensure_connected_loop_frame in Hrun as (? & ? & Hr).
    repeat split; try done. intros ->. by apply Hr.
Qed.

Lemma send_json_run msg self :
  live self = true ->
  send_json gw msg self =
  (match on_send gw (sends (session self)) with
   | None => Return tt
   | Some e => Raise e
   end,
   set_session
     {| connects := connects (session self); sends := S (sends (session self));
        receives := receives (session self); clock_reads := clock_reads (session self);
        log := log (session self) ++ [SendJson msg] |} self).
Proof.
  unfold live, send_json. destruct (_ws self) as [ws|]; [|done]. intros _.
  by destruct (on_send gw _).
Qed.

Lemma receive_json_run self :
  live self = true ->
  receive_json gw self =
  (match on_receive gw (receives (session self)) with
   | inl response => Return response
   | inr e => Raise e
   end,
   set_session
     {| connects := connects (session self); sends := sends (session self);
        receives := S (receives (session self)); clock_reads := clock_reads (session self);
        log := log (session self) ++ [ReceiveJson] |} self).
Proof.
  unfold live, receive_json. destruct (_ws self) as [ws|]; [|done]. intros _.
  by destruct (on_receive gw _).
Qed.

Lemma ensure_token_frame self self' :
  _ensure_token gw self = (Return tt, self') ->
  live self' = true
  /\ (sends (session self') <= sends (session self) + 1)%nat
  /\ (sends (session self') + receives (session self)
      = sends (session self) + receives (session self'))%nat.
Proof.
  unfold _ensure_token. intros Hrun.
  destruct (_ensure_connected gw self) as [r s1] eqn:Hc.
  destruct (ensure_connected_frame _ _ _ Hc) as (Hs & Hr & Hl).
  destruct r as [[]|e|]; [|by rewrite (bind_Raise _ _ _ _ _ Hc) in Hrun
                          |by rewrite (bind_Diverge _ _ _ _ Hc) in Hrun].
  specialize (Hl eq_refl). rewrite (bind_Return _ _ _ _ _ Hc) in Hrun.
  erewrite bind_Return in Hrun by reflexivity.
  destruct (truthy (token s1)).
  { injection Hrun as <-. repeat split; [done|lia|lia]. }
  revert Hrun. run_monad. rewrite (send_json_run _ _ Hl).
  destruct (on_send gw _); [done|].
  rewrite receive_json_run by done. cbn.
  destruct (on_receive gw _) as [response|]; [|done].
  destruct (py_get response _ _) as [c| |]; [|done..].
  destruct (py_eq_int c RESULT_SUCCESS).
  - destruct (py_getitem response "result_data") as [d| |]; cbn; [|done..].
    destruct (py_getitem d "token") as [t| |]; [|done..].
    intros [= <-]. cbn. unfold live in *. cbn. repeat split; [done|lia|lia].
  - repeat (match goal with |- context [py_getitem ?a ?b] => destruct (py_getitem a b); cbn; try done end).
    all: repeat (match goal with |- context [format_d ?a] => destruct (format_d a); cbn; try done end).
Qed.


(** Once connected, [_ensure_token] goes on as from the connected client. *)
Lemma ensure_token_connected self connected :
  _ensure_connected gw self = (Return tt, connected) ->
  _ensure_token gw self = _ensure_token gw connected.
Proof.
  intros Hc. destruct (ensure_connected_frame _ _ _ Hc) as (_ & _ & Hl).
  unfold _ensure_token. rewrite (bind_Return _ _ _ _ _ Hc).
  by rewrite (bind_Return _ _ _ _ _ (ensure_connected_live gw _ (Hl eq_refl))).
Qed.

(** The "connect" request answered with a code other than SUCCESS. *)
Lemma ensure_token_refused self d c code msg :
  live self = true -> truthy (token self) = false ->
  on_send gw (sends (session self)) = None ->
  on_receive gw (receives (session self)) = inl (JDict d) ->
  d !! "result_code" = Some c -> format_d c = Return code -> code <> RESULT_SUCCESS ->
  d !! "result_msg" = Some msg ->
  _ensure_token gw self =
  (Raise (SungrowError (TokenRequestError code msg)), after_exchange connect_request self).
Proof.
  intros Hl Ht Hs Hr Ec Hf Hc Em. unfold _ensure_token.
  rewrite (bind_Return _ _ _ _ _ (ensure_connected_live gw _ Hl)).
  erewrite bind_Return by reflexivity. rewrite Ht.
  pose proof (exchange_ok gw connect_request self (JDict d) Hl Hs Hr) as Hx.
  revert Hx. unfold connect_request. run_monad.
  destruct (send_json _ _ self) as [[] ?]; try done; intros ->.
  cbn. rewrite Ec, Em. cbn.
  assert (py_eq_int c RESULT_SUCCESS = false) as ->.
  { destruct c as [|b|z| | |]; cbn in *; simplify_eq; by apply Z.eqb_neq. }
  by rewrite Hf.
Qed.

(** ** Calls that fail *)

(** X1: Whenever [_ensure_token] returns, the socket is open, and it has sent
    at most one message, the "connect" request, and read as many answers
    as it sent requests. *)
Theorem ensure_token_returns_live (self self' : SungrowWebsocketClient) :
  _ensure_token gw self = (Return tt, self') ->
  live self' = true
  /\ (sends (session self') <= sends (session self) + 1)%nat
  /\ (sends (session self') + receives (session self)
      = sends (session self) + receives (session self'))%nat.
Proof. apply ensure_token_frame. Qed.

(** X2: A call answered with an envelope whose code is neither SUCCESS nor
    TOKEN_EXPIRED is not made again: [_ws_get] raises the [SungrowError]
    that carries code and message after this one exchange, and keeps the
    token. *)
Theorem ws_get_protocol_error (fuel : nat) (service : string) (params : gmap string json)
    (self ready : SungrowWebsocketClient) (d : gmap string json) (c : json) (code : Z)
    (msg : json) :
  _ensure_token gw self = (Return tt, ready) ->
  on_send gw (sends (session ready)) = None ->
  on_receive gw (receives (session ready)) = inl (JDict d) ->
  d !! "result_code" = Some c -> format_d c = Return code ->
  code <> RESULT_SUCCESS -> code <> RESULT_TOKEN_EXPIRED ->
  d !! "result_msg" = Some msg ->
  _ws_get gw (S fuel) service params self =
    (Raise (SungrowError (UnknownResult code msg)),
     after_exchange (request_msg (token ready) service params) ready)
  /\ token (after_exchange (request_msg (token ready) service params) ready) = token ready.
Proof.
  intros Hens Hs Hr Ec Hf H1 H106 Em. split; [|done].
  destruct (ensure_token_frame _ _ Hens) as (Hl & _).
  cbn [_ws_get]. erewrite try_except_Raise; cycle 1.
  { rewrite (bind_Return _ _ _ _ _ Hens). rewrite (attempt_run gw _ _ _ _ Hl Hs Hr).
    by eapply parse_response_error. }
  done.
Qed.

(** X3: When the gateway answers the "connect" request with a code other than
    SUCCESS, be it TOKEN_EXPIRED, [_ensure_token] raises the [SungrowError]
    of a refused token request, and [_ws_get] passes it on: the call itself
    is never sent and nothing is tried again. *)
Theorem token_request_refused (fuel : nat) (service : string) (params : gmap string json)
    (self connected : SungrowWebsocketClient) (d : gmap string json) (c : json) (code : Z)
    (msg : json) :
  _ensure_connected gw self = (Return tt, connected) ->
  truthy (token connected) = false ->
  on_send gw (sends (session connected)) = None ->
  on_receive gw (receives (session connected)) = inl (JDict d) ->
  d !! "result_code" = Some c -> format_d c = Return code -> code <> RESULT_SUCCESS ->
  d !! "result_msg" = Some msg ->
  let refused := after_exchange connect_request connected in
  _ensure_token gw self = (Raise (SungrowError (TokenRequestError code msg)), refused)
  /\ _ws_get gw (S fuel) service params self
     = (Raise (SungrowError (TokenRequestError code msg)), refused)
  /\ log (session refused) = log (session connected) ++ [SendJson connect_request; ReceiveJson].
Proof.
  intros Hc Ht Hs Hr Ec Hf H1 Em refused.
  destruct (ensure_connected_frame _ _ _ Hc) as (_ & _ & Hl). specialize (Hl eq_refl).
  assert (Hens : _ensure_token gw self
                 = (Raise (SungrowError (TokenRequestError code msg)), refused)).
  { rewrite (ensure_token_connected _ _ Hc). by eapply ensure_token_refused. }
  split; [done|]. split; [|done].
  cbn [_ws_get]. erewrite try_except_Raise; cycle 1.
  { by rewrite (bind_Raise _ _ _ _ _ Hens). }
  done.
Qed.

Lemma connect_failure_run (fuel : nat) (service : string) (params : gmap string json)
    (self : SungrowWebsocketClient) :
  live self = false ->
  (forall i, (i < 10)%nat ->
     on_connect gw (connects (session self) + i) = Some TimeoutError) ->
  exists self',
    _ws_get gw (S fuel) service params self =
      (Raise (SungrowError (FailedToConnect (ws_url self) 10)), self')
    /\ sends (session self') = sends (session self)
    /\ connects (session self') = (connects (session self) + 10)%nat
    /\ log (session self') = log (session self) ++ timed_out_attempts (ws_url self) 10.
Proof.
  intros Hl Hto. exists (after_timeouts 10 (ws_url self) self).
  destruct (after_timeouts_fields 10 (ws_url self) self) as (_ & Hc & Hs & _ & Hlog & _).
  split; [|done].
  assert (Hconn : _ensure_connected gw self =
            (Raise (SungrowError (FailedToConnect (ws_url self) 10)),
             after_timeouts 10 (ws_url self) self)).
  { rewrite (ensure_connected_not_live gw _ Hl). change 10%nat with (10 + 0)%nat at 1.
    by rewrite (ensure_connected_loop_timeouts gw 10 0 0 (ws_url self) self Hto). }
  cbn [_ws_get]. erewrite try_except_Raise; cycle 1.
  { apply bind_Raise. unfold _ensure_token. by apply bind_Raise. }
  done.
Qed.

(** X4: Without a live connection and with a gateway that lets ten connection
    attempts time out, [_ws_get] raises the connection failure of
    [_ensure_connected] as it is, after the ten attempts and without having
    sent anything. *)
Theorem ws_get_connect_failure (fuel : nat) (service : string) (params : gmap string json)
    (self : SungrowWebsocketClient) :
  live self = false ->
  (forall i, (i < 10)%nat ->
     on_connect gw (connects (session self) + i) = Some TimeoutError) ->
  exists self',
    _ws_get gw (S fuel) service params self =
      (Raise (SungrowError (FailedToConnect (ws_url self) 10)), self')
    /\ sends (session self') = sends (session self)
    /\ connects (session self') = (connects (session self) + 10)%nat
    /\ log (session self') = log (session self) ++ timed_out_attempts (ws_url self) 10.
Proof. apply connect_failure_run. Qed.

(** X5: If the attempt to open the very first connection raises
    [ConnectionError], the handler of [_ws_get] reads [self._ws.closed] on
    a client that never had a socket: the call ends with [AttributeError]
    instead of being tried again. *)
Theorem ws_get_first_connection_error (fuel : nat) (service : string)
    (params : gmap string json) (self : SungrowWebsocketClient) :
  _ws self = None ->
  on_connect gw (connects (session self)) = Some ConnectionError ->
  (_ws_get gw (S fuel) service params self).1 = Raise AttributeError
  /\ sends (session (_ws_get gw (S fuel) service params self).2) = sends (session self).
Proof.
  intros Hws Hc.
  assert (Hconn : exists self', _ensure_connected gw self = (Raise ConnectionError, self')
                                /\ _ws self' = None
                                /\ sends (session self') = sends (session self)).
  { unfold _ensure_connected. run_monad. rewrite Hws. cbn [_ensure_connected_loop].
    run_monad. unfold ws_connect. cbn. rewrite Hc. eexists. split; [done|]. by cbn. }
  destruct Hconn as (self' & Hconn & Hws' & Hs).
  cbn [_ws_get]. erewrite try_except_Raise; cycle 1.
  { apply bind_Raise. unfold _ensure_token. by apply bind_Raise. }
  cbn beta iota. erewrite bind_Raise; [by split|].
  unfold ws_closed. by rewrite Hws'.
Qed.

(** ** A dropped connection *)

(** The client after [_ws.close()]. *)
Lemma ws_close_run self ws :
  _ws self = Some ws ->
  ws_close self = (Return tt, set_ws (Some {| closed := true |})
                               (set_session (logged WsClose (session self)) self)).
Proof. unfold ws_close. by intros ->. Qed.

(** X6: When the answer to a call does not come because the connection drops
    ([ConnectionError]), [_ws_get] closes the socket, opens a new
    connection, which empties the token, asks for a new token and sends the
    call again with it; the caller gets the payload of the answer and sees
    no exception. *)
Theorem ws_get_reconnects (fuel : nat) (service : string) (params : gmap string json)
    (self : SungrowWebsocketClient) (reply : json) (t : json) (success payload : json) :
  live self = true -> truthy (token self) = true ->
  let n := sends (session self) in
  let r := receives (session self) in
  on_send gw n = None -> on_receive gw r = inr ConnectionError ->
  on_connect gw (connects (session self)) = None ->
  on_send gw (S n) = None -> on_receive gw (S r) = inl reply ->
  granted_token reply = Some t ->
  on_send gw (S (S n)) = None -> on_receive gw (S (S r)) = inl success ->
  success_payload success = Some payload ->
  exists self',
    _ws_get gw (S (S fuel)) service params self = (Return payload, self')
    /\ live self' = true
    /\ token self' = t
    /\ log (session self') =
         log (session self) ++
         [SendJson (request_msg (token self) service params); ReceiveJson; WsClose;
          WsConnect (ws_url self);
          SendJson connect_request; ReceiveJson;
          SendJson (request_msg t service params); ReceiveJson].
Proof.
  intros Hl Ht n r Hs0 Hr0 Hc Hs1 Hr1 Hg Hs2 Hr2 Hp.
  pose (msg := request_msg (token self) service params).
  pose (dropped := set_session
                     {| connects := connects (session self); sends := S n; receives := S r;
                        clock_reads := clock_reads (session self);
                        log := log (session self) ++ [SendJson msg; ReceiveJson] |} self).
  pose (closed_ := set_ws (Some {| closed := true |})
                     (set_session (logged WsClose (session dropped)) dropped)).
  pose (connected := set_ws (Some {| closed := false |})
                       (set_session
                          (logged (WsConnect (ws_url self))
                             {| connects := S (connects (session self)); sends := S n;
                                receives := S r; clock_reads := clock_reads (session self);
                                log := log (session closed_) |})
                          (set_token (JStr "") closed_))).
  pose (ready := set_token t (after_exchange connect_request connected)).
  (* first pass: the answer does not come *)
  assert (H1 : (_ensure_token gw;;
                tok ← gets token;
                send_json gw (request_msg tok service params);;
                response ← receive_json gw;
                _parse_response response) self = (Raise ConnectionError, dropped)).
  { rewrite (bind_Return _ _ _ _ _ (ensure_token_held gw _ Hl Ht)).
    erewrite bind_Return by reflexivity.
    erewrite bind_Return; cycle 1.
    { rewrite (send_json_run _ _ Hl). fold n. rewrite Hs0. reflexivity. }
    apply bind_Raise. rewrite receive_json_run by done. cbn. fold r. rewrite Hr0.
    unfold dropped, msg, set_session. cbn. by rewrite <- app_assoc. }
  (* the socket is closed; the next pass connects anew *)
  assert (Hws : exists ws, _ws dropped = Some ws).
  { unfold live in Hl. cbn. destruct (_ws self) as [ws|]; [by exists ws|done]. }
  destruct Hws as [ws Hws].
  assert (H2 : _ensure_connected gw closed_ = (Return tt, connected)).
  { unfold _ensure_connected. run_monad. cbn [_ws closed_ set_ws closed negb].
    cbn [_ensure_connected_loop]. run_monad. unfold ws_connect. cbn. rewrite Hc.
    reflexivity. }
  assert (H3 : _ensure_token gw closed_ = (Return tt, ready)).
  { rewrite (ensure_token_connected _ _ H2).
    by apply (ensure_token_granted gw connected reply t). }
  exists (retried service params [] ready). split; [|split; [done|split; [done|]]].
  - cbn [_ws_get]. erewrite try_except_Raise by exact H1. cbn beta iota.
    erewrite bind_Return; cycle 1.
    { unfold ws_closed. rewrite Hws. reflexivity. }
    rewrite (bind_Return _ _ _ _ _ (ws_close_run _ _ Hws)).
    fold closed_.
    apply (ws_get_from_ready gw service params success payload [] Hp (S fuel) closed_ ready).
    + constructor.
    + exact H3.
    + done.
    + intros k x Hk. destruct k as [|k]; [|done]. cbn in Hk. injection Hk as <-.
      cbn. by rewrite Nat.add_0_r.
    + intros k Hk. cbn in Hk. replace k with 0%nat by lia. cbn. by rewrite Nat.add_0_r.
    + cbn. lia.
  - cbn. unfold logged. cbn. rewrite <- !app_assoc. reflexivity.
Qed.

(** ** A gateway that keeps expiring the token *)

(** The loop head with an empty token, when the gateway's next answers
    grant a token and then declare it expired, again and again. *)
Lemma ws_get_expiry_loop service params (expired reply t : nat -> json) (base_s base_r : nat) :
  (forall k, on_send gw (base_s + k) = None) ->
  (forall k, on_receive gw (base_r + 2 * k) = inl (reply k)) ->
  (forall k, granted_token (reply k) = Some (t k)) ->
  (forall k, on_receive gw (base_r + 2 * k + 1) = inl (expired k)) ->
  (forall k, token_expiry_envelope (expired k) = true) ->
  forall fuel self k,
  live self = true -> truthy (token self) = false ->
  sends (session self) = (base_s + 2 * k)%nat ->
  receives (session self) = (base_r + 2 * k)%nat ->
  (_ws_get gw fuel service params self).1 = Diverge.
Proof.
  intros Hs Hrep Hg Hexp Hex. induction fuel as [|fuel IH]; intros self k Hl Ht Hsn Hrn; [done|].
  cbn [_ws_get].
  pose (ready := set_token (t k) (after_exchange connect_request self)).
  assert (H1 : _ensure_token gw self = (Return tt, ready)).
  { apply (ensure_token_granted gw self (reply k) (t k)); try done.
    - rewrite Hsn. apply Hs.
    - rewrite Hrn. apply Hrep. }
  erewrite try_except_Raise; cycle 1.
  { rewrite (bind_Return _ _ _ _ _ H1).
    rewrite (attempt_run gw service params ready (expired k)); [|done| |].
    - by apply parse_response_expired.
    - cbn. rewrite Hsn. replace (S (base_s + 2 * k)) with (base_s + (2 * k + 1))%nat by lia.
      apply Hs.
    - cbn. rewrite Hrn. replace (S (base_r + 2 * k)) with (base_r + 2 * k + 1)%nat by lia.
      apply Hexp. }
  cbn beta iota. apply (IH _ (S k)); [done|done| |].
  - cbn. rewrite Hsn. lia.
  - cbn. rewrite Hrn. lia.
Qed.

(** X7: [_ws_get] has no bound on its retries: with a gateway that answers
    every call with a token-expiry envelope and grants every request for a
    new token, the call is sent again and again and never comes back,
    however many iterations it is given. *)
Theorem ws_get_never_gives_up (service : string) (params : gmap string json)
    (self : SungrowWebsocketClient) (expired reply t : nat -> json) :
  live self = true -> truthy (token self) = true ->
  (forall k, on_send gw (sends (session self) + k) = None) ->
  (forall k, on_receive gw (receives (session self) + 2 * k) = inl (expired k)) ->
  (forall k, token_expiry_envelope (expired k) = true) ->
  (forall k, on_receive gw (receives (session self) + 2 * k + 1) = inl (reply k)) ->
  (forall k, granted_token (reply k) = Some (t k)) ->
  forall fuel, (_ws_get gw fuel service params self).1 = Diverge.
Proof.
  intros Hl Ht Hs Hexp Hex Hrep Hg [|fuel]; [done|]. cbn [_ws_get].
  erewrite try_except_Raise; cycle 1.
  { rewrite (bind_Return _ _ _ _ _ (ensure_token_held gw _ Hl Ht)).
    rewrite (attempt_run gw service params self (expired 0%nat)); [|done| |].
    - by apply parse_response_expired.
    - rewrite <- (Nat.add_0_r (sends _)). apply Hs.
    - specialize (Hexp 0%nat). by rewrite Nat.add_0_r in Hexp. }
  cbn beta iota.
  apply (ws_get_expiry_loop service params (fun k => expired (S k)) reply t
           (S (sends (session self))) (S (receives (session self)))) with (k := 0%nat).
  - intros k. replace (S (sends (session self)) + k)%nat
      with (sends (session self) + S k)%nat by lia. apply Hs.
  - intros k. replace (S (receives (session self)) + 2 * k)%nat
      with (receives (session self) + 2 * k + 1)%nat by lia. apply Hrep.
  - exact Hg.
  - intros k. replace (S (receives (session self)) + 2 * k + 1)%nat
      with (receives (session self) + 2 * S k)%nat by lia. apply Hexp.
  - intros k. apply Hex.
  - exact Hl.
  - reflexivity.
  - cbn. lia.
  - cbn. lia.
Qed.

(** ** Closing *)

Lemma ensure_connected_first_try self :
  live self = false ->
  on_connect gw (connects (session self)) = None ->
  exists self',
    _ensure_connected gw self = (Return tt, self')
    /\ live self' = true
    /\ token self' = JStr ""
    /\ log (session self') = log (session self) ++ [WsConnect (ws_url self)].
Proof.
  intros Hl Hc. rewrite (ensure_connected_not_live gw _ Hl).
  cbn [_ensure_connected_loop]. run_monad. unfold ws_connect. cbn. rewrite Hc.
  eexists. split; [reflexivity|]. done.
Qed.

(** X8: [close] never raises.  On a client that never had a socket it does
    nothing; otherwise it closes the socket, so the client has no live
    connection, and keeps the token.  The next [_ensure_connected] then has
    to open a new connection, and doing so empties the token: a token got
    before [close] is not used again. *)
Theorem close_then_reconnect (self : SungrowWebsocketClient) :
  let closed_ := (close self).2 in
  (close self).1 = Return tt
  /\ live closed_ = false
  /\ token closed_ = token self
  /\ (_ws self = None -> closed_ = self)
  /\ (is_Some (_ws self) -> log (session closed_) = log (session self) ++ [WsClose])
  /\ (on_connect gw (connects (session self)) = None ->
      exists self',
        _ensure_connected gw closed_ = (Return tt, self')
        /\ live self' = true
        /\ token self' = JStr ""
        /\ log (session self') = log (session closed_) ++ [WsConnect (ws_url self)]).
Proof.
  intros closed_.
  assert (Hrun : (close self).1 = Return tt /\ live closed_ = false
                 /\ token closed_ = token self
                 /\ (_ws self = None -> closed_ = self)
                 /\ (is_Some (_ws self) ->
                     log (session closed_) = log (session self) ++ [WsClose])
                 /\ connects (session closed_) = connects (session self)
                 /\ ws_url closed_ = ws_url self).
  { subst closed_. unfold close. run_monad. unfold ws_close, live.
    destruct (_ws self) as [ws|] eqn:Hws; cbn.
    - rewrite ?Hws. done.
    - rewrite ?Hws. split; [done|]. split; [done|]. split; [done|]. split; [done|].
      split; [|done]. by intros [? ?]. }
  destruct Hrun as (H1 & H2 & H3 & H4 & H5 & H6 & H7).
  split; [done|]. split; [done|]. split; [done|]. split; [done|]. split; [done|].
  intros Hc. rewrite <- H7. apply ensure_connected_first_try; [done|]. by rewrite H6.
Qed.

End ClientEdges.

(** A fresh client connects and is granted a token. *)
Lemma ensure_token_returns_live_witness :
  let gw := scripted_gateway [None] [inl (connect_reply "t0")] in
  let fresh := Sungrow.__init__ "192.168.1.5" 8082 in
  let self' := (_ensure_token gw fresh).2 in
  live self' = true
  /\ (sends (session self') <= sends (session fresh) + 1)%nat
  /\ (sends (session self') + receives (session fresh)
      = sends (session fresh) + receives (session self'))%nat.
Proof.
  intros gw fresh self'. apply (ensure_token_returns_live gw fresh self').
  unfold self'. apply run_eta. vm_compute. reflexivity.
Defined.

(** The gateway is busy (code 5) when asked for the device list. *)
Lemma ws_get_protocol_error_witness :
  let gw := scripted_gateway [None] [inl (connect_reply "t0"); inl (envelope 5 "busy" ∅)] in
  let fresh := Sungrow.__init__ "192.168.1.5" 8082 in
  let ready := (_ensure_token gw fresh).2 in
  let params : gmap string json := <["type" := JStr "0"]> {["is_check_token" := JStr "0"]} in
  _ws_get gw 1 "devicelist" params fresh =
    (Raise (SungrowError (UnknownResult 5 (JStr "busy"))),
     after_exchange (request_msg (token ready) "devicelist" params) ready)
  /\ token (after_exchange (request_msg (token ready) "devicelist" params) ready) = token ready.
Proof.
  intros gw fresh ready params.
  apply (ws_get_protocol_error gw 0 "devicelist" params fresh ready
           (<["result_code" := JInt 5]> (<["result_msg" := JStr "busy"]> ∅)) (JInt 5)).
  - unfold ready. apply run_eta. vm_compute. reflexivity.
  - reflexivity.
  - vm_compute. reflexivity.
  - reflexivity.
  - reflexivity.
  - unfold RESULT_SUCCESS. lia.
  - unfold RESULT_TOKEN_EXPIRED. lia.
  - reflexivity.
Defined.

(** The gateway answers the "connect" request of a fresh client with
    TOKEN_EXPIRED. *)
Lemma token_request_refused_witness :
  let gw := scripted_gateway [None] [inl expired_envelope] in
  let fresh := Sungrow.__init__ "192.168.1.5" 8082 in
  let connected := (_ensure_connected gw fresh).2 in
  let refused := after_exchange connect_request connected in
  _ensure_token gw fresh
    = (Raise (SungrowError (TokenRequestError 106 (JStr "token expired"))), refused)
  /\ _ws_get gw 1 "real" ∅ fresh
     = (Raise (SungrowError (TokenRequestError 106 (JStr "token expired"))), refused)
  /\ log (session refused) = log (session connected) ++ [SendJson connect_request; ReceiveJson].
Proof.
  intros gw fresh connected.
  apply (token_request_refused gw 0 "real" ∅ fresh connected
           (<["result_code" := JInt 106]> (<["result_msg" := JStr "token expired"]> ∅))
           (JInt 106)).
  - unfold connected. apply run_eta. vm_compute. reflexivity.
  - reflexivity.
  - reflexivity.
  - vm_compute. reflexivity.
  - reflexivity.
  - reflexivity.
  - unfold RESULT_SUCCESS. lia.
  - reflexivity.
Defined.

(** Nobody answers at the gateway's address. *)
Lemma ws_get_connect_failure_witness :
  let gw := scripted_gateway [] [] in
  let fresh := Sungrow.__init__ "192.168.1.5" 8082 in
  exists self',
    _ws_get gw 1 "devicelist" ∅ fresh =
      (Raise (SungrowError (FailedToConnect (ws_url fresh) 10)), self')
    /\ sends (session self') = sends (session fresh)
    /\ connects (session self') = (connects (session fresh) + 10)%nat
    /\ log (session self') = log (session fresh) ++ timed_out_attempts (ws_url fresh) 10.
Proof.
  intros gw fresh. apply (ws_get_connect_failure gw 0 "devicelist" ∅ fresh).
  - reflexivity.
  - intros i _. unfold gw, scripted_gateway. cbn. by rewrite lookup_nil.
Defined.

(** The first connection of a fresh client is reset. *)
Lemma ws_get_first_connection_error_witness :
  let gw := scripted_gateway [Some ConnectionError] [] in
  let fresh := Sungrow.__init__ "192.168.1.5" 8082 in
  (_ws_get gw 1 "devicelist" ∅ fresh).1 = Raise AttributeError
  /\ sends (session (_ws_get gw 1 "devicelist" ∅ fresh).2) = sends (session fresh).
Proof.
  intros gw fresh. apply (ws_get_first_connection_error gw 0 "devicelist" ∅ fresh).
  - reflexivity.
  - reflexivity.
Defined.

(** The connection drops while the client waits for the device list. *)
Lemma ws_get_reconnects_witness :
  let devices := JDict {["list" := JList []]} in
  let gw := scripted_gateway [None]
              [inr ConnectionError; inl (connect_reply "t1");
               inl (success_envelope devices)] in
  let self := set_token (JStr "t0")
                (set_ws (Some {| closed := false |}) (Sungrow.__init__ "192.168.1.5" 8082)) in
  let params : gmap string json := <["type" := JStr "0"]> {["is_check_token" := JStr "0"]} in
  exists self',
    _ws_get gw 2 "devicelist" params self = (Return devices, self')
    /\ live self' = true
    /\ token self' = JStr "t1"
    /\ log (session self') =
         log (session self) ++
         [SendJson (request_msg (token self) "devicelist" params); ReceiveJson; WsClose;
          WsConnect (ws_url self);
          SendJson connect_request; ReceiveJson;
          SendJson (request_msg (JStr "t1") "devicelist" params); ReceiveJson].
Proof.
  intros devices gw self params.
  apply (ws_get_reconnects gw 0 "devicelist" params self (connect_reply "t1") (JStr "t1")
           (success_envelope devices) devices); reflexivity.
Defined.

(** A gateway that declares every token expired as soon as it is used. *)
Lemma ws_get_never_gives_up_witness :
  let gw := {| on_connect := fun _ => None;
               on_send := fun _ => None;
               on_receive := fun k => inl (if Nat.even k then expired_envelope
                                           else connect_reply "t1");
               on_clock := fun _ => 1700000000 |} in
  let self := set_token (JStr "t0")
                (set_ws (Some {| closed := false |}) (Sungrow.__init__ "192.168.1.5" 8082)) in
  (_ws_get gw 1000 "real" ∅ self).1 = Diverge.
Proof.
  intros gw self.
  refine (ws_get_never_gives_up gw "real" ∅ self (fun _ => expired_envelope)
            (fun _ => connect_reply "t1") (fun _ => JStr "t1") _ _ _ _ _ _ _ 1000%nat).
  - reflexivity.
  - reflexivity.
  - reflexivity.
  - intros k. cbn [gw on_receive self set_token set_ws session Sungrow.__init__ receives].
    rewrite Nat.add_0_l, Nat.even_mul. reflexivity.
  - reflexivity.
  - intros k. cbn [gw on_receive self set_token set_ws session Sungrow.__init__ receives].
    rewrite Nat.add_0_l, Nat.even_add, Nat.even_mul. reflexivity.
  - reflexivity.
Defined.

(** A connected client is closed and used again. *)
Lemma close_then_reconnect_witness :
  let gw := scripted_gateway [None] [] in
  let self := set_token (JStr "t0")
                (set_ws (Some {| closed := false |}) (Sungrow.__init__ "192.168.1.5" 8082)) in
  let closed_ := (close self).2 in
  (close self).1 = Return tt
  /\ live closed_ = false
  /\ token closed_ = JStr "t0"
  /\ log (session closed_) = [WsClose]
  /\ exists self',
       _ensure_connected gw closed_ = (Return tt, self')
       /\ live self' = true
       /\ token self' = JStr ""
       /\ log (session self') = log (session closed_) ++ [WsConnect (ws_url self)].
Proof.
  intros gw self closed_.
  destruct (close_then_reconnect gw self) as (H1 & H2 & H3 & _ & H5 & H6).
  split; [exact H1|]. split; [exact H2|]. split; [exact H3|].
  split; [apply H5; by eexists|]. apply H6. reflexivity.
Defined.

(** * The dongle's own information *)

Lemma default_last_cons_fmap {A B} (f : A -> B) (a : B) (x : A) (l : list A) :
  default a (f <$> last (x :: l)) = default (f x) (f <$> last l).
Proof. rewrite last_cons. by destruct (last l). Qed.

Lemma read_about_rows_fields (rows : list (string * json)) : forall info,
  About.read_about_rows
    ((fun r : string * json =>
        JDict (<["data_name" := JStr r.1]> {["data_value" := r.2]})) <$> rows) info =
  Return
    {| About.device_sn :=
         default (About.device_sn info)
           (snd <$> last (filter (fun r : string * json => r.1 = "I18N_COMMON_DEVICE_SN") rows));
       About.device_version :=
         default (About.device_version info)
           (snd <$> last (filter (fun r : string * json => r.1 = "I18N_COMMON_VERSION") rows));
       About.software_version :=
         default (About.software_version info)
           (snd <$> last (filter (fun r : string * json =>
                                    r.1 = "I18N_COMMON_APPLI_SOFT_VERSION") rows));
       About.software_build_version :=
         default (About.software_build_version info)
           (snd <$> last (filter (fun r : string * json =>
                                    r.1 = "I18N_COMMON_BUILD_SOFT_VERSION") rows)) |}.
Proof.
  induction rows as [|[n v] rows IH]; intros info; [by destruct info|].
  rewrite fmap_cons. cbn [About.read_about_rows py_getitem fst snd].
  rewrite lookup_insert_eq. cbn [mbind outcome_bind py_eq_str].
  rewrite lookup_insert_ne by done. rewrite lookup_singleton_eq. cbn [mbind outcome_bind].
  destruct (String.eqb_spec n "I18N_COMMON_DEVICE_SN") as [->|H1];
    [|destruct (String.eqb_spec n "I18N_COMMON_APPLI_SOFT_VERSION") as [->|H2];
      [|destruct (String.eqb_spec n "I18N_COMMON_BUILD_SOFT_VERSION") as [->|H3];
        [|destruct (String.eqb_spec n "I18N_COMMON_VERSION") as [->|H4]]]];
    rewrite IH; do 2 f_equal;
    rewrite filter_cons;
    cbn [fst About.device_sn About.device_version About.software_version
         About.software_build_version];
    case_decide; simplify_eq; rewrite ?default_last_cons_fmap; done.
Qed.

(** X9: With rows that have a name and a value, [get_wi_net_info] gives for
    each of its four fields the value of the last row that has the
    field's name, and the empty string if no row has it; rows of other
    names are passed over. *)
Theorem wi_net_info_last_wins (rows : list (string * json)) :
  let field := fun name : string =>
    default (JStr "") (snd <$> last (filter (fun r : string * json => r.1 = name) rows)) in
  About.wi_net_info_of
    (JDict {["list" := JList ((fun r : string * json =>
                                 JDict (<["data_name" := JStr r.1]> {["data_value" := r.2]}))
                              <$> rows)]}) =
  Return {| About.device_sn := field "I18N_COMMON_DEVICE_SN";
            About.device_version := field "I18N_COMMON_VERSION";
            About.software_version := field "I18N_COMMON_APPLI_SOFT_VERSION";
            About.software_build_version := field "I18N_COMMON_BUILD_SOFT_VERSION" |}.
Proof.
  intros field. unfold About.wi_net_info_of. cbn [py_getitem].
  rewrite lookup_singleton_eq. cbn [mbind outcome_bind py_iter].
  by rewrite read_about_rows_fields.
Qed.

(** X10: Only the rows whose name [get_wi_net_info] knows need a value: a row
    of another name is passed over even when it has none, while a row of a
    known name without value makes the call fail with [KeyError]. *)
Theorem wi_net_info_missing_value (name : string) (rest : list json) :
  let known := bool_decide (name ∈ ["I18N_COMMON_DEVICE_SN"; "I18N_COMMON_APPLI_SOFT_VERSION";
                                    "I18N_COMMON_BUILD_SOFT_VERSION"; "I18N_COMMON_VERSION"]) in
  About.wi_net_info_of (JDict {["list" := JList (JDict {["data_name" := JStr name]} :: rest)]}) =
  if known then Raise (KeyError (KStr "data_value"))
  else About.wi_net_info_of (JDict {["list" := JList rest]}).
Proof.
  intros known. unfold About.wi_net_info_of. cbn [py_getitem].
  rewrite !lookup_singleton_eq. cbn [mbind outcome_bind py_iter About.read_about_rows py_getitem].
  rewrite lookup_singleton_eq. cbn [mbind outcome_bind py_eq_str].
  rewrite lookup_singleton_ne by done. subst known.
  destruct (String.eqb_spec name "I18N_COMMON_DEVICE_SN") as [->|H1]; [done|].
  destruct (String.eqb_spec name "I18N_COMMON_APPLI_SOFT_VERSION") as [->|H2]; [done|].
  destruct (String.eqb_spec name "I18N_COMMON_BUILD_SOFT_VERSION") as [->|H3]; [done|].
  destruct (String.eqb_spec name "I18N_COMMON_VERSION") as [->|H4]; [done|].
  rewrite bool_decide_eq_false_2; [done|].
  rewrite !elem_of_cons. intros [?|[?|[?|[?|?%elem_of_nil]]]]; done.
Qed.

(** * Further properties of the coordinators *)

(** ** Decoding of the readings *)

(** The row loop over a list in two parts. *)
Lemma read_rows_app rows1 : forall rows2 acc,
  read_rows (rows1 ++ rows2) acc =
  match read_rows rows1 acc with
  | Return acc' => read_rows rows2 acc'
  | Raise e => Raise e
  | Diverge => Diverge
  end.
Proof.
  induction rows1 as [|row rows1 IH]; intros rows2 acc; [done|].
  cbn [app read_rows]. unfold mbind, outcome_bind.
  destruct (py_getitem row "data_value") as [v| |]; [|done..].
  destruct (py_getitem row "data_unit") as [u| |]; [|done..].
  destruct (py_getitem row "data_name") as [n| |]; [|done..].
  destruct (py_hash n) as [k| |]; [|done..]. apply IH.
Qed.

(** What [read_rows] makes of one well-formed row. *)
Lemma read_rows_snoc rows (name : string) (v u : json) fields acc acc' :
  read_rows rows acc = Return acc' ->
  fields !! "data_name" = Some (JStr name) ->
  fields !! "data_value" = Some v ->
  fields !! "data_unit" = Some u ->
  read_rows (rows ++ [JDict fields]) acc
  = Return (<[KStr name := {| value := v; units := u |}]> acc').
Proof.
  intros Hrows Hn Hv Hu. rewrite read_rows_app, Hrows. cbn. by rewrite Hn, Hv, Hu.
Qed.

(** X11: The readings are filed under their names, a later row of the same name
    replacing an earlier one: the reading under a name is that of the last
    row with this name, and names that no row has have no reading. *)
Theorem read_rows_last_wins (rows : list (string * json * json)) (name : string) :
  let as_json := fun r : string * json * json =>
    JDict (<["data_name" := JStr r.1.1]> (<["data_value" := r.1.2]>
             {["data_unit" := r.2]})) in
  exists sensors,
    read_rows (as_json <$> rows) ∅ = Return sensors
    /\ sensors !! KStr name =
         (fun r : string * json * json => {| value := r.1.2; units := r.2 |})
           <$> last (filter (fun r : string * json * json => r.1.1 = name) rows)
    /\ forall k, is_Some (sensors !! k) -> exists n, k = KStr n /\ n ∈ rows.*1.*1.
Proof.
  intros as_json. induction rows as [|r rows IH] using rev_ind.
  - exists ∅. split; [done|]. split; [done|]. intros k [? Hk]. by rewrite lookup_empty in Hk.
  - destruct IH as (acc & Hrun & Hlook & Hdom). destruct r as [[n v] u].
    exists (<[KStr n := {| value := v; units := u |}]> acc). split; [|split].
    + rewrite fmap_app. cbn [fmap list_fmap].
      apply (read_rows_snoc _ n v u _ ∅ acc Hrun); by simplify_map_eq.
    + rewrite filter_app. destruct (decide (n = name)) as [->|Hne].
      * rewrite lookup_insert_eq.
        rewrite (filter_cons_True (fun r : string * json * json => r.1.1 = name) (name, v, u) [])
          by done.
        by rewrite filter_nil, last_snoc.
      * rewrite lookup_insert_ne by congruence.
        rewrite (filter_cons_False (fun r : string * json * json => r.1.1 = name) (n, v, u) [])
          by done.
        by rewrite filter_nil, app_nil_r.
    + intros k Hk. rewrite !fmap_app. cbn [fmap list_fmap fst].
      destruct (decide (k = KStr n)) as [->|Hne].
      * exists n. split; [done|]. apply elem_of_app. right. by left.
      * rewrite lookup_insert_ne in Hk by done. destruct (Hdom k Hk) as (n' & -> & Hin).
        exists n'. split; [done|]. apply elem_of_app. by left.
Qed.

(** X12: A row that lacks one of the three fields makes the whole decoding fail
    with the [KeyError] of the first field it lacks, in the order the code
    reads them: value, unit, name; the rows before it and after it do not
    matter. *)
Theorem read_rows_malformed_row (rows rest : list json) (fields : gmap string json)
    (acc acc' : gmap pykey reading) :
  read_rows rows acc = Return acc' ->
  fields !! "data_value" = None \/ fields !! "data_unit" = None
  \/ fields !! "data_name" = None ->
  read_rows (rows ++ JDict fields :: rest) acc =
  Raise (KeyError (KStr (match fields !! "data_value", fields !! "data_unit" with
                         | None, _ => "data_value"
                         | Some _, None => "data_unit"
                         | Some _, Some _ => "data_name"
                         end))).
Proof.
  intros Hrows Hbad. rewrite read_rows_app, Hrows. cbn [read_rows py_getitem].
  unfold mbind, outcome_bind.
  destruct (fields !! "data_value") as [v|] eqn:Ev; [|done].
  destruct (fields !! "data_unit") as [u|] eqn:Eu; [|done].
  destruct (fields !! "data_name") as [n|] eqn:En; [|done].
  by destruct Hbad as [?|[?|?]].
Qed.

Lemma read_rows_malformed_row_witness :
  read_rows ([CoordinatorSpec.row "I18N_COMMON_BUS_VOLTAGE" "652.0" "V"]
             ++ JDict {["data_name" := JStr "I18N_COMMON_TOTAL_YIELD"]} :: []) ∅
  = Raise (KeyError (KStr "data_value")).
Proof.
  rewrite (read_rows_malformed_row [CoordinatorSpec.row "I18N_COMMON_BUS_VOLTAGE" "652.0" "V"] []
             {["data_name" := JStr "I18N_COMMON_TOTAL_YIELD"]} ∅
             {[ KStr "I18N_COMMON_BUS_VOLTAGE" := {| value := JStr "652.0"; units := JStr "V" |} ]}).
  - reflexivity.
  - reflexivity.
  - left. reflexivity.
Defined.

(** ** What the listener reports *)

Lemma elem_of_make_entity e wi_net_id (l : list SungrowSensorEntityDescription) :
  e ∈ make_entity wi_net_id <$> l <->
  entity_wi_net_id e = wi_net_id /\ entity_description e ∈ l.
Proof.
  rewrite list_elem_of_fmap. split.
  - intros (x & -> & Hx). done.
  - intros [<- Hx]. exists (entity_description e). split; [by destruct e|done].
Qed.

Lemma filter_filter_same {A} (P : A -> Prop) `{!forall x, Decision (P x)} (l : list A) :
  filter P (filter P l) = filter P l.
Proof.
  induction l as [|x l IH]; [done|]. destruct (decide (P x)) as [Hx|Hx].
  - rewrite (filter_cons_True P x l Hx), (filter_cons_True P x _ Hx). by rewrite IH.
  - by rewrite (filter_cons_False P x l Hx).
Qed.

(** The scan over devices with distinct ids, all of them tracked. *)
Lemma scan_devices_exact items : NoDup items.*1 -> forall acc c,
  (forall id dd, (id, dd) ∈ items -> is_Some (unregistered_descriptors c !! id)) ->
  exists out c',
    scan_devices items acc c = (Return out, c')
    /\ (forall e, e ∈ out <->
          e ∈ acc \/ exists dd l, (entity_wi_net_id e, dd) ∈ items
                       /\ unregistered_descriptors c !! entity_wi_net_id e = Some l
                       /\ entity_description e ∈ l
                       /\ seen dd (entity_description e) = true)
    /\ (forall id dd, (id, dd) ∈ items ->
          unregistered_descriptors c' !! id
          = filter (fun x => seen dd x = false) <$> unregistered_descriptors c !! id)
    /\ (forall id, id ∉ items.*1 ->
          unregistered_descriptors c' !! id = unregistered_descriptors c !! id).
Proof.
  induction items as [|[id0 dd0] rest IH]; intros Hnd acc c Htr.
  - exists acc, c. split; [done|]. split; [|split; [|done]].
    + intros e. split; [by left|]. intros [?|(dd & l & Hin & _)]; [done|].
      by apply elem_of_nil in Hin.
    + intros id dd Hin. by apply elem_of_nil in Hin.
  - rewrite fmap_cons in Hnd. cbn [fst] in Hnd. apply NoDup_cons in Hnd as [Hid0 Hnd].
    destruct (Htr id0 dd0) as [l0 El0]; [by left|].
    rewrite scan_devices_cons, El0.
    set (acc1 := acc ++ (make_entity id0 <$> filter (fun d => seen dd0 d = true) l0)).
    set (c1 := set_unregistered_descriptors
                 (<[id0 := filter (fun d => seen dd0 d = false) l0]>
                    (unregistered_descriptors c)) c).
    assert (Hne : forall id dd, (id, dd) ∈ rest -> id <> id0).
    { intros id dd Hin ->. apply Hid0. apply list_elem_of_fmap. by exists (id0, dd). }
    assert (Hc1 : forall id, id <> id0 ->
              unregistered_descriptors c1 !! id = unregistered_descriptors c !! id).
    { intros id Hid. cbn. by rewrite lookup_insert_ne. }
    destruct (IH Hnd acc1 c1) as (out & c' & Hrun & Hmem & Hin & Hout).
    { intros id dd Hd. rewrite (Hc1 id (Hne _ _ Hd)). apply (Htr id dd). by right. }
    exists out, c'. split; [done|]. split; [|split].
    + intros e. rewrite Hmem. unfold acc1. rewrite elem_of_app, elem_of_make_entity.
      rewrite list_elem_of_filter. split.
      * intros [[Ha|(Hid & Hseen & Hl)]|(dd & l & Hd & Hl & Hx & Hseen)].
        -- by left.
        -- right. exists dd0, l0. rewrite Hid. split; [by left|]. done.
        -- right. exists dd, l. rewrite <- (Hc1 _ (Hne _ _ Hd)). split; [by right|]. done.
      * intros [Ha|(dd & l & Hd & Hl & Hx & Hseen)]; [by left; left|].
        apply elem_of_cons in Hd as [[= Hid <-]|Hd].
        -- left. right. rewrite Hid in Hl. rewrite El0 in Hl. injection Hl as <-. done.
        -- right. exists dd, l. by rewrite (Hc1 _ (Hne _ _ Hd)).
    + intros id dd Hd. apply elem_of_cons in Hd as [[= -> ->]|Hd].
      * rewrite (Hout id0 Hid0), El0. cbn. by rewrite lookup_insert_eq.
      * rewrite (Hin id dd Hd). by rewrite (Hc1 _ (Hne _ _ Hd)).
    + intros id Hid. rewrite fmap_cons in Hid. cbn [fst] in Hid.
      apply not_elem_of_cons in Hid as [Hid Hrest].
      rewrite (Hout id Hrest). by apply Hc1.
Qed.

(** A scan that returns found every device tracked. *)
Lemma scan_devices_returns_tracked items : forall acc c out c',
  scan_devices items acc c = (Return out, c') ->
  forall id dd, (id, dd) ∈ items -> is_Some (unregistered_descriptors c !! id).
Proof.
  induction items as [|[id0 dd0] rest IH]; intros acc c out c' Hrun id dd Hin.
  - by apply elem_of_nil in Hin.
  - rewrite scan_devices_cons in Hrun.
    destruct (unregistered_descriptors c !! id0) as [l0|] eqn:El0; [|done].
    apply elem_of_cons in Hin as [[= -> ->]|Hin]; [by rewrite El0|].
    specialize (IH _ _ _ _ Hrun id dd Hin). cbn in IH.
    destruct (decide (id = id0)) as [->|Hne]; [by rewrite El0|].
    by rewrite lookup_insert_ne in IH.
Qed.

Lemma add_entities_run (c : SungrowCoordinator) (d : snapshot) :
  data c = Some d ->
  (forall id, is_Some (d !! id) -> is_Some (unregistered_descriptors c !! id)) ->
  exists out c',
    _add_entities_for_unregistered_descriptors c = (Return out, c')
    /\ (forall e, e ∈ out <->
          exists dd l, d !! entity_wi_net_id e = Some dd
                       /\ unregistered_descriptors c !! entity_wi_net_id e = Some l
                       /\ entity_description e ∈ l
                       /\ seen dd (entity_description e) = true)
    /\ (forall id, unregistered_descriptors c' !! id =
          match d !! id with
          | Some dd => filter (fun x => seen dd x = false) <$> unregistered_descriptors c !! id
          | None => unregistered_descriptors c !! id
          end)
    /\ data c' = Some d.
Proof.
  intros Hd Htr. unfold _add_entities_for_unregistered_descriptors. run_monad. rewrite Hd.
  destruct (scan_devices_exact (map_to_list d) (NoDup_fst_map_to_list d) [] c)
    as (out & c' & Hrun & Hmem & Hin & Hout).
  { intros id dd Hin. apply Htr. exists dd. by apply elem_of_map_to_list. }
  exists out, c'. split; [done|]. split; [|split].
  - intros e. rewrite Hmem. split.
    + intros [Hnil|(dd & l & Hi & H)]; [by apply elem_of_nil in Hnil|].
      exists dd, l. by rewrite <- elem_of_map_to_list.
    + intros (dd & l & Hi & H). right. exists dd, l. by rewrite elem_of_map_to_list.
  - intros id. destruct (d !! id) as [dd|] eqn:Ei.
    + apply Hin. by apply elem_of_map_to_list.
    + apply Hout. intros ((id' & dd) & -> & Hi)%list_elem_of_fmap.
      apply elem_of_map_to_list in Hi. cbn in Ei. congruence.
  - destruct (scan_devices_spec _ _ _ _ _ Hrun) as (-> & _). done.
Qed.

(** X16: With every id of the snapshot tracked, the listener returns, and what
    it reports is exact: an entity is reported if and only if its
    description was unregistered for its device and the snapshot has, for
    this device, a reading of the description's key that is not null.
    Afterwards the unregistered descriptions of each device of the snapshot
    are those that were not reported, in their order; those of other
    devices, and the snapshot, are as before. *)
Theorem add_entities_exact (c : SungrowCoordinator) (d : snapshot) :
  data c = Some d ->
  (forall id, is_Some (d !! id) -> is_Some (unregistered_descriptors c !! id)) ->
  exists out c',
    _add_entities_for_unregistered_descriptors c = (Return out, c')
    /\ (forall e, e ∈ out <->
          exists dd l, d !! entity_wi_net_id e = Some dd
                       /\ unregistered_descriptors c !! entity_wi_net_id e = Some l
                       /\ entity_description e ∈ l
                       /\ seen dd (entity_description e) = true)
    /\ (forall id, unregistered_descriptors c' !! id =
          match d !! id with
          | Some dd => filter (fun x => seen dd x = false) <$> unregistered_descriptors c !! id
          | None => unregistered_descriptors c !! id
          end)
    /\ data c' = Some d.
Proof. apply add_entities_run. Qed.

(** X17: The listener run twice on the same snapshot reports nothing the second
    time and leaves the unregistered descriptions as the first run left
    them. *)
Theorem add_entities_idempotent (c c' : SungrowCoordinator) (out : list entity) :
  _add_entities_for_unregistered_descriptors c = (Return out, c') ->
  exists c'',
    _add_entities_for_unregistered_descriptors c' = (Return [], c'')
    /\ unregistered_descriptors c'' = unregistered_descriptors c'.
Proof.
  intros Hrun.
  assert (Hd : exists d, data c = Some d
                 /\ forall id, is_Some (d !! id) -> is_Some (unregistered_descriptors c !! id)).
  { revert Hrun. unfold _add_entities_for_unregistered_descriptors. run_monad.
    destruct (data c) as [d|]; [|done]. intros Hrun. exists d. split; [done|].
    intros id [dd Hdd]. apply (scan_devices_returns_tracked _ _ _ _ _ Hrun id dd).
    by apply elem_of_map_to_list. }
  destruct Hd as (d & Hd & Htr).
  destruct (add_entities_run c d Hd Htr) as (out1 & c1 & Hrun1 & _ & Hu1 & Hd1).
  rewrite Hrun in Hrun1. injection Hrun1 as <- <-.
  destruct (add_entities_run c' d Hd1) as (out2 & c'' & Hrun2 & Hmem2 & Hu2 & _).
  { intros id Hid. rewrite Hu1. destruct (Htr id Hid) as [l ->].
    destruct Hid as [dd ->]. done. }
  exists c''. split.
  - rewrite Hrun2. f_equal. f_equal. destruct out2 as [|e out2]; [done|].
    destruct (proj1 (Hmem2 e)) as (dd & l & Hdd & Hl & Hx & Hseen); [by left|].
    rewrite Hu1, Hdd in Hl. destruct (unregistered_descriptors c !! _) as [l0|]; [|done].
    injection Hl as <-. apply list_elem_of_filter in Hx as [Hns _]. congruence.
  - apply map_eq. intros id. rewrite Hu2, Hu1. destruct (d !! id) as [dd|]; [|done].
    destruct (unregistered_descriptors c !! id) as [l|]; [|done]. cbn.
    by rewrite filter_filter_same.
Qed.

Section CoordinatorEdges.
Variable gw : gateway.
Variable fuel : nat.
Variable int_of_str : string -> option Z.

(** ** Failures that are not [SungrowError]s *)

(** X13: An exception of the gateway call that is not a [SungrowError] (a
    [KeyError] of a malformed answer, the [ValueError] of [int], ...) ends
    the poll after this one call: the inverter fetch does not retry it, it
    reaches the caller as it is, not wrapped in [UpdateFailed], and the
    coordinator is left as it was: the failure is not counted and the
    interval not changed. *)
Theorem fetch_error_not_counted (c : SungrowCoordinator) (w w' : SungrowWebsocketClient)
    (e : exn) :
  (match class_of c with
   | SungrowInverterUpdateCoordinator => attempt gw fuel int_of_str
   | SungrowBatteryUpdateCoordinator => battery_attempt gw fuel int_of_str
   end) (inverter_info c) w = (Raise e, w') ->
  is_SungrowError e = false ->
  _async_update_data gw fuel int_of_str (c, w) = (Raise e, (c, w')).
Proof.
  intros Hrun He. rewrite async_update_data_run.
  assert (_update_method gw fuel int_of_str (class_of c) (inverter_info c) w = (Raise e, w'))
    as ->; [|by rewrite He].
  destruct (class_of c); unfold _update_method.
  - apply bind_Raise. change (seq 0 SILENT_RETRIES) with (0 :: seq 1 2)%nat.
    rewrite silent_retry_loop_cons, Hrun. by rewrite He.
  - revert Hrun. unfold battery_attempt. run_monad.
    destruct (py_int _ _) as [z| |]; [|by intros [= <- <-]..].
    destruct (get_battery_realtime _ _ _ _) as [[?|?|] ?]; by intros [= <- <-].
Qed.

(** ** The interval, whatever the polls give *)

Lemma poll_invariant (c : SungrowCoordinator) (w : SungrowWebsocketClient) :
  0 <= _failed_update_count c ->
  update_interval c = (if _failed_update_count c <? MAX_FAILED_UPDATES
                       then default_interval (class_of c) else error_interval (class_of c)) ->
  let c' := (poll gw fuel int_of_str (c, w)).1 in
  class_of c' = class_of c
  /\ 0 <= _failed_update_count c'
  /\ update_interval c' = (if _failed_update_count c' <? MAX_FAILED_UPDATES
                           then default_interval (class_of c) else error_interval (class_of c)).
Proof.
  intros H0 Hi. unfold poll. rewrite async_update_data_run.
  destruct (_update_method _ _ _ _ _ w) as [[d|e|] w']; cbn [fst snd]; [| |done].
  - unfold succeeded. destruct (Z.eqb_spec (_failed_update_count c) 0) as [E|E]; cbn.
    + by rewrite Hi.
    + done.
  - destruct (is_SungrowError e); cbn [fst snd]; [|done].
    unfold failed. cbn. unfold MAX_FAILED_UPDATES in *.
    destruct (Z.eqb_spec (_failed_update_count c + 1) 3) as [E|E]; cbn.
    + rewrite E. split; [done|]. split; [lia|done].
    + split; [done|]. split; [lia|]. rewrite Hi.
      destruct (Z.ltb_spec (_failed_update_count c) 3),
               (Z.ltb_spec (_failed_update_count c + 1) 3); try done; lia.
Qed.

(** X14: After any number of polls of a new coordinator, whatever each of them
    gives, the counter is not negative and the interval is the normal one
    exactly while fewer than three fetches in a row have failed with a
    [SungrowError], and the degraded one otherwise. *)
Theorem interval_follows_failure_count (cls : coordinator_class) (info : SungrowDeviceInfo)
    (w : SungrowWebsocketClient) (k : nat) :
  let c := (polls gw fuel int_of_str k (Coordinator.__init__ cls info, w)).1 in
  class_of c = cls
  /\ 0 <= _failed_update_count c
  /\ update_interval c = (if _failed_update_count c <? MAX_FAILED_UPDATES
                          then default_interval cls else error_interval cls).
Proof.
  induction k as [|k IH]; [done|]. cbn [polls]. cbn zeta in *.
  destruct (polls gw fuel int_of_str k (Coordinator.__init__ cls info, w)) as [c w0].
  cbn [fst] in IH. destruct IH as (Hc & H0 & Hi). rewrite <- Hc in Hi.
  destruct (poll_invariant c w0 H0 Hi) as (Hc' & H0' & Hi'). rewrite <- Hc. by rewrite Hc'.
Qed.

(** ** The snapshot of a fetch *)

(** A fetch that returns gives the readings of the one device, filed under
    the id of the descriptor. *)
Lemma update_method_singleton cls info w data w' :
  _update_method gw fuel int_of_str cls info w = (Return data, w') ->
  exists id dd, py_hash (wi_net_id info) = Return id /\ data = {[ id := dd ]}.
Proof.
  destruct cls; unfold _update_method; run_monad.
  - destruct (silent_retry_loop _ _ _ _ _ w) as [[dd|?|] ?]; [|done..].
    destruct (py_hash (wi_net_id info)) as [id| |]; [|done..]. intros [= <- <-]. eauto.
  - destruct (py_int _ _) as [z| |]; [|done..].
    destruct (get_battery_realtime _ _ _ _) as [[dd|?|] ?]; [|done..].
    destruct (py_hash (wi_net_id info)) as [id| |]; [|done..]. intros [= <- <-]. eauto.
Qed.

(** X15: After the first poll of a new coordinator that succeeds, the
    snapshot returned holds the readings of the one device under the id of
    the descriptor, and every description of the class is unregistered for
    this id.  Once the snapshot is cached as [self.data], the listener
    makes an entity of exactly the descriptions whose key has a reading
    that is not null, in the order of the description list, and leaves the
    others unregistered. *)
Theorem first_poll_entities (cls : coordinator_class) (info : SungrowDeviceInfo)
    (w w' : SungrowWebsocketClient) (c' : SungrowCoordinator) (d : snapshot) :
  _async_update_data gw fuel int_of_str (Coordinator.__init__ cls info, w)
  = (Return d, (c', w')) ->
  exists id dd c'',
    py_hash (wi_net_id info) = Return id
    /\ d = {[ id := dd ]}
    /\ unregistered_descriptors c' = {[ id := valid_descriptions cls ]}
    /\ _add_entities_for_unregistered_descriptors (set_data (Some d) c') =
         (Return (make_entity id <$> filter (fun x => seen dd x = true) (valid_descriptions cls)),
          c'')
    /\ unregistered_descriptors c'' =
         {[ id := filter (fun x => seen dd x = false) (valid_descriptions cls) ]}.
Proof.
  rewrite async_update_data_run. cbn [class_of inverter_info Coordinator.__init__].
  destruct (_update_method _ _ _ cls info w) as [[data|e|] w0] eqn:Hf;
    [|by destruct (is_SungrowError e)|done].
  destruct (update_method_singleton _ _ _ _ _ Hf) as (id & dd & Hid & ->).
  intros [= <- <- <-]. exists id, dd.
  assert (Hu : unregistered_descriptors (succeeded {[id := dd]} (Coordinator.__init__ cls info))
               = {[ id := valid_descriptions cls ]}).
  { unfold succeeded. cbn. by rewrite map_to_list_singleton. }
  unfold _add_entities_for_unregistered_descriptors. run_monad.
  cbn [data set_data]. rewrite map_to_list_singleton, scan_devices_cons.
  change (unregistered_descriptors (set_data ?x ?c)) with (unregistered_descriptors c).
  rewrite Hu, lookup_singleton_eq. cbn [scan_devices]. eexists.
  split; [done|]. split; [done|]. split; [done|]. split; [reflexivity|].
  cbn. by rewrite insert_singleton_eq.
Qed.

End CoordinatorEdges.

Lemma run_returned_pair {S1 S2 A} (p : outcome A * (S1 * S2)) dflt :
  returns p.1 = true -> p = (Return (returned dflt p.1), (p.2.1, p.2.2)).
Proof. by destruct p as [[a|e|] [s1 s2]]. Qed.

(** The answer to the poll of an inverter has a row without value. *)
Lemma fetch_error_not_counted_witness :
  let answer := realtime_envelope [JDict {["data_name" := JStr "I18N_COMMON_TOTAL_YIELD"]}] in
  let gw := ClientSpec.scripted_gateway [None] (inl <$> [ClientSpec.connect_reply "t0"; answer]) in
  let info := inverter 1 "A2320857820" "SH10RT" 35 in
  let c := Coordinator.__init__ SungrowInverterUpdateCoordinator info in
  let w := Sungrow.__init__ "192.168.1.5" 8082 in
  let ios : string -> option Z := fun _ => None in
  _async_update_data gw 4 ios (c, w)
  = (Raise (KeyError (KStr "data_value")), (c, (attempt gw 4 ios info w).2)).
Proof.
  intros answer gw info c w ios.
  apply (fetch_error_not_counted gw 4 ios c w (attempt gw 4 ios info w).2
           (KeyError (KStr "data_value"))).
  - change (attempt gw 4 ios info w
            = (Raise (KeyError (KStr "data_value")), (attempt gw 4 ios info w).2)).
    apply run_eta. vm_compute. reflexivity.
  - reflexivity.
Defined.

(** The first snapshot of an inverter has the bus voltage and, without
    value, the grid frequency. *)
Lemma first_poll_entities_witness :
  let answer := JDict (<["result_code" := JInt 1]>
                  {["result_data" :=
                      JDict {["list" := JList
                        [row "I18N_COMMON_BUS_VOLTAGE" "652.0" "V";
                         JDict (<["data_name" := JStr "I18N_COMMON_GRID_FREQUENCY"]>
                                  (<["data_value" := JNull]> {["data_unit" := JStr "Hz"]}))]]}]}) in
  let gw := ClientSpec.scripted_gateway [None] (inl <$> [ClientSpec.connect_reply "t0"; answer]) in
  let info := inverter 1 "A2320857820" "SH10RT" 35 in
  let w := Sungrow.__init__ "192.168.1.5" 8082 in
  let ios : string -> option Z := fun _ => None in
  let poll := _async_update_data gw 4 ios
                (Coordinator.__init__ SungrowInverterUpdateCoordinator info, w) in
  let d := returned ∅ poll.1 in
  exists id dd c'',
    py_hash (wi_net_id info) = Return id
    /\ d = {[ id := dd ]}
    /\ unregistered_descriptors poll.2.1 = {[ id := INVERTER_ENTITY_DESCRIPTIONS ]}
    /\ _add_entities_for_unregistered_descriptors (set_data (Some d) poll.2.1) =
         (Return (make_entity id <$> filter (fun x => seen dd x = true)
                                       INVERTER_ENTITY_DESCRIPTIONS), c'')
    /\ unregistered_descriptors c'' =
         {[ id := filter (fun x => seen dd x = false) INVERTER_ENTITY_DESCRIPTIONS ]}.
Proof.
  intros answer gw info w ios poll d.
  apply (first_poll_entities gw 4 ios SungrowInverterUpdateCoordinator info w
           poll.2.2 poll.2.1 d).
  unfold d, poll. apply run_returned_pair. vm_compute. reflexivity.
Defined.

(** A coordinator with two unregistered descriptions and a snapshot that
    has a reading for one of them. *)
Lemma add_entities_exact_witness :
  let bus := description "pv_voltage_bus" "I18N_COMMON_BUS_VOLTAGE" in
  let frequency := description "grid_frequency" "I18N_COMMON_GRID_FREQUENCY" in
  let d : snapshot :=
    {[ KInt 1 := {[ KStr "I18N_COMMON_BUS_VOLTAGE"
                      := {| value := JStr "652.0"; units := JStr "V" |} ]} ]} in
  let c := set_data (Some d)
             (set_unregistered_descriptors {[ KInt 1 := [bus; frequency] ]}
                (Coordinator.__init__ SungrowInverterUpdateCoordinator
                   (inverter 1 "A2320857820" "SH10RT" 35))) in
  exists out c',
    _add_entities_for_unregistered_descriptors c = (Return out, c')
    /\ (forall e, e ∈ out <->
          exists dd l, d !! entity_wi_net_id e = Some dd
                       /\ unregistered_descriptors c !! entity_wi_net_id e = Some l
                       /\ entity_description e ∈ l
                       /\ seen dd (entity_description e) = true)
    /\ (forall id, unregistered_descriptors c' !! id =
          match d !! id with
          | Some dd => filter (fun x => seen dd x = false) <$> unregistered_descriptors c !! id
          | None => unregistered_descriptors c !! id
          end)
    /\ data c' = Some d.
Proof.
  intros bus frequency d c. apply (add_entities_exact c d).
  - reflexivity.
  - intros id [dd Hdd]. apply lookup_singleton_Some in Hdd as [<- _].
    exists [bus; frequency]. apply lookup_singleton_eq.
Defined.

Lemma add_entities_idempotent_witness :
  let bus := description "pv_voltage_bus" "I18N_COMMON_BUS_VOLTAGE" in
  let frequency := description "grid_frequency" "I18N_COMMON_GRID_FREQUENCY" in
  let d : snapshot :=
    {[ KInt 1 := {[ KStr "I18N_COMMON_BUS_VOLTAGE"
                      := {| value := JStr "652.0"; units := JStr "V" |} ]} ]} in
  let c := set_data (Some d)
             (set_unregistered_descriptors {[ KInt 1 := [bus; frequency] ]}
                (Coordinator.__init__ SungrowInverterUpdateCoordinator
                   (inverter 1 "A2320857820" "SH10RT" 35))) in
  let first := _add_entities_for_unregistered_descriptors c in
  exists c'',
    _add_entities_for_unregistered_descriptors first.2 = (Return [], c'')
    /\ unregistered_descriptors c'' = unregistered_descriptors first.2.
Proof.
  intros bus frequency d c first.
  apply (add_entities_idempotent c first.2 (returned [] first.1)).
  unfold first. apply run_returned. vm_compute. reflexivity.
Defined.

(** * Further properties of discovery *)

(** ** Decoding of the device list *)

Lemma read_inverters_app rows1 : forall rows2 acc,
  read_inverters (rows1 ++ rows2) acc =
  match read_inverters rows1 acc with
  | Return acc' => read_inverters rows2 acc'
  | Raise e => Raise e
  | Diverge => Diverge
  end.
Proof.
  induction rows1 as [|row rows1 IH]; intros rows2 acc; [done|].
  cbn [app read_inverters]. unfold mbind, outcome_bind.
  destruct (py_getitem row "dev_id") as [id| |]; [|done..].
  destruct (py_getitem row "dev_sn") as [sn| |]; [|done..].
  destruct (py_getitem row "dev_type") as [ty| |]; [|done..].
  destruct (py_hash sn) as [k| |]; [|done..].
  destruct (py_getitem row "dev_model") as [m| |]; [|done..].
  destruct (py_getitem row "dev_name") as [n| |]; [|done..]. apply IH.
Qed.

(** The device list read row by row: every row gives one descriptor, in
    the order of the list and with no row left out, also when two rows
    have the same serial number. *)
Lemma read_inverters_rows (devices : list (Z * string * Z * string * string)) : forall acc,
  read_inverters
    ((fun r : Z * string * Z * string * string =>
        device_row r.1.1.1.1 r.1.1.1.2 r.1.1.2 r.1.2 r.2) <$> devices) acc
  = Return (acc ++
      ((fun r : Z * string * Z * string * string =>
          {| device_info := {| identifiers := (DOMAIN, KStr r.1.1.1.2);
                               manufacturer := "Sungrow";
                               model := JStr r.1.2; name := JStr r.2;
                               serial_number := JStr r.1.1.1.2 |};
             wi_net_id := JInt r.1.1.1.1;
             device_sn := KStr r.1.1.1.2;
             device_type := get_device_type (JInt r.1.1.2) |}) <$> devices)).
Proof.
  induction devices as [|[[[[id sn] ty] m] n] devices IH]; intros acc.
  - by rewrite app_nil_r.
  - rewrite !fmap_cons. cbn [read_inverters]. unfold device_row at 1.
    cbn [py_getitem]. simplify_map_eq. cbn. rewrite IH. by rewrite <- app_assoc.
Qed.

(** A row that is a dict without [dev_sn] makes the reading of the list
    fail, wherever it stands in the list, with a [KeyError] or, if an
    earlier row is worse, a [TypeError]. *)
Lemma read_inverters_malformed rows : forall acc fields,
  JDict fields ∈ rows -> fields !! "dev_sn" = None ->
  exists e, read_inverters rows acc = Raise e /\ (e = TypeError \/ exists k, e = KeyError k).
Proof.
  induction rows as [|row rows IH]; intros acc fields Hin Hsn; [by apply elem_of_nil in Hin|].
  assert (Hget : forall j key, (exists v, py_getitem j key = Return v)
                               \/ py_getitem j key = Raise TypeError
                               \/ py_getitem j key = Raise (KeyError (KStr key))).
  { intros j key. destruct j as [| | | | |m]; cbn; eauto. destruct (m !! key); eauto. }
  cbn [read_inverters]. unfold mbind, outcome_bind.
  destruct (Hget row "dev_id") as [[id ->]|[->| ->]]; [|eauto..].
  apply elem_of_cons in Hin as [<-|Hin].
  { cbn. rewrite Hsn. eauto. }
  destruct (Hget row "dev_sn") as [[sn ->]|[->| ->]]; [|eauto..].
  destruct (Hget row "dev_type") as [[ty ->]|[->| ->]]; [|eauto..].
  destruct (py_hash sn) as [k| |] eqn:Ek; cycle 1.
  { destruct sn; cbn in Ek; simplify_eq; eauto. }
  { by destruct sn. }
  destruct (Hget row "dev_model") as [[m ->]|[->| ->]]; [|eauto..].
  destruct (Hget row "dev_name") as [[n ->]|[->| ->]]; [|eauto..].
  by eapply IH.
Qed.

Section DiscoveryEdges.
Variable gw : gateway.
Variable fuel : nat.
Variable refresh : Poll unit.

(** ** Batteries and signals *)

Lemma accept_new_fresh infos : forall accepted d,
  d ∈ accept_new accepted infos -> device_sn d ∉ accepted.
Proof.
  induction infos as [|x rest IH]; intros accepted d; cbn [accept_new].
  - by intros ?%elem_of_nil.
  - destruct (bool_decide_reflect (device_sn x ∈ accepted)) as [Hin|Hin]; [by apply IH|].
    intros [->|Hd]%elem_of_cons; [done|].
    intros Hacc. apply (IH _ _ Hd). apply elem_of_app. by left.
Qed.

(** What one pass over the descriptors does to the battery loops and to
    the signals sent. *)
Lemma add_new_inverters_effects (Hid : keeps_identity refresh) infos : forall self r self',
  add_new_inverters refresh infos self = (r, self') ->
  exists cs bs,
    inverter_coordinators self' = inverter_coordinators self ++ cs
    /\ battery_coordinators self' = battery_coordinators self ++ bs
    /\ dispatched self' =
         dispatched self ++ (if bool_decide (config_entry_state self = LOADED) then cs else [])
    /\ Forall (fun b => class_of b = SungrowBatteryUpdateCoordinator) bs
    /\ (inverter_info <$> bs) `prefix_of`
         filter (fun d => device_type d = HYBRID_INVERTER) (inverter_info <$> cs)
    /\ (r = Return tt ->
        inverter_info <$> bs
        = filter (fun d => device_type d = HYBRID_INVERTER) (inverter_info <$> cs)).
Proof.
  induction infos as [|d rest IH]; intros self r self' Hrun.
  - cbn in Hrun. injection Hrun as <- <-. exists [], []. rewrite !app_nil_r.
    split; [done|]. split; [done|]. split; [by destruct (bool_decide _); rewrite app_nil_r|].
    done.
  - rewrite add_new_inverters_cons in Hrun.
    destruct (bool_decide (device_sn d ∈ serials self)); [by apply IH|].
    destruct (refresh (_, sungrow self)) as [[[]|e|] [c w]] eqn:Er.
    2,3: injection Hrun as <- <-; exists [], []; cbn; rewrite !app_nil_r;
         (split; [done|]); (split; [done|]);
         (split; [by destruct (bool_decide _); rewrite app_nil_r|]); done.
    destruct (Hid _ _ _ _ _ Er) as [Hinfo Hcls]. cbn in Hinfo, Hcls.
    cbn zeta in Hrun.
    set (self1 := append_inverter_coordinator c (set_sungrow w self)) in *.
    set (self2 := if bool_decide (config_entry_state self1 = LOADED)
                  then async_dispatcher_send c self1 else self1) in *.
    assert (Hs2 : config_entry_state self2 = config_entry_state self
                  /\ battery_coordinators self2 = battery_coordinators self
                  /\ inverter_coordinators self2 = inverter_coordinators self ++ [c]
                  /\ dispatched self2 =
                       dispatched self ++ (if bool_decide (config_entry_state self = LOADED)
                                           then [c] else [])).
    { subst self2. change (config_entry_state self1) with (config_entry_state self).
      destruct (bool_decide (config_entry_state self = LOADED)); cbn;
        rewrite ?app_nil_r; done. }
    destruct Hs2 as (Hst & Hbat & Hinv & Hdis).
    assert (Hgo : forall self3 bs0,
              config_entry_state self3 = config_entry_state self ->
              inverter_coordinators self3 = inverter_coordinators self ++ [c] ->
              battery_coordinators self3 = battery_coordinators self ++ bs0 ->
              dispatched self3 = dispatched self2 ->
              add_new_inverters refresh rest self3 = (r, self') ->
              exists cs bs,
                inverter_coordinators self' = inverter_coordinators self ++ c :: cs
                /\ battery_coordinators self' = battery_coordinators self ++ bs0 ++ bs
                /\ dispatched self' =
                     dispatched self ++ (if bool_decide (config_entry_state self = LOADED)
                                         then c :: cs else [])
                /\ Forall (fun b => class_of b = SungrowBatteryUpdateCoordinator) bs
                /\ (inverter_info <$> bs) `prefix_of`
                     filter (fun d => device_type d = HYBRID_INVERTER) (inverter_info <$> cs)
                /\ (r = Return tt ->
                    inverter_info <$> bs
                    = filter (fun d => device_type d = HYBRID_INVERTER) (inverter_info <$> cs))).
    { intros self3 bs0 Hst3 Hinv3 Hbat3 Hdis3 Hrun3.
      destruct (IH _ _ _ Hrun3) as (cs & bs & Hcs & Hbs & Hd & Hcls' & Hpre & Heq).
      exists cs, bs. rewrite Hcs, Hinv3, Hbs, Hbat3, Hd, Hdis3, Hdis, Hst3, <- !app_assoc.
      split; [done|]. split; [done|]. split; [|done].
      by destruct (bool_decide (config_entry_state self = LOADED)). }
    destruct (bool_decide_reflect (device_type d = HYBRID_INVERTER)) as [Hh|Hh].
    + destruct (refresh (_, sungrow self2)) as [[[]|e|] [b w']] eqn:Eb.
      * destruct (Hid _ _ _ _ _ Eb) as [Hinfob Hclsb]. cbn in Hinfob, Hclsb.
        destruct (Hgo (append_battery_coordinator b (set_sungrow w' self2)) [b])
          as (cs & bs & Hcs & Hbs & Hd & Hcls' & Hpre & Heq);
          [done|done|by cbn; rewrite Hbat|done|done|].
        exists (c :: cs), (b :: bs). split; [done|]. split; [done|]. split; [done|].
        split; [by constructor|]. rewrite !fmap_cons, Hinfo, Hinfob.
        rewrite (filter_cons_True (fun d => device_type d = HYBRID_INVERTER) d _ Hh).
        split; [by apply prefix_cons|]. intros Hr. by rewrite (Heq Hr).
      * injection Hrun as <- <-. exists [c], []. cbn. rewrite app_nil_r.
        split; [done|]. split; [done|]. split; [done|]. split; [done|].
        split; [apply prefix_nil|done].
      * injection Hrun as <- <-. exists [c], []. cbn. rewrite app_nil_r.
        split; [done|]. split; [done|]. split; [done|]. split; [done|].
        split; [apply prefix_nil|done].
    + destruct (Hgo self2 []) as (cs & bs & Hcs & Hbs & Hd & Hcls' & Hpre & Heq);
        [done|done|by rewrite app_nil_r|done|done|].
      exists (c :: cs), bs. split; [done|]. split; [done|]. split; [done|].
      split; [done|]. rewrite !fmap_cons, Hinfo.
      by rewrite (filter_cons_False (fun d => device_type d = HYBRID_INVERTER) d _ Hh).
Qed.

(** ** The cycle *)

(** X18: In every discovery cycle, whatever its outcome, the battery loops
    added stand, in order, for hybrid inverters given an inverter loop in
    this same cycle; in a cycle that runs to its end every such inverter
    has got its battery loop.  So no battery loop is ever added for a
    serial number that had an inverter loop before the cycle: a battery
    whose first refresh failed is not taken up by a later cycle. *)
Theorem battery_loops_follow_new_hybrids (Hid : keeps_identity refresh)
    (self self' : SungrowWiNet) (r : outcome unit) :
  _init_devices_inverter gw fuel refresh self = (r, self') ->
  exists bs,
    battery_coordinators self' = battery_coordinators self ++ bs
    /\ Forall (fun b => class_of b = SungrowBatteryUpdateCoordinator) bs
    /\ (inverter_info <$> bs) `prefix_of`
         filter (fun d => device_type d = HYBRID_INVERTER) (inverter_info <$> added self self')
    /\ (r = Return tt ->
        inverter_info <$> bs
        = filter (fun d => device_type d = HYBRID_INVERTER) (inverter_info <$> added self self'))
    /\ (forall b, b ∈ bs -> device_sn (inverter_info b) ∉ serials self).
Proof.
  intros Hrun. destruct (init_devices_inverter_run gw fuel refresh self)
    as (r0 & client' & Hget & Hinit).
  rewrite Hinit in Hrun. clear Hinit.
  assert (Hstop : (r, self') = (r, set_sungrow client' self) -> r <> Return tt ->
            exists bs,
              battery_coordinators self' = battery_coordinators self ++ bs
              /\ Forall (fun b => class_of b = SungrowBatteryUpdateCoordinator) bs
              /\ (inverter_info <$> bs) `prefix_of`
                   filter (fun d => device_type d = HYBRID_INVERTER)
                     (inverter_info <$> added self self')
              /\ (r = Return tt ->
                  inverter_info <$> bs
                  = filter (fun d => device_type d = HYBRID_INVERTER)
                      (inverter_info <$> added self self'))
              /\ (forall b, b ∈ bs -> device_sn (inverter_info b) ∉ serials self)).
  { intros [= ->] Hr. exists []. cbn. rewrite app_nil_r. split; [done|]. split; [done|].
    split; [apply prefix_nil|]. split; [done|]. by intros b ?%elem_of_nil. }
  destruct r0 as [infos|e|]; [|injection Hrun as <- <-; by apply Hstop..].
  clear Hstop.
  destruct (add_new_inverters_effects Hid _ _ _ _ Hrun)
    as (cs & bs & Hcs & Hbs & _ & Hcls & Hpre & Heq).
  destruct (add_new_inverters_spec refresh Hid _ _ _ _ Hrun)
    as (_ & _ & cs' & Hcs' & _ & Hacc & _).
  cbn in Hcs, Hbs, Hcs'. rewrite Hcs in Hcs'. apply app_inv_head in Hcs'. subst cs'.
  change (serials (set_sungrow client' self)) with (serials self) in Hacc.
  assert (Hadded : added self self' = cs).
  { unfold added. by rewrite Hcs, drop_app_length. }
  rewrite Hadded. exists bs. split; [done|]. split; [done|]. split; [done|]. split; [done|].
  intros b Hb. apply (accept_new_fresh infos).
  eapply elem_of_prefix; [|exact Hacc].
  assert (Hin : inverter_info b ∈ filter (fun d => device_type d = HYBRID_INVERTER)
                                   (inverter_info <$> cs)).
  { eapply elem_of_prefix; [|exact Hpre]. by apply list_elem_of_fmap_2. }
  by apply list_elem_of_filter in Hin as [_ Hin].
Qed.

(** X19: While the entry is being set up a cycle sends no signal; in a rescan,
    made once the entry is loaded, it sends one signal for each inverter
    loop it adds, in the order it adds them, whatever the outcome of the
    cycle.  The loops signalled are inverter loops: a battery loop is
    never announced. *)
Theorem new_inverters_signalled_on_rescan (Hid : keeps_identity refresh)
    (self self' : SungrowWiNet) (r : outcome unit) :
  _init_devices_inverter gw fuel refresh self = (r, self') ->
  dispatched self' =
    dispatched self ++ (if bool_decide (config_entry_state self = LOADED)
                        then added self self' else [])
  /\ Forall (fun c => class_of c = SungrowInverterUpdateCoordinator) (added self self').
Proof.
  intros Hrun. destruct (init_devices_inverter_run gw fuel refresh self)
    as (r0 & client' & Hget & Hinit).
  rewrite Hinit in Hrun. clear Hinit.
  assert (Hstop : (r, self') = (r, set_sungrow client' self) ->
            dispatched self' =
              dispatched self ++ (if bool_decide (config_entry_state self = LOADED)
                                  then added self self' else [])
            /\ Forall (fun c => class_of c = SungrowInverterUpdateCoordinator)
                 (added self self')).
  { intros [= ->]. unfold added. cbn. rewrite drop_all.
    by destruct (bool_decide _); rewrite app_nil_r. }
  destruct r0 as [infos|e|]; [|injection Hrun as <- <-; by apply Hstop..].
  clear Hstop.
  destruct (add_new_inverters_effects Hid _ _ _ _ Hrun) as (cs & bs & Hcs & _ & Hd & _).
  destruct (add_new_inverters_spec refresh Hid _ _ _ _ Hrun)
    as (_ & _ & cs' & Hcs' & Hcls & _).
  cbn in Hcs, Hd, Hcs'. rewrite Hcs in Hcs'. apply app_inv_head in Hcs'. subst cs'.
  assert (Hadded : added self self' = cs).
  { unfold added. by rewrite Hcs, drop_app_length. }
  by rewrite Hadded.
Qed.

(** ** The device list *)

(** X20: A device list of well-formed rows is turned into one descriptor per
    row, in the order of the list; rows that share a serial number are all
    kept at this stage. *)
Theorem get_inverter_infos_decodes (self : SungrowWiNet) (client' : SungrowWebsocketClient)
    (devices : list (Z * string * Z * string * string)) :
  get_device_info gw fuel (sungrow self)
  = (Return (JList ((fun r : Z * string * Z * string * string =>
                       device_row r.1.1.1.1 r.1.1.1.2 r.1.1.2 r.1.2 r.2) <$> devices)),
     client') ->
  _get_inverter_infos gw fuel self =
  (Return ((fun r : Z * string * Z * string * string =>
              {| device_info := {| identifiers := (DOMAIN, KStr r.1.1.1.2);
                                   manufacturer := "Sungrow";
                                   model := JStr r.1.2; name := JStr r.2;
                                   serial_number := JStr r.1.1.1.2 |};
                 wi_net_id := JInt r.1.1.1.1;
                 device_sn := KStr r.1.1.1.2;
                 device_type := get_device_type (JInt r.1.1.2) |}) <$> devices),
   set_sungrow client' self).
Proof.
  intros Hget. unfold _get_inverter_infos, try_except_else, on_client, zoom.
  rewrite Hget. unfold lift. cbn [py_iter mbind outcome_bind].
  by rewrite (read_inverters_rows devices []).
Qed.

(** X21: A device list with a row that lacks [dev_sn] is not tolerated the way
    a [SungrowError] is: the cycle fails with a [KeyError] or a
    [TypeError], during a rescan as well as during setup, and adds no loop
    and sends no signal, even for the rows that are well formed. *)
Theorem malformed_device_list_fails_cycle (self : SungrowWiNet)
    (client' : SungrowWebsocketClient) (rows : list json) (fields : gmap string json) :
  get_device_info gw fuel (sungrow self) = (Return (JList rows), client') ->
  JDict fields ∈ rows -> fields !! "dev_sn" = None ->
  exists e,
    _init_devices_inverter gw fuel refresh self = (Raise e, set_sungrow client' self)
    /\ (e = TypeError \/ exists k, e = KeyError k)
    /\ is_SungrowError e = false.
Proof.
  intros Hget Hin Hsn.
  destruct (read_inverters_malformed rows [] fields Hin Hsn) as (e & Hrows & He).
  exists e. split; [|split; [done|]].
  - unfold _init_devices_inverter. apply bind_Raise.
    unfold _get_inverter_infos, try_except_else, on_client, zoom.
    rewrite Hget. unfold lift. cbn [py_iter mbind outcome_bind]. by rewrite Hrows.
  - by destruct He as [->|[k ->]].
Qed.

(** X22: While no connection can be opened, a cycle makes the ten attempts of
    [_ensure_connected] and nothing else: during setup it then fails with
    [ConfigEntryNotReady], as a rescan it returns; either way no loop is
    added. *)
Theorem cycle_with_unreachable_gateway (self : SungrowWiNet) :
  (0 < fuel)%nat ->
  live (sungrow self) = false ->
  (forall i, (i < 10)%nat ->
     on_connect gw (connects (session (sungrow self)) + i) = Some TimeoutError) ->
  let cycle := _init_devices_inverter gw fuel refresh self in
  cycle.1 = (if bool_decide (config_entry_state self = LOADED)
             then Return tt else Raise ConfigEntryNotReady)
  /\ log (session (sungrow cycle.2))
     = log (session (sungrow self)) ++ timed_out_attempts (ws_url (sungrow self)) 10
  /\ sends (session (sungrow cycle.2)) = sends (session (sungrow self))
  /\ inverter_coordinators cycle.2 = inverter_coordinators self
  /\ battery_coordinators cycle.2 = battery_coordinators self.
Proof.
  intros Hfuel Hl Hto cycle. destruct fuel as [|fuel']; [lia|].
  destruct (connect_failure_run gw fuel' "devicelist"
              (<["type" := JStr "0"]> {["is_check_token" := JStr "0"]}) (sungrow self) Hl Hto)
    as (client' & Hws & Hs & _ & Hlog).
  assert (Hget : get_device_info gw (S fuel') (sungrow self)
                 = (Raise (SungrowError (FailedToConnect (ws_url (sungrow self)) 10)), client')).
  { unfold get_device_info. by apply bind_Raise. }
  pose proof (get_inverter_infos_failure gw (S fuel') self _ client' Hget eq_refl) as Hinfos.
  subst cycle. unfold _init_devices_inverter.
  destruct (bool_decide (config_entry_state self = LOADED)).
  - rewrite (bind_Return _ _ _ _ _ Hinfos). cbn. done.
  - rewrite (bind_Raise _ _ _ _ _ Hinfos). cbn. done.
Qed.

End DiscoveryEdges.

(** The battery of a hybrid inverter does not answer its first refresh:
    the inverter keeps its loop, and the rescan that finds the inverter
    again adds no battery loop. *)
Lemma battery_loops_follow_new_hybrids_witness :
  let reading := realtime_envelope [row "I18N_COMMON_BUS_VOLTAGE" "652.0" "V"] in
  let devices := devicelist_envelope
                   [device_row 1 "A2320857820" 35 "SH10RT" "SH10RT(COM1-001)"] in
  let gw := ClientSpec.scripted_gateway [None]
              (inl <$> [ClientSpec.connect_reply "t0"; devices; reading;
                        ClientSpec.envelope 8 "LNRequestTimeout" ∅; devices]) in
  let refresh := _async_refresh gw 4 (fun _ => None) in
  let self0 := WiNet.__init__ SETUP_IN_PROGRESS (Sungrow.__init__ "192.168.1.5" 8082) in
  let self1 := (_init_devices_inverter gw 4 refresh self0).2 in
  let self2 := (_init_devices_inverter gw 4 refresh self1).2 in
  serials self1 = [KStr "A2320857820"]
  /\ battery_coordinators self1 = []
  /\ exists bs,
       battery_coordinators self2 = battery_coordinators self1 ++ bs
       /\ Forall (fun b => class_of b = SungrowBatteryUpdateCoordinator) bs
       /\ (inverter_info <$> bs) `prefix_of`
            filter (fun d => device_type d = HYBRID_INVERTER)
              (inverter_info <$> added self1 self2)
       /\ (Return tt = Return tt ->
           inverter_info <$> bs
           = filter (fun d => device_type d = HYBRID_INVERTER)
               (inverter_info <$> added self1 self2))
       /\ (forall b, b ∈ bs -> device_sn (inverter_info b) ∉ serials self1).
Proof.
  intros reading devices gw refresh self0 self1 self2.
  split; [vm_compute; reflexivity|]. split; [vm_compute; reflexivity|].
  apply (battery_loops_follow_new_hybrids gw 4 refresh
           (async_refresh_keeps_identity gw 4 (fun _ => None)) self1 self2 (Return tt)).
  unfold self2. apply run_eta. vm_compute. reflexivity.
Defined.

(** A rescan finds a string inverter. *)
Lemma new_inverters_signalled_on_rescan_witness :
  let reading := realtime_envelope [row "I18N_COMMON_BUS_VOLTAGE" "652.0" "V"] in
  let gw := ClientSpec.scripted_gateway [None]
              (inl <$> [ClientSpec.connect_reply "t0";
                        devicelist_envelope
                          [device_row 2 "B2311452938" 21 "SG5.0RT" "SG5.0RT(COM1-002)"];
                        reading]) in
  let refresh := _async_refresh gw 4 (fun _ => None) in
  let self := WiNet.__init__ LOADED (Sungrow.__init__ "192.168.1.5" 8082) in
  let self' := (_init_devices_inverter gw 4 refresh self).2 in
  length (added self self') = 1%nat
  /\ dispatched self' = dispatched self ++ added self self'
  /\ Forall (fun c => class_of c = SungrowInverterUpdateCoordinator) (added self self').
Proof.
  intros reading gw refresh self self'. split; [vm_compute; reflexivity|].
  apply (new_inverters_signalled_on_rescan gw 4 refresh
           (async_refresh_keeps_identity gw 4 (fun _ => None)) self self'
           (_init_devices_inverter gw 4 refresh self).1).
  unfold self'. by destruct (_init_devices_inverter gw 4 refresh self).
Defined.

(** The gateway lists a hybrid and a string inverter. *)
Lemma get_inverter_infos_decodes_witness :
  let devices := [(1, "A2320857820", 35, "SH10RT", "SH10RT(COM1-001)");
                  (2, "B2311452938", 21, "SG5.0RT", "SG5.0RT(COM1-002)")] in
  let gw := ClientSpec.scripted_gateway [None]
              (inl <$> [ClientSpec.connect_reply "t0";
                        devicelist_envelope
                          [device_row 1 "A2320857820" 35 "SH10RT" "SH10RT(COM1-001)";
                           device_row 2 "B2311452938" 21 "SG5.0RT" "SG5.0RT(COM1-002)"]]) in
  let self := WiNet.__init__ SETUP_IN_PROGRESS (Sungrow.__init__ "192.168.1.5" 8082) in
  (_get_inverter_infos gw 4 self).1 =
  Return ((fun r : Z * string * Z * string * string =>
             {| device_info := {| identifiers := (DOMAIN, KStr r.1.1.1.2);
                                  manufacturer := "Sungrow";
                                  model := JStr r.1.2; name := JStr r.2;
                                  serial_number := JStr r.1.1.1.2 |};
                wi_net_id := JInt r.1.1.1.1;
                device_sn := KStr r.1.1.1.2;
                device_type := get_device_type (JInt r.1.1.2) |}) <$> devices).
Proof.
  intros devices gw self.
  rewrite (get_inverter_infos_decodes gw 4 self (get_device_info gw 4 (sungrow self)).2 devices).
  - reflexivity.
  - apply run_eta. vm_compute. reflexivity.
Defined.

(** The second row of the device list has no serial number; the cycle is
    a rescan. *)
Lemma malformed_device_list_fails_cycle_witness :
  let rows := [device_row 1 "A2320857820" 35 "SH10RT" "SH10RT(COM1-001)";
               JDict {["dev_id" := JInt 2]}] in
  let gw := ClientSpec.scripted_gateway [None]
              (inl <$> [ClientSpec.connect_reply "t0"; devicelist_envelope rows]) in
  let refresh := _async_refresh gw 4 (fun _ => None) in
  let self := WiNet.__init__ LOADED (Sungrow.__init__ "192.168.1.5" 8082) in
  exists e,
    _init_devices_inverter gw 4 refresh self
    = (Raise e, set_sungrow (get_device_info gw 4 (sungrow self)).2 self)
    /\ (e = TypeError \/ exists k, e = KeyError k)
    /\ is_SungrowError e = false.
Proof.
  intros rows gw refresh self.
  apply (malformed_device_list_fails_cycle gw 4 refresh self
           (get_device_info gw 4 (sungrow self)).2 rows {["dev_id" := JInt 2]}).
  - apply run_eta. vm_compute. reflexivity.
  - apply elem_of_cons. right. apply elem_of_cons. by left.
  - reflexivity.
Defined.

(** Nobody answers at the gateway's address while the entry is set up. *)
Lemma cycle_with_unreachable_gateway_witness :
  let gw := ClientSpec.scripted_gateway [] [] in
  let refresh := _async_refresh gw 4 (fun _ => None) in
  let client := Sungrow.__init__ "192.168.1.5" 8082 in
  let self := WiNet.__init__ SETUP_IN_PROGRESS client in
  let cycle := _init_devices_inverter gw 4 refresh self in
  cycle.1 = Raise ConfigEntryNotReady
  /\ log (session (sungrow cycle.2)) = log (session client) ++ timed_out_attempts (ws_url client) 10
  /\ sends (session (sungrow cycle.2)) = sends (session client)
  /\ inverter_coordinators cycle.2 = inverter_coordinators self
  /\ battery_coordinators cycle.2 = battery_coordinators self.
Proof.
  intros gw refresh client self cycle.
  apply (cycle_with_unreachable_gateway gw 4 refresh self).
  - lia.
  - reflexivity.
  - intros i _. unfold gw, ClientSpec.scripted_gateway. cbn. by rewrite lookup_nil.
Defined.
